(** * Portfolio-Insight: Taiwan price ticks, limit-stock scan, market status

    A shallow embedding of

    - [TaiwanStockService.PRICE_TICKS], [get_price_tick],
      [round_taiwan_price], [_parse_limit_stocks_data],
      [_get_backup_limit_data] and [_get_market_status]
      (backend/portfolios/taiwan_stock_service.py), and
    - [StockDataService.get_market_status]
      (backend/portfolios/stock_data_service.py).

    Python [float] is IEEE-754 binary64; it is modelled bit for bit by
    [spec_float] with precision 53 and maximal exponent 1024, so every
    arithmetic step below rounds exactly as CPython does.  Python [int]
    is [Z].  Exceptions are values of [exc]. *)

From Stdlib Require Import ZArith List String Ascii Bool Lia.
From Stdlib Require Import Sorting.Sorted Sorting.Permutation.
From Stdlib Require Import Floats.SpecFloat.
Import ListNotations.
Open Scope Z_scope.

(** ** Exceptions *)

Inductive exn : Type :=
| ValueError
| IndexError
| OverflowError.

Inductive exc (A : Type) : Type :=
| Ok (a : A)
| Raise (e : exn).
Arguments Ok {A} a.
Arguments Raise {A} e.

Definition bind {A B : Type} (m : exc A) (k : A -> exc B) : exc B :=
  match m with
  | Ok a => k a
  | Raise e => Raise e
  end.

Notation "x <- m ;; k" := (bind m (fun x => k))
  (at level 61, m at next level, right associativity).

(** ** binary64 *)

Module F64.

Definition prec : Z := 53.
Definition emax : Z := 1024.

Definition float : Type := spec_float.

Definition zero : float := S754_zero false.
Definition inf : float := S754_infinity false.

Definition div : float -> float -> float := SFdiv prec emax.
Definition mul : float -> float -> float := SFmul prec emax.
Definition sub : float -> float -> float := SFsub prec emax.
Definition opp : float -> float := SFopp.

Definition leb : float -> float -> bool := SFleb.
Definition ltb : float -> float -> bool := SFltb.

Definition valid : float -> bool := valid_binary prec emax.

Definition is_nan (x : float) : bool :=
  match x with S754_nan => true | _ => false end.

Definition is_finite (x : float) : bool :=
  match x with S754_zero _ | S754_finite _ _ _ => true | _ => false end.

(** The binary64 nearest to the integer [z] (ties to even); may be an
    infinity when [z] is out of range. *)
Definition of_Z_round (z : Z) : float := binary_normalize prec emax z 0 false.

(** [float(n)] for a Python int, also the implicit conversion of the int
    operand of [int * float] and [int - float]: OverflowError
    ("int too large to convert to float") when out of range. *)
Definition of_int (z : Z) : exc float :=
  match of_Z_round z with
  | S754_infinity _ => Raise OverflowError
  | f => Ok f
  end.

(** The binary64 nearest to [m * 10^e] (ties to even), with sign [neg];
    this is what [float(str)] and float literals denote. *)
Definition of_decimal (neg : bool) (m : Z) (e : Z) : float :=
  match m with
  | Z0 => S754_zero neg
  | Zneg _ => S754_nan
  | Zpos p =>
      if 0 <=? e then binary_round prec emax neg (p * Z.to_pos (10 ^ e)) 0
      else
        let '(mz, ez, lz) := SFdiv_core_binary prec emax m 0 (10 ^ (- e)) 0 in
        binary_round_aux prec emax neg mz ez lz
  end.

(** Round half to even of [m / d] for [0 <= m], [0 < d]. *)
Definition div_half_even (m d : Z) : Z :=
  let q := m / d in
  let r := m mod d in
  match 2 * r ?= d with
  | Lt => q
  | Gt => q + 1
  | Eq => if Z.even q then q else q + 1
  end.

(** Python's one-argument [round(x)] on a float: the nearest int, ties
    to even; ValueError on NaN, OverflowError on an infinity. *)
Definition round (x : float) : exc Z :=
  match x with
  | S754_nan => Raise ValueError
  | S754_infinity _ => Raise OverflowError
  | S754_zero _ => Ok 0
  | S754_finite s m e =>
      let a := if 0 <=? e then Zpos m * 2 ^ e
               else div_half_even (Zpos m) (2 ^ (- e)) in
      Ok (cond_Zopp s a)
  end.

(** Python's [int(x)] on a float: truncation toward zero. *)
Definition trunc (x : float) : exc Z :=
  match x with
  | S754_nan => Raise ValueError
  | S754_infinity _ => Raise OverflowError
  | S754_zero _ => Ok 0
  | S754_finite s m e =>
      let a := if 0 <=? e then Zpos m * 2 ^ e else Zpos m / 2 ^ (- e) in
      Ok (cond_Zopp s a)
  end.

End F64.

Definition float : Type := F64.float.

(** ** Python numbers: [int] or [float] *)

Inductive pynum : Type :=
| PyInt (z : Z)
| PyFloat (f : float).

(** [a - b] with a float right operand. *)
Definition num_sub_float (a : pynum) (b : float) : exc float :=
  match a with
  | PyInt z => fa <- F64.of_int z ;; Ok (F64.sub fa b)
  | PyFloat fa => Ok (F64.sub fa b)
  end.

(** [n * a] with an int left operand. *)
Definition int_mul_num (n : Z) (a : pynum) : exc pynum :=
  match a with
  | PyInt z => Ok (PyInt (n * z))
  | PyFloat fa => fn <- F64.of_int n ;; Ok (PyFloat (F64.mul fn fa))
  end.

(** [int(a)]. *)
Definition num_to_int (a : pynum) : exc Z :=
  match a with
  | PyInt z => Ok z
  | PyFloat f => F64.trunc f
  end.

(** The value of a number as a float, where it has one. *)
Definition num_as_float (a : pynum) : exc float :=
  match a with
  | PyInt z => F64.of_int z
  | PyFloat f => Ok f
  end.

(** ** Float literals of the source *)

Definition f0_01 : float := Eval vm_compute in F64.of_decimal false 1 (-2).
Definition f0_05 : float := Eval vm_compute in F64.of_decimal false 5 (-2).
Definition f0_1 : float := Eval vm_compute in F64.of_decimal false 1 (-1).
Definition f0_5 : float := Eval vm_compute in F64.of_decimal false 5 (-1).
Definition f1_0 : float := Eval vm_compute in F64.of_decimal false 10 (-1).
Definition f5_0 : float := Eval vm_compute in F64.of_decimal false 50 (-1).
Definition f9_5 : float := Eval vm_compute in F64.of_decimal false 95 (-1).
Definition f9_9 : float := Eval vm_compute in F64.of_decimal false 99 (-1).
Definition f10 : float := Eval vm_compute in F64.of_Z_round 10.
Definition f50 : float := Eval vm_compute in F64.of_Z_round 50.
Definition f100 : float := Eval vm_compute in F64.of_Z_round 100.
Definition f500 : float := Eval vm_compute in F64.of_Z_round 500.
Definition f1000 : float := Eval vm_compute in F64.of_Z_round 1000.

(** ** Price ticks *)

Module TaiwanStockService.

(** [PRICE_TICKS].  The source writes the bounds 0, 10, ..., 1000 as ints
    and the last upper bound as [float('inf')].  Python compares an int
    with a float by exact value and each of these ints is a binary64, so
    the bound is stored as the float it compares equal to. *)
Definition PRICE_TICKS : list (float * float * float) :=
  [ (F64.zero, f10, f0_01);
    (f10, f50, f0_05);
    (f50, f100, f0_1);
    (f100, f500, f0_5);
    (f500, f1000, f1_0);
    (f1000, F64.inf, f5_0) ].

(** [min_price <= price < max_price]. *)
Definition in_band (band : float * float * float) (price : float) : bool :=
  let '(min_price, max_price, _) := band in
  F64.leb min_price price && F64.ltb price max_price.

Fixpoint first_tick (bands : list (float * float * float)) (price : float)
  : option float :=
  match bands with
  | [] => None
  | band :: rest =>
      if in_band band price then Some (snd band) else first_tick rest price
  end.

Definition get_price_tick (price : float) : float :=
  match first_tick PRICE_TICKS price with
  | Some tick => tick
  | None => f5_0
  end.

Definition round_taiwan_price (price : float) : exc pynum :=
  if F64.leb price F64.zero then Ok (PyInt 0)
  else
    let tick := get_price_tick price in
    n <- F64.round (F64.div price tick) ;;
    int_mul_num n (PyFloat tick).

End TaiwanStockService.

(** ** Strings

    A Python [str] is modelled by [string]; the character with code [n]
    stands for the code point [n], so the model covers text of code
    points below 256.  In that range the decimal digits are 0-9 and the
    white space stripped by [float()] and [int()] is 9-13, 32, 133
    and 160. *)

Definition chars : Type := list ascii.

Definition code_of (c : ascii) : nat := nat_of_ascii c.

Definition is_digit (c : ascii) : bool :=
  ((48 <=? code_of c) && (code_of c <=? 57))%nat.

Definition is_space (c : ascii) : bool :=
  (((9 <=? code_of c) && (code_of c <=? 13))
   || (code_of c =? 32) || (code_of c =? 133) || (code_of c =? 160))%nat.

Definition to_lower (c : ascii) : ascii :=
  if ((65 <=? code_of c) && (code_of c <=? 90))%nat
  then ascii_of_nat (code_of c + 32) else c.

Definition chars_eqb (a b : chars) : bool :=
  String.eqb (string_of_list_ascii a) (string_of_list_ascii b).

Fixpoint lstrip (cs : chars) : chars :=
  match cs with
  | c :: rest => if is_space c then lstrip rest else cs
  | [] => []
  end.

Definition strip (cs : chars) : chars := rev (lstrip (rev (lstrip cs))).

(** [s.replace(old, '')] for a one-character [old]. *)
Definition remove_char (old : ascii) (s : string) : string :=
  string_of_list_ascii
    (filter (fun c => negb (Ascii.eqb c old)) (list_ascii_of_string s)).

(** [s in ['--', '-', '']]. *)
Definition is_sentinel (s : string) : bool :=
  String.eqb s "--" || String.eqb s "-" || String.eqb s "".

Fixpoint span_digits (cs : chars) : chars * chars :=
  match cs with
  | c :: rest =>
      if is_digit c then let '(ds, tl) := span_digits rest in (c :: ds, tl)
      else ([], cs)
  | [] => ([], [])
  end.

Definition digits_value (ds : chars) : Z :=
  fold_left (fun acc c => 10 * acc + (Z.of_nat (code_of c) - 48)) ds 0.

(** Digit-group underscores: each one directly after a digit and directly
    before a digit. *)
Fixpoint underscores_ok (prev : ascii) (cs : chars) : bool :=
  match cs with
  | [] => negb (Ascii.eqb prev "_")
  | c :: rest =>
      (if Ascii.eqb c "_" then is_digit prev
       else if Ascii.eqb prev "_" then is_digit c else true)
      && underscores_ok c rest
  end.

Definition split_sign (cs : chars) : bool * chars :=
  match cs with
  | "-"%char :: rest => (true, rest)
  | "+"%char :: rest => (false, rest)
  | _ => (false, cs)
  end.

Definition drop_underscores (cs : chars) : chars :=
  filter (fun c => negb (Ascii.eqb c "_")) cs.

Definition all_digits (cs : chars) : bool :=
  match cs with [] => false | _ => forallb is_digit cs end.

(** [float(s)] on a string: ValueError when [s] is not a float literal. *)
Definition float_of_string (s : string) : exc float :=
  let cs := strip (list_ascii_of_string s) in
  let '(neg, body) := split_sign cs in
  let low := map to_lower body in
  if chars_eqb low (list_ascii_of_string "inf")
     || chars_eqb low (list_ascii_of_string "infinity")
  then Ok (S754_infinity neg)
  else if chars_eqb low (list_ascii_of_string "nan") then Ok S754_nan
  else if negb (underscores_ok Ascii.zero cs) then Raise ValueError
  else
    let '(ip, r1) := span_digits (drop_underscores body) in
    let '(fp, r2) :=
      match r1 with
      | "."%char :: rest => span_digits rest
      | _ => ([], r1)
      end in
    let m := digits_value (ip ++ fp) in
    let scale := - Z.of_nat (List.length fp) in
    match ip ++ fp with
    | [] => Raise ValueError
    | _ =>
        match r2 with
        | [] => Ok (F64.of_decimal neg m scale)
        | c :: rest =>
            if Ascii.eqb (to_lower c) "e" then
              let '(eneg, ed) := split_sign rest in
              if all_digits ed
              then Ok (F64.of_decimal neg m
                         (cond_Zopp eneg (digits_value ed) + scale))
              else Raise ValueError
            else Raise ValueError
        end
    end.

(** [sys.get_int_max_str_digits()], the default cap of CPython on the
    number of digits that [int(str)] converts. *)
Definition int_max_str_digits : Z := 4300.

(** [int(s)] on a string, base 10: ValueError when [s] is not an int
    literal, and when it has more than [int_max_str_digits] digits
    (leading zeros count; sign, underscores and surrounding white space
    do not). *)
Definition int_of_string (s : string) : exc Z :=
  let cs := strip (list_ascii_of_string s) in
  let '(neg, body) := split_sign cs in
  if underscores_ok Ascii.zero cs && all_digits (drop_underscores body)
  then
    if int_max_str_digits <? Z.of_nat (List.length (drop_underscores body))
    then Raise ValueError
    else Ok (cond_Zopp neg (digits_value (drop_underscores body)))
  else Raise ValueError.

(** [row[i]]. *)
Definition index {A : Type} (row : list A) (i : nat) : exc A :=
  match nth_error row i with
  | Some a => Ok a
  | None => Raise IndexError
  end.

(** ** The limit-stock scan *)

Module LimitScan.
Import TaiwanStockService.

(** The display label of a listed stock: the four Chinese strings of the
    source, in the order limit-up, near limit-up, limit-down, near
    limit-down. *)
Inductive status_label : Type :=
| StatusLimitUp
| StatusNearLimitUp
| StatusLimitDown
| StatusNearLimitDown.

(** One dict appended to [limit_up_stocks] or [limit_down_stocks].
    ['volume'] and ['turnover'] hold the ints whose comma-grouped
    rendering the source stores; ['limit_time'], a random clock time
    from [_estimate_limit_time], is left out. *)
Record stock : Type := {
  code : string;
  name : string;
  symbol : string;
  current_price : pynum;
  reference_price : pynum;
  change : float;
  change_percent : float;
  volume : Z;
  turnover : Z;
  is_limit : bool;
  limit_type : string;
  status : status_label
}.

(** The values bound by lines 227-245 of the row loop. *)
Record parsed_row : Type := {
  p_code : string;
  p_name : string;
  p_current_price : pynum;
  p_previous_price : pynum;
  p_change : float;
  p_change_percent : float;
  p_volume : Z
}.

(** The raw floats parsed from a row, before tick rounding: [None] when
    the sentinel test of line 235 says [continue]. *)
Definition parse_fields (stock_row : list string)
  : exc (option (string * string * float * float * float * Z)) :=
  stock_code <- index stock_row 0 ;;
  stock_name <- index stock_row 1 ;;
  current_price_str <- index stock_row 8 ;;
  change_str <- index stock_row 10 ;;
  change_percent_str <- index stock_row 11 ;;
  volume_str <- index stock_row 2 ;;
  if is_sentinel current_price_str || is_sentinel change_percent_str
  then Ok None
  else
    current_price <- float_of_string (remove_char "," current_price_str) ;;
    change_percent <-
      float_of_string (remove_char "+" (remove_char "%" change_percent_str)) ;;
    change <- float_of_string (remove_char "+" (remove_char "," change_str)) ;;
    volume <- (if is_sentinel volume_str then Ok 0
               else int_of_string (remove_char "," volume_str)) ;;
    Ok (Some (stock_code, stock_name, current_price, change_percent,
              change, volume)).

(** Lines 227-245: the fields, then the two tick roundings. *)
Definition parse_row (stock_row : list string) : exc (option parsed_row) :=
  fields <- parse_fields stock_row ;;
  match fields with
  | None => Ok None
  | Some (stock_code, stock_name, raw_price, change_percent, change, volume) =>
      current_price <- round_taiwan_price raw_price ;;
      diff <- num_sub_float current_price change ;;
      previous_price <- round_taiwan_price diff ;;
      Ok (Some {| p_code := stock_code; p_name := stock_name;
                  p_current_price := current_price;
                  p_previous_price := previous_price;
                  p_change := change; p_change_percent := change_percent;
                  p_volume := volume |})
  end.

(** [int(volume * current_price)]. *)
Definition turnover_of (volume : Z) (current_price : pynum) : exc Z :=
  product <- int_mul_num volume current_price ;;
  num_to_int product.

(** What one pass of the loop body does to the two lists. *)
Inductive action : Type :=
| NoAppend
| AppendUp (s : stock)
| AppendDown (s : stock).

(** Lines 248-281: the [if] / [elif] on the change percent and the dict
    each branch appends. *)
Definition classify (p : parsed_row) : exc action :=
  if F64.leb f9_5 (p_change_percent p) then
    t <- turnover_of (p_volume p) (p_current_price p) ;;
    Ok (AppendUp
          {| code := p_code p; name := p_name p;
             symbol := p_code p ++ ".TW";
             current_price := p_current_price p;
             reference_price := p_previous_price p;
             change := p_change p;
             change_percent := p_change_percent p;
             volume := p_volume p; turnover := t;
             is_limit := F64.leb f9_9 (p_change_percent p);
             limit_type := "up";
             status := if F64.leb f9_9 (p_change_percent p)
                       then StatusLimitUp else StatusNearLimitUp |})
  else if F64.leb (p_change_percent p) (F64.opp f9_5) then
    t <- turnover_of (p_volume p) (p_current_price p) ;;
    Ok (AppendDown
          {| code := p_code p; name := p_name p;
             symbol := p_code p ++ ".TW";
             current_price := p_current_price p;
             reference_price := p_previous_price p;
             change := p_change p;
             change_percent := p_change_percent p;
             volume := p_volume p; turnover := t;
             is_limit := F64.leb (p_change_percent p) (F64.opp f9_9);
             limit_type := "down";
             status := if F64.leb (p_change_percent p) (F64.opp f9_9)
                       then StatusLimitDown else StatusNearLimitDown |})
  else Ok NoAppend.

(** The [try] block of the loop body. *)
Definition row_body (stock_row : list string) : exc action :=
  parsed <- parse_row stock_row ;;
  match parsed with
  | None => Ok NoAppend
  | Some p => classify p
  end.

(** One iteration: the length test, the [try] block and its
    [except (ValueError, IndexError): continue].  [Raise] is an
    exception that leaves the loop. *)
Definition process_row (stock_row : list string) : exc action :=
  if (List.length stock_row <? 9)%nat then Ok NoAppend
  else
    match row_body stock_row with
    | Raise ValueError | Raise IndexError => Ok NoAppend
    | r => r
    end.

(** The [for] loop: the two lists in append order. *)
Fixpoint scan_rows (stocks_data : list (list string))
         (limit_up_stocks limit_down_stocks : list stock)
  : exc (list stock * list stock) :=
  match stocks_data with
  | [] => Ok (limit_up_stocks, limit_down_stocks)
  | stock_row :: rest =>
      r <- process_row stock_row ;;
      match r with
      | NoAppend => scan_rows rest limit_up_stocks limit_down_stocks
      | AppendUp s => scan_rows rest (limit_up_stocks ++ [s]) limit_down_stocks
      | AppendDown s =>
          scan_rows rest limit_up_stocks (limit_down_stocks ++ [s])
      end
  end.

(** [list.sort(key=..., reverse=...)] with float keys.  The sort is
    stable and compares keys with [<] only; on keys that [<] orders
    totally (no NaN) its result is the one computed here: insert each
    element in turn behind the elements that are not greater.  With
    [reverse=True] the list is reversed, sorted, and reversed again. *)
Section Sort.
Context {A : Type} (key : A -> float).

Fixpoint insert (x : A) (l : list A) : list A :=
  match l with
  | [] => [x]
  | y :: rest =>
      if F64.ltb (key x) (key y) then x :: l else y :: insert x rest
  end.

Definition sort_asc (l : list A) : list A :=
  fold_left (fun acc x => insert x acc) l [].

Definition sort (reverse : bool) (l : list A) : list A :=
  if reverse then rev (sort_asc (rev l)) else sort_asc l.
End Sort.

Record scan_summary : Type := {
  total_scanned : nat;
  limit_up_found : nat;
  limit_down_found : nat
}.

(** The returned dict, without its wall-clock and provenance strings
    (['last_updated'], ['data_source'], ['market_date'], ['scan_time']);
    [error] tells whether the ['error'] key is present. *)
Record scan_result : Type := {
  limit_up : list stock;
  limit_down : list stock;
  error : bool;
  summary : scan_summary
}.

Definition _get_backup_limit_data : scan_result :=
  {| limit_up := []; limit_down := []; error := true;
     summary := {| total_scanned := 0; limit_up_found := 0;
                   limit_down_found := 0 |} |}.

(** [data9] is [data.get('data9')]: [None] when the key is absent. *)
Definition _parse_limit_stocks_data (data9 : option (list (list string)))
  : scan_result :=
  match data9 with
  | None => _get_backup_limit_data
  | Some stocks_data =>
      match scan_rows stocks_data [] [] with
      | Raise _ => _get_backup_limit_data
      | Ok (ups, downs) =>
          let limit_up_stocks := sort change_percent true ups in
          let limit_down_stocks := sort change_percent false downs in
          {| limit_up := firstn 20 limit_up_stocks;
             limit_down := firstn 20 limit_down_stocks;
             error := false;
             summary :=
               {| total_scanned := List.length stocks_data;
                  limit_up_found := List.length limit_up_stocks;
                  limit_down_found := List.length limit_down_stocks |} |}
      end
  end.

End LimitScan.

(** ** Wall-clock time *)

(** A naive [datetime]: the date as its proleptic Gregorian ordinal
    ([toordinal()], day 1 is 0001-01-01) and the time of day. *)
Record datetime : Type := {
  ordinal : Z;
  hour : Z;
  minute : Z;
  second : Z;
  microsecond : Z
}.

(** [date.max.toordinal()], 9999-12-31. *)
Definition max_ordinal : Z := 3652059.

(** [weekday()]: 0 is Monday, 6 is Sunday. *)
Definition weekday (d : datetime) : Z := (ordinal d + 6) mod 7.

(** [d + timedelta(days=n)]: OverflowError ("date value out of range")
    outside years 1..9999. *)
Definition add_days (d : datetime) (n : Z) : exc datetime :=
  let o := ordinal d + n in
  if (1 <=? o) && (o <=? max_ordinal) then
    Ok {| ordinal := o; hour := hour d; minute := minute d;
          second := second d; microsecond := microsecond d |}
  else Raise OverflowError.

(** [d.replace(hour=h, minute=m, second=0, microsecond=0)] for in-range
    constants [h], [m]. *)
Definition at_time (d : datetime) (h m : Z) : datetime :=
  {| ordinal := ordinal d; hour := h; minute := m;
     second := 0; microsecond := 0 |}.

(** A well-formed [datetime] value. *)
Definition well_formed (d : datetime) : Prop :=
  1 <= ordinal d <= max_ordinal /\ 0 <= hour d < 24 /\ 0 <= minute d < 60
  /\ 0 <= second d < 60 /\ 0 <= microsecond d < 1000000.

Module StockDataService.

(** The dict built by [get_market_status]; ['next_open'] and
    ['next_close'] hold the [datetime] whose [isoformat()] the source
    stores.  The constant ['timezone'], the echo of [now] and the
    ['markets'] table (NYSE and NASDAQ repeat ['is_open']) are left
    out. *)
Record market_status : Type := {
  is_open : bool;
  next_open : option datetime;
  next_close : option datetime;
  trading_day : bool
}.

(** The [try] block, on [now = datetime.now()]. *)
Definition market_status_body (now : datetime) : exc market_status :=
  if weekday now <? 5 then
    let open_now := (13 <=? hour now) && (hour now <? 21) in
    next_open' <-
      (if hour now <? 13 then Ok (Some (at_time now 13 30))
       else if 21 <=? hour now then
         next_day <- add_days now 1 ;;
         if weekday next_day <? 5 then Ok (Some (at_time next_day 13 30))
         else
           let days_until_monday := 7 - weekday next_day in
           next_monday <- add_days next_day days_until_monday ;;
           Ok (Some (at_time next_monday 13 30))
       else Ok None) ;;
    Ok {| is_open := open_now;
          next_open := next_open';
          next_close := if open_now then Some (at_time now 21 0) else None;
          trading_day := true |}
  else
    let days_until_monday := 7 - weekday now in
    next_monday <- add_days now days_until_monday ;;
    Ok {| is_open := false;
          next_open := Some (at_time next_monday 13 30);
          next_close := None;
          trading_day := false |}.

(** What the caller receives: the status dict, or the dict of the
    [except Exception] handler, which has ['is_open'] false and an
    ['error'] key. *)
Inductive market_status_result : Type :=
| StatusDict (s : market_status)
| ErrorDict.

Definition get_market_status (now : datetime) : market_status_result :=
  match market_status_body now with
  | Ok s => StatusDict s
  | Raise _ => ErrorDict
  end.

(** [result['is_open']]. *)
Definition result_is_open (r : market_status_result) : bool :=
  match r with
  | StatusDict s => is_open s
  | ErrorDict => false
  end.

End StockDataService.

(** [TaiwanStockService._get_market_status]: [true] stands for the
    returned label "open", [false] for the label "closed". *)
Definition _get_market_status (now : datetime) : bool :=
  if 5 <=? weekday now then false
  else if (hour now =? 9) && (0 <=? minute now) then true
  else if (10 <=? hour now) && (hour now <=? 12) then true
  else if (hour now =? 13) && (minute now <=? 30) then true
  else false.


(** * Further functions of the two services *)

From Stdlib Require Import DecimalString.

(** ** Random draws

    [random] is modelled by its draws: the argument [u] of [randint]
    and [choice] is the generator's output for that call, any integer;
    reduced to the requested range it makes every value of the range,
    and no other, a possible result. *)

Module Random.

(** [random.randint(a, b)]: ValueError on an empty range. *)
Definition randint (a b u : Z) : exc Z :=
  if b <? a then Raise ValueError else Ok (a + u mod (b - a + 1)).

(** [random.choice(seq)]: IndexError on an empty sequence. *)
Definition choice (seq : list Z) (u : Z) : exc Z :=
  match seq with
  | [] => Raise IndexError
  | _ => Ok (nth (Z.to_nat (u mod Z.of_nat (List.length seq))) seq 0)
  end.

End Random.

(** ** Builtins on values decoded from JSON *)

Module Builtins.

(** [round(x, 2)] on a float: the decimal with two places nearest to
    the exact value of [x] (ties to even), read back as a float;
    infinities and NaN are returned as they are. *)
Definition round2 (x : float) : float :=
  match x with
  | S754_finite s m e =>
      let n := if 0 <=? e then 100 * Zpos m * 2 ^ e
               else F64.div_half_even (100 * Zpos m) (2 ^ (- e)) in
      F64.of_decimal s n (-2)
  | _ => x
  end.

(** [round(x, 2)] on an int or a float: an int is returned as it is. *)
Definition round2_num (x : pynum) : pynum :=
  match x with
  | PyInt z => PyInt z
  | PyFloat f => PyFloat (round2 f)
  end.

(** A value decoded from JSON: a string, an int (the booleans are the
    ints 1 and 0), a float, or anything else (null, a list, an
    object). *)
Inductive json : Type :=
| JStr (s : string)
| JInt (n : Z)
| JFloat (f : float)
| JOther.

(** The value of a call when every exception it raises is caught by
    [except Exception] and turned into [None]. *)
Definition caught {A : Type} (m : exc A) : option A :=
  match m with
  | Ok a => Some a
  | Raise _ => None
  end.

(** [float(v)]; [None] stands for the exception it raises
    (ValueError, OverflowError, or TypeError on [JOther]). *)
Definition py_float (v : json) : option float :=
  match v with
  | JStr s => caught (float_of_string s)
  | JInt n => caught (F64.of_int n)
  | JFloat f => Some f
  | JOther => None
  end.

(** [int(v)]. *)
Definition py_int (v : json) : option Z :=
  match v with
  | JStr s => caught (int_of_string s)
  | JInt n => Some n
  | JFloat f => caught (F64.trunc f)
  | JOther => None
  end.

(** [v.replace(old, '')]: only a string has the method. *)
Definition py_replace (old : ascii) (v : json) : option json :=
  match v with
  | JStr s => Some (JStr (remove_char old s))
  | _ => None
  end.

(** [d.get(key, default)] on the looked-up field. *)
Definition get_or (field : option json) (default : json) : json :=
  match field with
  | Some v => v
  | None => default
  end.

End Builtins.

(** ** Remaining functions of [TaiwanStockService] *)

Module TaiwanFeeds.
Import Random LimitScan Builtins.

(** [f"{n:02d}"]: decimal digits, zero-padded to width 2. *)
Definition format_02d (n : Z) : string :=
  let digits := NilZero.string_of_int (Z.to_int n) in
  if (String.length digits <? 2)%nat then ("0" ++ digits)%string else digits.

(** [f"{hour:02d}:{minute:02d}"]. *)
Definition format_clock (hour minute : Z) : string :=
  (format_02d hour ++ ":" ++ format_02d minute)%string.

(** [_estimate_limit_time], on [now = datetime.now()] and the draws
    [u1], [u2] of its first and second call to [random]. *)
Definition _estimate_limit_time (now : datetime) (u1 u2 : Z) : exc string :=
  if (9 <=? hour now) && (hour now <=? 13) then
    if (hour now =? 13) && (30 <? minute now) then Ok "13:30"%string
    else
      let max_hour := Z.min (hour now) 13 in
      let max_minute := if max_hour =? hour now then minute now else 59 in
      hour' <- randint 9 max_hour u1 ;;
      minute' <- (if hour' =? max_hour then randint 0 max_minute u2
                  else if hour' =? 13 then randint 0 30 u2
                  else randint 0 59 u2) ;;
      Ok (format_clock hour' minute')
  else
    hour' <- choice [9; 10; 11; 12; 13] u1 ;;
    minute' <- (if hour' =? 13 then randint 0 30 u2 else randint 0 59 u2) ;;
    Ok (format_clock hour' minute').

(** [get_real_limit_stocks], on the outcome of [requests.get]: an
    exception, or the response's [status_code] with the outcome of its
    [json()] reduced to [data.get('data9')]. *)
Definition get_real_limit_stocks
           (reply : exc (Z * exc (option (list (list string)))))
  : scan_result :=
  match reply with
  | Ok (status_code, body) =>
      if status_code =? 200 then
        match body with
        | Ok data9 => _parse_limit_stocks_data data9
        | Raise _ => _get_backup_limit_data
        end
      else _get_backup_limit_data
  | Raise _ => _get_backup_limit_data
  end.

Definition get_limit_stocks
           (reply : exc (Z * exc (option (list (list string)))))
  : scan_result :=
  get_real_limit_stocks reply.

(** One index dict, without its display name, timestamp, market-status
    and provenance strings. *)
Record index_quote : Type := {
  idx_symbol : string;
  idx_type : string;
  idx_current_price : pynum;
  idx_change : pynum;
  idx_change_percent : pynum;
  idx_volume : Z
}.

(** The fields that [_get_taiex_index] reads from [msgArray[0]]: last
    price ['z'], previous close ['y'] and volume ['v'], each [None]
    when the key is absent. *)
Record taiex_info : Type := {
  z_field : option json;
  y_field : option json;
  v_field : option json
}.

(** The body of [_get_taiex_index] from [index_info] on, inside its
    [try].  The division is evaluated only when [previous_value > 0],
    so its divisor is never zero. *)
Definition taiex_of_info (index_info : taiex_info) : option index_quote :=
  match py_float (get_or (z_field index_info) (JInt 0)) with
  | None => None
  | Some current_value =>
      match py_float (get_or (y_field index_info) (JFloat current_value)) with
      | None => None
      | Some previous_value =>
          let change := F64.sub current_value previous_value in
          let change_percent :=
            if F64.ltb F64.zero previous_value
            then PyFloat (F64.mul (F64.div change previous_value) f100)
            else PyInt 0 in
          match py_int (get_or (v_field index_info) (JInt 0)) with
          | None => None
          | Some volume =>
              Some {| idx_symbol := "^TWII"; idx_type := "main";
                      idx_current_price := PyFloat (round2 current_value);
                      idx_change := PyFloat (round2 change);
                      idx_change_percent := round2_num change_percent;
                      idx_volume := volume |}
          end
      end
  end.

(** [_get_taiex_index], on the outcome of [requests.get]: an exception,
    or the status code with the outcome of [json()] reduced to
    ['msgArray'] ([None] when the key is absent). *)
Definition _get_taiex_index
           (reply : exc (Z * exc (option (list taiex_info))))
  : option index_quote :=
  match reply with
  | Ok (status_code, Ok (Some (index_info :: _))) =>
      if status_code =? 200 then taiex_of_info index_info else None
  | _ => None
  end.

(** The body of [_get_otc_index] from [index_data] on: columns 1, 2
    and 3 of the first row of ['aaData']. *)
Definition otc_of_row (index_data : list json) : option index_quote :=
  match nth_error index_data 1, nth_error index_data 2,
        nth_error index_data 3 with
  | Some c1, Some c2, Some c3 =>
      match option_map py_float (py_replace "," c1),
            option_map py_float (py_replace "," c2),
            option_map py_float (py_replace "%" c3) with
      | Some (Some current_value), Some (Some change),
        Some (Some change_percent) =>
          Some {| idx_symbol := "^TPEX"; idx_type := "otc";
                  idx_current_price := PyFloat (round2 current_value);
                  idx_change := PyFloat (round2 change);
                  idx_change_percent := PyFloat (round2 change_percent);
                  idx_volume := 0 |}
      | _, _, _ => None
      end
  | _, _, _ => None
  end.

(** [_get_otc_index], on the outcome of [requests.get], with the
    outcome of [json()] reduced to ['aaData']. *)
Definition _get_otc_index
           (reply : exc (Z * exc (option (list (list json)))))
  : option index_quote :=
  match reply with
  | Ok (status_code, Ok (Some (index_data :: _))) =>
      if status_code =? 200 then otc_of_row index_data else None
  | _ => None
  end.

(** [get_taiwan_indices], on what [_get_taiex_index] and
    [_get_otc_index] return ([None] or a dict; neither raises). *)
Definition get_taiwan_indices (taiex_data otc_data : option index_quote)
  : list index_quote :=
  let indices_data := [] in
  let indices_data :=
    match taiex_data with
    | Some d => indices_data ++ [d]
    | None => indices_data
    end in
  match otc_data with
  | Some d => indices_data ++ [d]
  | None => indices_data
  end.

(** [next((idx for idx in indices if idx['type'] == t), None)]. *)
Definition first_of_type (t : string) (indices : list index_quote)
  : option index_quote :=
  find (fun idx => String.eqb (idx_type idx) t) indices.

(** The dict of [get_taiwan_market_summary], without its date, status
    and provenance strings. *)
Record market_summary : Type := {
  main : option index_quote;
  otc : option index_quote;
  all : list index_quote;
  limit_up_count : nat;
  limit_down_count : nat;
  limit_up_stocks : list stock;
  limit_down_stocks : list stock;
  summary_scan : scan_summary
}.

(** [get_taiwan_market_summary], on the results of the two index
    fetches and the reply to the limit-stock request. *)
Definition get_taiwan_market_summary
           (taiex_data otc_data : option index_quote)
           (reply : exc (Z * exc (option (list (list string)))))
  : market_summary :=
  let indices := get_taiwan_indices taiex_data otc_data in
  let limit_data := get_limit_stocks reply in
  {| main := first_of_type "main" indices;
     otc := first_of_type "otc" indices;
     all := indices;
     limit_up_count := List.length (limit_up limit_data);
     limit_down_count := List.length (limit_down limit_data);
     limit_up_stocks := limit_up limit_data;
     limit_down_stocks := limit_down limit_data;
     summary_scan := summary limit_data |}.

End TaiwanFeeds.

(** ** Text as code points

    [str.upper()] can leave the code points below 256 (the micro sign
    becomes 924, y with diaeresis 376) and can lengthen the text (sharp
    s becomes "SS"), so its result is a list of code points. *)

Module Text.

Definition codes (s : string) : list N :=
  map N_of_ascii (list_ascii_of_string s).

(** White space as [str.strip()] sees it, among the code points that
    occur here. *)
Definition is_str_space (c : N) : bool :=
  (((9 <=? c) && (c <=? 13)) || ((28 <=? c) && (c <=? 32))
   || (c =? 133) || (c =? 160))%N.

Fixpoint str_lstrip (cs : list N) : list N :=
  match cs with
  | c :: rest => if is_str_space c then str_lstrip rest else cs
  | [] => []
  end.

(** [s.strip()]. *)
Definition str_strip (cs : list N) : list N :=
  rev (str_lstrip (rev (str_lstrip cs))).

(** The uppercase of one code point below 256. *)
Definition upper_code (c : N) : list N :=
  (if (97 <=? c) && (c <=? 122) then [c - 32]
   else if c =? 181 then [924]
   else if c =? 223 then [83; 83]
   else if (224 <=? c) && (c <=? 254) && negb (c =? 247) then [c - 32]
   else if c =? 255 then [376]
   else [c])%N.

(** [s.upper()], for text of code points below 256. *)
Definition upper (cs : list N) : list N := flat_map upper_code cs.

Definition codes_eqb (a b : list N) : bool :=
  if list_eq_dec N.eq_dec a b then true else false.

(** [s.startswith(q)]. *)
Fixpoint starts_with (q s : list N) : bool :=
  match q, s with
  | [], _ => true
  | c :: q', d :: s' => (c =? d)%N && starts_with q' s'
  | _ :: _, [] => false
  end.

(** [q in s]: [q] occurs in [s] as a contiguous run. *)
Fixpoint occurs_in (q s : list N) : bool :=
  starts_with q s ||
  match s with
  | [] => false
  | _ :: s' => occurs_in q s'
  end.

(** [l[:limit]], for any int [limit]. *)
Definition slice_to {A : Type} (limit : Z) (l : list A) : list A :=
  if 0 <=? limit then firstn (Z.to_nat limit) l
  else firstn (List.length l - Z.to_nat (- limit)) l.

(** [l[-n:]] for [n > 0]. *)
Definition last_n {A : Type} (n : nat) (l : list A) : list A :=
  skipn (List.length l - n) l.

End Text.

(** ** Regular expressions

    The fragment of [re] that [validate_symbol] uses, matched by
    derivatives. *)

Module Regex.

Inductive regex : Type :=
| Void
| Eps
| Class (p : N -> bool)
| Seq (r1 r2 : regex)
| Alt (r1 r2 : regex)
| Star (r : regex).

Fixpoint nullable (r : regex) : bool :=
  match r with
  | Void => false
  | Eps => true
  | Class _ => false
  | Seq r1 r2 => nullable r1 && nullable r2
  | Alt r1 r2 => nullable r1 || nullable r2
  | Star _ => true
  end.

Fixpoint deriv (c : N) (r : regex) : regex :=
  match r with
  | Void => Void
  | Eps => Void
  | Class p => if p c then Eps else Void
  | Seq r1 r2 =>
      if nullable r1 then Alt (Seq (deriv c r1) r2) (deriv c r2)
      else Seq (deriv c r1) r2
  | Alt r1 r2 => Alt (deriv c r1) (deriv c r2)
  | Star r1 => Seq (deriv c r1) (Star r1)
  end.

(** The whole of [s] matches [r]. *)
Fixpoint fullmatch (r : regex) (s : list N) : bool :=
  match s with
  | [] => nullable r
  | c :: rest => fullmatch (deriv c r) rest
  end.

(** [re.match('^' r '$', s)] is not None: [$] matches at the end of
    [s] and also before a newline that ends [s]. *)
Definition match_anchored (r : regex) (s : list N) : bool :=
  fullmatch r s ||
  match rev s with
  | 10%N :: front => fullmatch r (rev front)
  | _ => false
  end.

(** [r+], [r?]. *)
Definition Plus (r : regex) : regex := Seq r (Star r).
Definition Opt (r : regex) : regex := Alt Eps r.

End Regex.

(** ** Remaining functions of [StockDataService] *)

Module StockQuotes.
Import Text Regex LimitScan Builtins.

Open Scope string_scope.

Definition US_POPULAR : list string :=
  [ "AAPL"; "MSFT"; "GOOGL"; "AMZN"; "TSLA"; "NVDA"; "META"; "NFLX";
    "BABA"; "CRM"; "ADBE"; "ORCL"; "INTC"; "AMD"; "UBER"; "SNAP";
    "PYPL"; "SQ"; "ZOOM"; "ROKU"; "TWLO"; "SHOP"; "SPOT"; "ZM" ].

Definition TW_POPULAR : list string :=
  [ "2330.TW"; "2454.TW"; "2317.TW"; "3008.TW"; "2881.TW"; "2882.TW";
    "2303.TW"; "2412.TW"; "2308.TW"; "2002.TW"; "1301.TW"; "1303.TW";
    "6505.TW"; "3711.TW"; "2891.TW"; "2892.TW" ].

Definition HK_POPULAR : list string :=
  [ "0700.HK"; "0941.HK"; "1398.HK"; "0939.HK"; "1299.HK"; "2318.HK";
    "0388.HK"; "1113.HK"; "3988.HK"; "2628.HK"; "1810.HK"; "0005.HK" ].

Close Scope string_scope.

(** [[A-Z0-9]], [[A-Z]] and the literal dot. *)
Definition alnum (c : N) : bool :=
  (((65 <=? c) && (c <=? 90)) || ((48 <=? c) && (c <=? 57)))%N.

Definition capital (c : N) : bool := ((65 <=? c) && (c <=? 90))%N.

Definition dot (c : N) : bool := (c =? 46)%N.

(** [[A-Z0-9]+(\.[A-Z]{2,4})?], the pattern of [validate_symbol]
    between its anchors. *)
Definition symbol_pattern : regex :=
  Seq (Plus (Class alnum))
      (Opt (Seq (Class dot)
                (Seq (Class capital)
                     (Seq (Class capital)
                          (Opt (Seq (Class capital)
                                    (Opt (Class capital)))))))).

Definition validate_symbol (symbol : string) : bool :=
  if String.eqb symbol "" then false
  else
    let symbol := upper (str_strip (codes symbol)) in
    if (List.length symbol <? 1)%nat || (15 <? List.length symbol)%nat
    then false
    else if negb (match_anchored symbol_pattern symbol) then false
    else true.

(** The dict of [get_real_stock_data], reduced to its quote fields. *)
Record quote : Type := {
  q_symbol : string;
  q_current_price : float;
  q_change : float;
  q_change_percent : float;
  q_volume : Z
}.

(** [s in l] for strings. *)
Definition mem (s : string) (l : list string) : bool :=
  existsb (String.eqb s) l.

(** The candidate symbols of [search_stocks]: exact, then prefix, then
    substring matches among the three popular lists, cut to [limit]. *)
Definition candidate_symbols (query : string) (limit : Z) : list string :=
  let query := str_strip (upper (codes query)) in
  let all_symbols := US_POPULAR ++ TW_POPULAR ++ HK_POPULAR in
  let exact_matches :=
    filter (fun s => codes_eqb (codes s) query) all_symbols in
  let prefix_matches :=
    filter (fun s => starts_with query (codes s)
                     && negb (mem s exact_matches)) all_symbols in
  let contains_matches :=
    filter (fun s => occurs_in query (codes s)
                     && negb (mem s (exact_matches ++ prefix_matches)))
           all_symbols in
  slice_to limit (exact_matches ++ prefix_matches ++ contains_matches).

Section Fetch.

(** [get_real_stock_data], a network call: the dict or [None]; it
    catches every exception itself. *)
Variable get_real_stock_data : string -> option quote.

(** The loop of [search_stocks] with its [break]. *)
Fixpoint collect (limit : Z) (candidates : list string)
         (results : list quote) : list quote :=
  match candidates with
  | [] => results
  | symbol :: rest =>
      match get_real_stock_data symbol with
      | Some stock_data =>
          let results := results ++ [stock_data] in
          if limit <=? Z.of_nat (List.length results) then results
          else collect limit rest results
      | None => collect limit rest results
      end
  end.

Definition search_stocks (query : string) (limit : Z) : list quote :=
  collect limit (candidate_symbols query limit) [].

(** The quotes that can be fetched, in symbol order. *)
Definition fetch_all (symbols : list string) : list quote :=
  flat_map (fun symbol =>
              match get_real_stock_data symbol with
              | Some stock_data => [stock_data]
              | None => []
              end) symbols.

(** The dict of [get_gainers_losers], without its timestamp. *)
Record gainers_losers : Type := {
  gainers : list quote;
  losers : list quote
}.

Definition get_gainers_losers : gainers_losers :=
  let all_stocks := fetch_all US_POPULAR in
  let all_stocks := sort q_change_percent true all_stocks in
  {| gainers := firstn 10 all_stocks; losers := last_n 10 all_stocks |}.

(** [get_trending_stocks]. *)
Definition get_trending_stocks (region : string) (limit : Z) : list quote :=
  let symbols :=
    if String.eqb region "TW" then slice_to limit TW_POPULAR
    else if String.eqb region "HK" then slice_to limit HK_POPULAR
    else slice_to limit US_POPULAR in
  sort q_change_percent true (fetch_all symbols).

End Fetch.

(** [max(a, b)] and [min(a, b)] on floats: the first argument unless
    the second is strictly greater (smaller). *)
Definition py_max (a b : float) : float := if F64.ltb a b then b else a.
Definition py_min (a b : float) : float := if F64.ltb b a then b else a.

(** One row of the price history: the index rendered as the source
    renders it, and the row's columns, which [iterrows] yields as
    floats. *)
Record bar : Type := {
  bar_time : string;
  bar_open : float;
  bar_high : float;
  bar_low : float;
  bar_close : float;
  bar_volume : float
}.

Record data_point : Type := {
  dp_time : string;
  dp_open : float;
  dp_high : float;
  dp_low : float;
  dp_close : float;
  dp_volume : Z
}.

(** The dict literal of the loop body. *)
Definition point_of (row : bar) : exc data_point :=
  volume <- (if F64.is_nan (bar_volume row) then Ok 0
             else F64.trunc (bar_volume row)) ;;
  Ok {| dp_time := bar_time row;
        dp_open := round2 (bar_open row);
        dp_high := round2 (bar_high row);
        dp_low := round2 (bar_low row);
        dp_close := round2 (bar_close row);
        dp_volume := volume |}.

(** The validity test of a data point. *)
Definition consistent (p : data_point) : bool :=
  F64.leb (dp_low p) (dp_high p)
  && F64.leb (py_max (dp_open p) (dp_close p)) (dp_high p)
  && F64.leb (dp_low p) (py_min (dp_open p) (dp_close p)).

(** The loop over the rows; its handler catches ValueError (and
    TypeError, which floats do not raise). *)
Fixpoint chart_rows (rows : list bar) (chart_data : list data_point)
  : exc (list data_point) :=
  match rows with
  | [] => Ok chart_data
  | row :: rest =>
      match point_of row with
      | Ok data_point =>
          if consistent data_point
          then chart_rows rest (chart_data ++ [data_point])
          else chart_rows rest chart_data
      | Raise ValueError => chart_rows rest chart_data
      | Raise e => Raise e
      end
  end.

(** [get_historical_data], on the outcome of the download: an
    exception or the rows of the frame. *)
Definition get_historical_data (hist : exc (list bar)) : list data_point :=
  match hist with
  | Raise _ => []
  | Ok [] => []
  | Ok rows =>
      match chart_rows rows [] with
      | Ok chart_data => chart_data
      | Raise _ => []
      end
  end.

End StockQuotes.
(** ** Vocabulary of the properties *)

Module RoundingVocabulary.

(** The canonical exponent of binary64 for a value of magnitude [e]:
    [fexp] at precision 53 and maximal exponent 1024. *)
Definition fexp64 (e : Z) : Z := Z.max (e - 53) (-1074).

End RoundingVocabulary.

Module TickVocabulary.
Import F64 TaiwanStockService.

(** The band table read as a step function of the price. *)
Definition tick_step (price : float) : float :=
  if ltb price f10 then f0_01
  else if ltb price f50 then f0_05
  else if ltb price f100 then f0_1
  else if ltb price f500 then f0_5
  else if ltb price f1000 then f1_0
  else f5_0.

(** Each band's upper bound is the next band's lower bound. *)
Fixpoint contiguous (bands : list (float * float * float)) : Prop :=
  match bands with
  | b1 :: ((b2 :: _) as rest) =>
      snd (fst b1) = fst (fst b2) /\ contiguous rest
  | _ => True
  end.

End TickVocabulary.

Module ScanVocabulary.
Import LimitScan.

(** The dicts the loop appends to [limit_up_stocks], in row order. *)
Definition appended_up (stocks_data : list (list string)) : list stock :=
  flat_map (fun stock_row =>
              match process_row stock_row with
              | Ok (AppendUp s) => [s]
              | _ => []
              end) stocks_data.

(** The dicts the loop appends to [limit_down_stocks], in row order. *)
Definition appended_down (stocks_data : list (list string)) : list stock :=
  flat_map (fun stock_row =>
              match process_row stock_row with
              | Ok (AppendDown s) => [s]
              | _ => []
              end) stocks_data.

(** The row raises an exception that the inner handler does not catch. *)
Definition escapes (stock_row : list string) : bool :=
  match process_row stock_row with
  | Raise _ => true
  | Ok _ => false
  end.

(** Orderings of two listed stocks by ['change_percent']. *)
Definition descending (a b : stock) : Prop :=
  F64.leb (change_percent b) (change_percent a) = true.

Definition ascending (a b : stock) : Prop :=
  F64.leb (change_percent a) (change_percent b) = true.

(** A row in the column layout the loop reads: code, name and volume in
    columns 0-2, closing price in column 8, change in column 10,
    change percent in column 11. *)
Definition twse_row (stock_code stock_name volume_str price_str change_str
                       percent_str : string) : list string :=
  [stock_code; stock_name; volume_str; ""; ""; ""; ""; "";
   price_str; ""; change_str; percent_str]%string.

(** The row of the limit-up scenario. *)
Definition scenario_row : list string :=
  twse_row "2345" "" "1,000" "110.00" "10.00" "9.90%".

(** A row at the lower limit. *)
Definition falling_row : list string :=
  twse_row "3456" "" "1,000" "90.00" "-10.00" "-10.00%".

(** A row whose closing price 10.02 is not on the 0.05 tick grid. *)
Definition off_grid_row : list string :=
  twse_row "1234" "" "1,000" "10.02" "0.97" "9.90%".

(** A row whose fields all parse, with change percent 9.9 and the
    price 1e308: volume times price is infinite as a float. *)
Definition huge_price_row : list string :=
  twse_row "5678" "" "1,000" "1e308" "10.00" "9.90%".

(** A row whose fields all parse, with change percent 9.9 and the
    price NaN. *)
Definition nan_price_row : list string :=
  twse_row "6789" "" "1,000" "nan" "10.00" "9.90%".

(** A row whose fields all parse, with the price +infinity. *)
Definition escaping_row : list string :=
  twse_row "7890" "" "1,000" "inf" "10.00" "9.90%".

(** A row of placeholders, as the exchange sends for a stock that did
    not trade. *)
Definition placeholder_row : list string :=
  twse_row "9999" "" "--" "--" "--" "--".

(** 25 rows at the upper limit, then a row that escapes the loop. *)
Definition scan_with_escape : list (list string) :=
  repeat scenario_row 25 ++ [escaping_row].

(** The reference price as the claim reads it: the tick rounding of the
    difference of the parsed price and the parsed change. *)
Definition reference_from_parsed (stock_row : list string)
  : exc (option pynum) :=
  fields <- parse_fields stock_row ;;
  match fields with
  | None => Ok None
  | Some (_, _, raw_price, _, change, _) =>
      r <- TaiwanStockService.round_taiwan_price (F64.sub raw_price change) ;;
      Ok (Some r)
  end.

End ScanVocabulary.

Module SessionVocabulary.

(** The half-open session window of the specification: the time of day
    of [now] is at or after [open_h:open_m:00] and before
    [close_h:close_m:00]. *)
Definition in_window (open_h open_m close_h close_m : Z) (now : datetime)
  : bool :=
  (open_h * 60 + open_m <=? hour now * 60 + minute now)
  && (hour now * 60 + minute now <? close_h * 60 + close_m).

(** Monday 2024-01-01 ([date(2024, 1, 1).toordinal()] is 738886) at the
    given time of day. *)
Definition monday_at (h m : Z) : datetime :=
  {| ordinal := 738886; hour := h; minute := m;
     second := 0; microsecond := 0 |}.

(** Saturday 2024-01-06, noon. *)
Definition saturday_noon : datetime :=
  {| ordinal := 738891; hour := 12; minute := 0;
     second := 0; microsecond := 0 |}.

(** What [get_market_status] names as the next open on Monday morning. *)
Definition next_open_of_morning : option datetime :=
  match StockDataService.get_market_status (monday_at 9 0) with
  | StockDataService.StatusDict s => StockDataService.next_open s
  | StockDataService.ErrorDict => None
  end.

End SessionVocabulary.


Module ScanColumns.
Import LimitScan.

(** Two rows that the loop cannot tell apart: both have fewer than 12
    columns, or both have at least 12 and the same strings in the
    columns 0, 1, 2, 8, 10 and 11. *)
Definition reads_same (row row' : list string) : Prop :=
  ((List.length row < 12)%nat /\ (List.length row' < 12)%nat)
  \/ ((12 <= List.length row)%nat /\ (12 <= List.length row')%nat
      /\ Forall (fun i => nth_error row i = nth_error row' i)
                [0; 1; 2; 8; 10; 11]%nat).

(** The scenario row as the exchange sends it, with 16 columns and
    other strings in the columns the loop does not read. *)
Definition scenario_row_wide : list string :=
  [ "2345"; ""; "1,000"; "12"; "110,000"; "100.00"; "110.00"; "100.00";
    "110.00"; "+"; "10.00"; "9.90%"; "110.00"; "5"; "0.00"; "0" ]%string.

(** A row whose price column reads "inf". *)
Definition infinite_price_row : list string :=
  ScanVocabulary.twse_row "4567" "" "1,000" "inf" "10.00" "9.90%".

End ScanColumns.

Module ClockVocabulary.

(** The integers 0..n-1. *)
Definition below (n : nat) : list Z := map Z.of_nat (seq 0 n).

(** The session [now] is in front of, or at: the 13:30 of day [d] lies
    strictly after [now]. *)
Definition before_open_of (now : datetime) (d : Z) : Prop :=
  ordinal now < d
  \/ (ordinal now = d /\ hour now * 60 + minute now < 13 * 60 + 30).

(** Wednesday 2024-01-03, 11:20. *)
Definition wednesday_morning : datetime :=
  {| ordinal := 738888; hour := 11; minute := 20;
     second := 5; microsecond := 0 |}.

(** Friday 2024-01-05, 22:15. *)
Definition friday_night : datetime :=
  {| ordinal := 738890; hour := 22; minute := 15;
     second := 0; microsecond := 0 |}.

(** Friday 9999-12-31, 21:00, the last day of [datetime]. *)
Definition last_evening : datetime :=
  {| ordinal := max_ordinal; hour := 21; minute := 0;
     second := 0; microsecond := 0 |}.

End ClockVocabulary.

Module QuoteVocabulary.
Import StockQuotes.

(** Orderings of two quotes by ['change_percent']. *)
Definition falling (a b : quote) : Prop :=
  F64.leb (q_change_percent b) (q_change_percent a) = true.

(** Every quote has a change percent that is not NaN. *)
Definition ordered_quotes (l : list quote) : Prop :=
  Forall (fun q => F64.is_nan (q_change_percent q) = false) l.

(** A feed that has no quote for TSLA and for every other symbol one
    whose change percent goes by the length of the symbol. *)
Definition sample_feed (symbol : string) : option quote :=
  if String.eqb symbol "TSLA" then None
  else Some {| q_symbol := symbol;
               q_current_price := f100;
               q_change := f1_0;
               q_change_percent :=
                 match String.length symbol with
                 | 2%nat => f0_5
                 | 3%nat => f1_0
                 | 4%nat => f5_0
                 | _ => f10
                 end;
               q_volume := 1000 |}.

(** A feed that only knows the symbols of up to five characters. *)
Definition short_feed (symbol : string) : option quote :=
  if (String.length symbol <=? 5)%nat then sample_feed symbol else None.

(** Every quote of the feed has a change percent that is not NaN. *)
Definition ordered_feed (feed : string -> option quote) : Prop :=
  forall symbol q, feed symbol = Some q ->
                   F64.is_nan (q_change_percent q) = false.

(** The symbols searched by [search_stocks]. *)
Definition all_symbols : list string :=
  US_POPULAR ++ TW_POPULAR ++ HK_POPULAR.

(** The popular list of a region. *)
Definition popular (region : string) : list string :=
  if String.eqb region "TW" then TW_POPULAR
  else if String.eqb region "HK" then HK_POPULAR
  else US_POPULAR.

(** No string occurs twice. *)
Fixpoint distinct (l : list string) : bool :=
  match l with
  | [] => true
  | x :: rest => negb (mem x rest) && distinct rest
  end.

(** A bar whose close is NaN between a low of 100.0 and a high of
    500.0. *)
Definition bar_without_close : bar :=
  {| bar_time := "2024-01-02"; bar_open := f100; bar_high := f500;
     bar_low := f100; bar_close := S754_nan; bar_volume := f1000 |}.

(** A regular bar. *)
Definition regular_bar : bar :=
  {| bar_time := "2024-01-03"; bar_open := f100; bar_high := f500;
     bar_low := f50; bar_close := f100; bar_volume := f1000 |}.

(** A bar whose volume is +infinity. *)
Definition bar_of_infinite_volume : bar :=
  {| bar_time := "2024-01-04"; bar_open := f100; bar_high := f500;
     bar_low := f50; bar_close := f100;
     bar_volume := S754_infinity false |}.

End QuoteVocabulary.

Module RegexVocabulary.
Import Regex StockQuotes.

(** The language of a regular expression. *)
Inductive matches : regex -> list N -> Prop :=
| MEps : matches Eps []
| MClass (p : N -> bool) (c : N) : p c = true -> matches (Class p) [c]
| MSeq (r1 r2 : regex) (s1 s2 : list N) :
    matches r1 s1 -> matches r2 s2 -> matches (Seq r1 r2) (s1 ++ s2)
| MAltL (r1 r2 : regex) (s : list N) :
    matches r1 s -> matches (Alt r1 r2) s
| MAltR (r1 r2 : regex) (s : list N) :
    matches r2 s -> matches (Alt r1 r2) s
| MStarNil (r : regex) : matches (Star r) []
| MStarApp (r : regex) (s1 s2 : list N) :
    matches r s1 -> matches (Star r) s2 -> matches (Star r) (s1 ++ s2).

(** A symbol as [validate_symbol] accepts it: one or more capitals and
    digits, then nothing, or a dot (code point 46) and two to four
    capitals. *)
Definition symbol_shape (t : list N) : Prop :=
  exists body suffix,
    t = body ++ suffix
    /\ body <> []
    /\ Forall (fun c => alnum c = true) body
    /\ (suffix = []
        \/ exists letters,
             suffix = 46%N :: letters
             /\ (2 <= List.length letters <= 4)%nat
             /\ Forall (fun c => capital c = true) letters).

(** Text that is white space only. *)
Definition blank (s : string) : Prop :=
  Forall (fun c => Text.is_str_space c = true) (Text.codes s).

End RegexVocabulary.

Module IndexVocabulary.
Import Builtins TaiwanFeeds.

(** [[d]] for a dict, [[]] for [None]. *)
Definition present {A : Type} (d : option A) : list A :=
  match d with
  | Some a => [a]
  | None => []
  end.

(** An index message with a last price and nothing else. *)
Definition price_only : taiex_info :=
  {| z_field := Some (JStr "17000.12"); y_field := None; v_field := None |}.

End IndexVocabulary.
(** * Properties *)

(** ** The order on binary64 *)

Module F64Order.
Import F64.

Ltac cmp_cases :=
  repeat match goal with
    | |- context [Pos.compare_cont Eq ?a ?b] =>
        change (Pos.compare_cont Eq a b) with (Pos.compare a b)
    | H : context [Pos.compare_cont Eq ?a ?b] |- _ =>
        change (Pos.compare_cont Eq a b) with (Pos.compare a b) in H
    end;
  repeat match goal with
    | |- context [Z.compare ?a ?b] =>
        destruct (Z.compare_spec a b); simpl in *
    | H : context [Z.compare ?a ?b] |- _ =>
        destruct (Z.compare_spec a b); simpl in *
    | |- context [Pos.compare ?a ?b] =>
        destruct (Pos.compare_spec a b); simpl in *
    | H : context [Pos.compare ?a ?b] |- _ =>
        destruct (Pos.compare_spec a b); simpl in *
    end;
  subst; try discriminate; try reflexivity; try lia.

Ltac by_shape x :=
  destruct x as [[|]|[|]| |[|] ? ?]; simpl in *;
  try discriminate; try reflexivity.

(** [x < y] excludes [y <= x]. *)
Lemma ltb_leb_false (x y : float) : ltb x y = true -> leb y x = false.
Proof.
  unfold ltb, leb, SFltb, SFleb.
  by_shape x; by_shape y; intros; cmp_cases.
Qed.

(** [x <= y] excludes [y < x]. *)
Lemma leb_ltb_false (x y : float) : leb x y = true -> ltb y x = false.
Proof.
  unfold ltb, leb, SFltb, SFleb.
  by_shape x; by_shape y; intros; cmp_cases.
Qed.

(** Without NaN, not [x < y] gives [y <= x]. *)
Lemma not_ltb_leb (x y : float) :
  is_nan x = false -> is_nan y = false -> ltb x y = false -> leb y x = true.
Proof.
  unfold ltb, leb, SFltb, SFleb.
  by_shape x; by_shape y; intros; cmp_cases.
Qed.

(** Without NaN, not [x <= y] gives [y < x]. *)
Lemma not_leb_ltb (x y : float) :
  is_nan x = false -> is_nan y = false -> leb x y = false -> ltb y x = true.
Proof.
  unfold ltb, leb, SFltb, SFleb.
  by_shape x; by_shape y; intros; cmp_cases.
Qed.

(** Both sides of a true comparison are ordered (not NaN). *)
Lemma leb_not_nan_l (x y : float) : leb x y = true -> is_nan x = false.
Proof. unfold leb, SFleb. by_shape x. Qed.

Lemma leb_not_nan_r (x y : float) : leb x y = true -> is_nan y = false.
Proof. unfold leb, SFleb. by_shape x; by_shape y. Qed.

(** [<] is contained in [<=]. *)
Lemma ltb_leb (x y : float) : ltb x y = true -> leb x y = true.
Proof.
  unfold ltb, leb, SFltb, SFleb.
  destruct (SFcompare x y) as [[| |]|]; intros; try discriminate; reflexivity.
Qed.

(** Transitivity of [<=] and its mixed forms with [<]. *)
Lemma leb_trans (x y z : float) :
  leb x y = true -> leb y z = true -> leb x z = true.
Proof.
  unfold leb, SFleb.
  by_shape x; by_shape y; by_shape z; intros; cmp_cases.
Qed.

Lemma leb_ltb_trans (x y z : float) :
  leb x y = true -> ltb y z = true -> ltb x z = true.
Proof.
  unfold ltb, leb, SFltb, SFleb.
  by_shape x; by_shape y; by_shape z; intros; cmp_cases.
Qed.

Lemma ltb_leb_trans (x y z : float) :
  ltb x y = true -> leb y z = true -> ltb x z = true.
Proof.
  unfold ltb, leb, SFltb, SFleb.
  by_shape x; by_shape y; by_shape z; intros; cmp_cases.
Qed.

(** Any two non-NaN floats are comparable. *)
Lemma leb_total (x y : float) :
  is_nan x = false -> is_nan y = false -> leb x y = true \/ leb y x = true.
Proof.
  intros Hx Hy. destruct (leb x y) eqn:E; [now left|right].
  apply ltb_leb. now apply not_leb_ltb.
Qed.

End F64Order.

(** ** Range of the rounding steps

    Upper bounds on what [binary_round_aux] returns, enough to show
    that the quotient [price / tick] is finite and that its rounding
    converts back to a float. *)

Module F64Range.
Import F64 RoundingVocabulary.

(** [digits2_pos] is the bit length. *)
Lemma digits2_size (p : positive) : digits2_pos p = Pos.size p.
Proof. induction p; simpl; congruence. Qed.

Lemma digits_upper (p : positive) : Zpos p < 2 ^ Zpos (digits2_pos p).
Proof.
  rewrite digits2_size. pose proof (Pos.size_gt p) as H.
  change 2 with (Zpos 2). rewrite <- Pos2Z.inj_pow. lia.
Qed.

Lemma digits_lower (p : positive) : 2 ^ Zpos (digits2_pos p) <= 2 * Zpos p.
Proof.
  rewrite digits2_size. pose proof (Pos.size_le p) as H.
  change 2 with (Zpos 2) at 1. rewrite <- Pos2Z.inj_pow. lia.
Qed.

(** Bit lengths are non-negative. *)
Lemma Zdigits2_nonneg (m : Z) : 0 <= Zdigits2 m.
Proof. destruct m; simpl; lia. Qed.

(** A non-negative [m] below [2^d] has at most [d] digits. *)
Lemma Zdigits2_le (m d : Z) : 0 <= m -> 0 <= d -> m < 2 ^ d -> Zdigits2 m <= d.
Proof.
  intros Hm Hd Hlt. destruct m as [|p|p]; simpl; try lia.
  pose proof (digits_lower p) as Hl.
  destruct (Z_le_gt_dec (Zpos (digits2_pos p)) d) as [|Hgt]; [assumption|].
  exfalso.
  assert (2 ^ (d + 1) <= 2 ^ Zpos (digits2_pos p))
    by (apply Z.pow_le_mono_r; lia).
  rewrite Z.pow_add_r in H by lia. lia.
Qed.

(** One right shift halves a non-negative mantissa. *)
Lemma shr_1_m (mrs : shr_record) :
  0 <= shr_m mrs -> shr_m (shr_1 mrs) = shr_m mrs / 2.
Proof.
  destruct mrs as [m r s]. simpl. intros Hm.
  destruct m as [|[p|p|]|p]; simpl; try lia; try reflexivity.
  - rewrite Pos2Z.inj_xI. apply Z.div_unique with 1; lia.
  - rewrite Pos2Z.inj_xO. apply Z.div_unique with 0; lia.
Qed.

(** [n] right shifts divide it by [2^n]. *)
Lemma iter_shr_1_m (n : positive) (mrs : shr_record) :
  0 <= shr_m mrs ->
  shr_m (iter_pos shr_1 n mrs) = shr_m mrs / 2 ^ Zpos n.
Proof.
  revert mrs. induction n as [n IH|n IH|]; intros mrs Hm; simpl iter_pos.
  - assert (H1 : 0 <= shr_m (shr_1 mrs))
      by (rewrite shr_1_m by assumption; apply Z.div_pos; lia).
    assert (H2 : 0 <= shr_m (iter_pos shr_1 n (shr_1 mrs)))
      by (rewrite IH by assumption; apply Z.div_pos; lia).
    rewrite IH, IH, shr_1_m by assumption.
    rewrite !Z.div_div by lia.
    f_equal. rewrite (Pos2Z.inj_xI n).
    replace (2 * Zpos n + 1) with (1 + (Zpos n + Zpos n)) by lia.
    rewrite Z.pow_add_r by lia. rewrite Z.pow_add_r by lia.
    rewrite Z.pow_1_r. reflexivity.
  - assert (H2 : 0 <= shr_m (iter_pos shr_1 n mrs))
      by (rewrite IH by assumption; apply Z.div_pos; lia).
    rewrite IH, IH by assumption.
    rewrite !Z.div_div by lia.
    f_equal. rewrite (Pos2Z.inj_xO n).
    replace (2 * Zpos n) with (Zpos n + Zpos n) by lia.
    rewrite Z.pow_add_r by lia. lia.
  - rewrite shr_1_m by assumption. reflexivity.
Qed.

(** [fexp] at the binary64 parameters. *)
Lemma fexp_eq (e : Z) : fexp prec emax e = fexp64 e.
Proof. reflexivity. Qed.

(** [shr_fexp] shifts a non-negative mantissa right up to the canonical
    exponent. *)
Lemma shr_fexp_spec (m e : Z) (l : location) :
  0 <= m ->
  let e' := Z.max e (fexp64 (Zdigits2 m + e)) in
  snd (shr_fexp prec emax m e l) = e' /\
  shr_m (fst (shr_fexp prec emax m e l)) = m / 2 ^ (e' - e).
Proof.
  intros Hm e'. unfold shr_fexp, shr. rewrite fexp_eq.
  assert (Hs : shr_m (shr_record_of_loc m l) = m)
    by (destruct l as [|[| |]]; reflexivity).
  destruct (fexp64 (Zdigits2 m + e) - e) as [|p|p] eqn:E; simpl fst; simpl snd.
  - subst e'. replace (Z.max e (fexp64 (Zdigits2 m + e))) with e by lia.
    rewrite Z.sub_diag, Hs. simpl. now rewrite Z.div_1_r.
  - subst e'. replace (Z.max e (fexp64 (Zdigits2 m + e))) with (e + Zpos p)
      by lia.
    split; [reflexivity|].
    rewrite iter_shr_1_m by lia. rewrite Hs. f_equal. f_equal. lia.
  - subst e'. replace (Z.max e (fexp64 (Zdigits2 m + e))) with e by lia.
    rewrite Z.sub_diag, Hs. simpl. now rewrite Z.div_1_r.
Qed.

(** Rounding to nearest moves the mantissa up by at most one. *)
Lemma round_nearest_even_range (m : Z) (l : location) :
  m <= round_nearest_even m l <= m + 1.
Proof.
  destruct l as [|[| |]]; simpl; try lia. destruct (Z.even m); lia.
Qed.

(** What [binary_round_aux] returns on a non-negative mantissa whose
    value is below [2^K]: a zero, or a finite float of value at most
    [2^K]; never an infinity or a NaN. *)
Lemma round_aux_range (s : bool) (mx ex K : Z) (lx : location) :
  0 <= mx -> ex <= 971 -> 971 <= K <= 1023 -> mx < 2 ^ (K - ex) ->
  binary_round_aux prec emax s mx ex lx = S754_zero s \/
  exists m e,
    binary_round_aux prec emax s mx ex lx = S754_finite s m e /\
    e <= 971 /\ Zpos m <= 2 ^ (K - e).
Proof.
  intros Hm Hex HK Hlt. unfold binary_round_aux.
  destruct (shr_fexp_spec mx ex lx Hm) as [He1 Hm1].
  destruct (shr_fexp prec emax mx ex lx) as [mrs1 e1]. simpl in He1, Hm1.
  rewrite <- He1 in Hm1.
  assert (Hd : Zdigits2 mx <= K - ex) by (apply Zdigits2_le; lia).
  assert (He1r : ex <= e1 <= 971) by (unfold fexp64 in He1; lia).
  assert (Hm1r : 0 <= shr_m mrs1 < 2 ^ (K - e1)).
  { rewrite Hm1. split; [apply Z.div_pos; lia|].
    apply Z.div_lt_upper_bound; [lia|].
    rewrite <- Z.pow_add_r by lia.
    replace (e1 - ex + (K - e1)) with (K - ex) by lia. assumption. }
  pose proof (round_nearest_even_range (shr_m mrs1) (loc_of_shr_record mrs1))
    as Hr.
  set (mr := round_nearest_even (shr_m mrs1) (loc_of_shr_record mrs1)) in *.
  assert (Hmr : 0 <= mr) by lia.
  destruct (shr_fexp_spec mr e1 loc_Exact Hmr) as [He2 Hm2].
  destruct (shr_fexp prec emax mr e1 loc_Exact) as [mrs2 e2].
  simpl in He2, Hm2. rewrite <- He2 in Hm2.
  assert (Hd2 : Zdigits2 mr <= K - e1 + 1).
  { apply Zdigits2_le; [lia|lia|].
    rewrite Z.pow_add_r, Z.pow_1_r by lia. lia. }
  assert (He2r : e1 <= e2 <= 971) by (unfold fexp64 in He2; lia).
  assert (Hm2r : 0 <= shr_m mrs2 <= 2 ^ (K - e2)).
  { rewrite Hm2. split; [apply Z.div_pos; lia|].
    apply Z.div_le_upper_bound; [lia|].
    rewrite <- Z.pow_add_r by lia.
    replace (e2 - e1 + (K - e2)) with (K - e1) by lia. lia. }
  destruct (shr_m mrs2) as [|m|m]; [now left| |lia].
  right. exists m, e2.
  replace (e2 <=? emax - prec) with true
    by (symmetry; apply Z.leb_le; unfold emax, prec; lia).
  repeat split; lia.
Qed.

(** [d] doublings multiply by [2^d]. *)
Lemma iter_xO (p d : positive) : Zpos (Pos.iter xO p d) = Zpos p * 2 ^ Zpos d.
Proof.
  induction d as [|d IH] using Pos.peano_ind.
  - simpl Pos.iter. rewrite Z.pow_1_r. lia.
  - rewrite Pos.iter_succ, Pos2Z.inj_xO, IH, Pos2Z.inj_succ, Z.pow_succ_r by lia.
    lia.
Qed.

(** An int in [0, 2^1023) converts to a float. *)
Lemma of_int_ok (n : Z) :
  0 <= n < 2 ^ 1023 -> exists f, of_int n = Ok f.
Proof.
  intros Hn. unfold of_int, of_Z_round, binary_normalize.
  destruct n as [|p|p]; [now eexists| |lia].
  unfold binary_round, shl_align. rewrite fexp_eq.
  assert (Hd : Zdigits2 (Zpos p) <= 1023) by (apply Zdigits2_le; lia).
  simpl Zdigits2 in Hd.
  assert (Hres : forall mz ez, ez <= 971 -> Zpos mz < 2 ^ (1023 - ez) ->
            exists f, match binary_round_aux prec emax false (Zpos mz) ez
                              loc_Exact with
                      | S754_infinity _ => Raise OverflowError
                      | f => Ok f
                      end = Ok f).
  { intros mz ez Hez Hmz.
    destruct (round_aux_range false (Zpos mz) ez 1023 loc_Exact)
      as [->|(m & e & -> & _)]; try lia; now eexists. }
  destruct (fexp64 (Zpos (digits2_pos p) + 0) - 0) as [|d|d] eqn:E.
  - apply Hres; lia.
  - apply Hres; lia.
  - apply Hres; [unfold fexp64 in *; lia|].
    rewrite iter_xO.
    replace (1023 - fexp64 (Zpos (digits2_pos p) + 0)) with (1023 + Zpos d)
      by lia.
    rewrite Z.pow_add_r by lia.
    apply Z.mul_lt_mono_pos_r; lia.
Qed.

(** Rounding a non-negative float of value at most [2^1022] to an int. *)
Lemma round_ok (q : float) :
  (exists s, q = S754_zero s) \/
  (exists m e, q = S754_finite false m e /\ e <= 971 /\
               Zpos m <= 2 ^ (1022 - e)) ->
  exists n, round q = Ok n /\ 0 <= n < 2 ^ 1023.
Proof.
  assert (H22 : 2 ^ 1023 = 2 * 2 ^ 1022) by reflexivity.
  assert (Hp : 0 < 2 ^ 1022) by (apply Z.pow_pos_nonneg; lia).
  intros [[s ->]|(m & e & -> & He & Hm)]; unfold round, cond_Zopp.
  - exists 0. split; [reflexivity|lia].
  - eexists; split; [reflexivity|].
    destruct (Z.leb_spec 0 e) as [H0|H0].
    + assert (0 < 2 ^ e) by (apply Z.pow_pos_nonneg; lia).
      assert (Zpos m * 2 ^ e <= 2 ^ (1022 - e) * 2 ^ e)
        by (apply Z.mul_le_mono_nonneg_r; lia).
      rewrite <- Z.pow_add_r in H1 by lia.
      replace (1022 - e + e) with 1022 in H1 by lia. lia.
    + assert (Hd : 0 < 2 ^ (- e)) by (apply Z.pow_pos_nonneg; lia).
      assert (Hq : 0 <= Zpos m / 2 ^ (- e) <= 2 ^ 1022).
      { split; [apply Z.div_pos; lia|].
        apply Z.div_le_upper_bound; [lia|].
        rewrite <- Z.pow_add_r by lia.
        replace (- e + 1022) with (1022 - e) by lia. assumption. }
      unfold div_half_even.
      destruct (2 * (Zpos m mod 2 ^ (- e)) ?= 2 ^ (- e));
        [destruct (Z.even _)| |]; lia.
Qed.

(** The quotient of a positive float by a positive normal float of
    not much smaller exponent is finite, of value at most [2^1022]. *)
Lemma div_range (m1 m2 : positive) (e1 e2 : Z) :
  Zpos (digits2_pos m1) <= 53 -> 2 ^ 52 <= Zpos m2 -> e1 - e2 <= 1021 ->
  let q := div (S754_finite false m1 e1) (S754_finite false m2 e2) in
  q = S754_zero false \/
  exists m e, q = S754_finite false m e /\ e <= 971 /\
              Zpos m <= 2 ^ (1022 - e).
Proof.
  intros Hd1 Hm2 He q. subst q. unfold div, SFdiv, SFdiv_core_binary.
  rewrite fexp_eq. simpl Zdigits2.
  set (d1 := Zpos (digits2_pos m1)) in *.
  set (d2 := Zpos (digits2_pos m2)).
  assert (Hd2 : 53 <= d2).
  { pose proof (digits_upper m2) as Hu. fold d2 in Hu.
    destruct (Z_le_gt_dec 53 d2) as [|Hgt]; [assumption|exfalso].
    assert (2 ^ d2 <= 2 ^ 52) by (apply Z.pow_le_mono_r; lia). lia. }
  set (e' := Z.min (fexp64 (d1 + e1 - (d2 + e2))) (e1 - e2)).
  assert (He' : e' <= 968 /\ e' <= e1 - e2) by (unfold e', fexp64; lia).
  set (sh := e1 - e2 - e').
  assert (Hsh : 0 <= sh) by (unfold sh; lia).
  set (m' := match sh with
             | 0 => Zpos m1
             | Zpos _ => Z.shiftl (Zpos m1) sh
             | Zneg _ => 0
             end).
  assert (Hm' : m' = Zpos m1 * 2 ^ sh).
  { unfold m'. destruct sh as [|p|p] eqn:E; [simpl; lia| |lia].
    rewrite Z.shiftl_mul_pow2 by lia. reflexivity. }
  pose proof (Z_div_mod m' (Zpos m2) eq_refl) as Hdm.
  destruct (Z.div_eucl m' (Zpos m2)) as [qz rz].
  destruct Hdm as [Heq Hrz].
  assert (H2s : 0 < 2 ^ sh) by (apply Z.pow_pos_nonneg; lia).
  assert (Hqz : 0 <= qz).
  { destruct (Z_le_gt_dec 0 qz) as [|Hneg]; [assumption|exfalso]. nia. }
  assert (Hlt : qz < 2 ^ (1022 - e')).
  { pose proof (digits_upper m1) as Hu. fold d1 in Hu.
    assert (Hb : 2 ^ d1 * 2 ^ sh <= 2 ^ (1022 - e') * 2 ^ 52).
    { rewrite <- !Z.pow_add_r by (unfold d1; lia).
      apply Z.pow_le_mono_r; unfold sh; lia. }
    assert (H1022 : 0 < 2 ^ (1022 - e')) by (apply Z.pow_pos_nonneg; lia).
    destruct (Z_lt_le_dec qz (2 ^ (1022 - e'))) as [|Hge];
      [assumption|exfalso].
    assert (2 ^ (1022 - e') * 2 ^ 52 <= qz * Zpos m2)
      by (apply Z.mul_le_mono_nonneg; lia).
    assert (Zpos m1 * 2 ^ sh < 2 ^ d1 * 2 ^ sh)
      by (apply Z.mul_lt_mono_pos_r; lia).
    lia. }
  simpl xorb.
  apply (round_aux_range false qz e' 1022); lia.
Qed.

End F64Range.
(** ** Price ticks *)

Module TickFacts.
Import F64 F64Order F64Range TaiwanStockService RoundingVocabulary
       TickVocabulary.

(** On prices >= 0 the band loop computes the step function. *)
Lemma get_price_tick_step (price : float) :
  leb zero price = true -> get_price_tick price = tick_step price.
Proof.
  intros H0. pose proof (leb_not_nan_r _ _ H0) as Hn.
  unfold get_price_tick, tick_step, PRICE_TICKS, first_tick, in_band.
  rewrite H0. simpl andb.
  destruct (ltb price f10) eqn:E1; [reflexivity|].
  rewrite (not_ltb_leb price f10 Hn eq_refl E1). simpl andb.
  destruct (ltb price f50) eqn:E2; [reflexivity|].
  rewrite (not_ltb_leb price f50 Hn eq_refl E2). simpl andb.
  destruct (ltb price f100) eqn:E3; [reflexivity|].
  rewrite (not_ltb_leb price f100 Hn eq_refl E3). simpl andb.
  destruct (ltb price f500) eqn:E4; [reflexivity|].
  rewrite (not_ltb_leb price f500 Hn eq_refl E4). simpl andb.
  destruct (ltb price f1000) eqn:E5; [reflexivity|].
  rewrite (not_ltb_leb price f1000 Hn eq_refl E5). simpl andb.
  destruct (ltb price inf); reflexivity.
Qed.

(** The step function is non-decreasing. *)
Lemma tick_step_mono (p1 p2 : float) :
  leb p1 p2 = true -> leb (tick_step p1) (tick_step p2) = true.
Proof.
  intros H12.
  assert (Hlt : forall t, ltb p2 t = true -> ltb p1 t = true)
    by (intros t Ht; exact (leb_ltb_trans _ _ _ H12 Ht)).
  unfold tick_step.
  destruct (ltb p2 f10) eqn:E1; [rewrite (Hlt _ E1); reflexivity|].
  destruct (ltb p2 f50) eqn:E2;
    [rewrite (Hlt _ E2); destruct (ltb p1 f10); reflexivity|].
  destruct (ltb p2 f100) eqn:E3;
    [rewrite (Hlt _ E3); destruct (ltb p1 f10), (ltb p1 f50); reflexivity|].
  destruct (ltb p2 f500) eqn:E4;
    [rewrite (Hlt _ E4);
     destruct (ltb p1 f10), (ltb p1 f50), (ltb p1 f100); reflexivity|].
  destruct (ltb p2 f1000) eqn:E5;
    [rewrite (Hlt _ E5);
     destruct (ltb p1 f10), (ltb p1 f50), (ltb p1 f100), (ltb p1 f500);
     reflexivity|].
  destruct (ltb p1 f10), (ltb p1 f50), (ltb p1 f100), (ltb p1 f500),
    (ltb p1 f1000); reflexivity.
Qed.

(** A price cannot be below [a] and at least [b] when [a <= b]. *)
Lemma band_clash (p a b : float) :
  ltb p a = true -> leb b p = true -> leb a b = true -> False.
Proof.
  intros Hpa Hbp Hab.
  pose proof (ltb_leb_trans _ _ _ Hpa Hab) as Hpb.
  rewrite (ltb_leb_false _ _ Hpb) in Hbp. discriminate.
Qed.

(** A finite price >= 0 lies in some band. *)
Lemma band_exists (price : float) :
  is_finite price = true -> leb zero price = true ->
  exists band, In band PRICE_TICKS /\ in_band band price = true.
Proof.
  intros Hf H0. pose proof (leb_not_nan_r _ _ H0) as Hn.
  unfold PRICE_TICKS, in_band.
  destruct (ltb price f10) eqn:E1.
  { exists (zero, f10, f0_01). rewrite H0, E1. simpl; auto. }
  pose proof (not_ltb_leb price f10 Hn eq_refl E1) as L1.
  destruct (ltb price f50) eqn:E2.
  { exists (f10, f50, f0_05). rewrite L1, E2. simpl; auto. }
  pose proof (not_ltb_leb price f50 Hn eq_refl E2) as L2.
  destruct (ltb price f100) eqn:E3.
  { exists (f50, f100, f0_1). rewrite L2, E3. simpl; auto 6. }
  pose proof (not_ltb_leb price f100 Hn eq_refl E3) as L3.
  destruct (ltb price f500) eqn:E4.
  { exists (f100, f500, f0_5). rewrite L3, E4. simpl; auto 6. }
  pose proof (not_ltb_leb price f500 Hn eq_refl E4) as L4.
  destruct (ltb price f1000) eqn:E5.
  { exists (f500, f1000, f1_0). rewrite L4, E5. simpl; auto 7. }
  pose proof (not_ltb_leb price f1000 Hn eq_refl E5) as L5.
  exists (f1000, inf, f5_0). rewrite L5. split; [simpl; auto 8|].
  destruct price as [s|s| |s m e]; try discriminate; destruct s; reflexivity.
Qed.

(** No price lies in two bands. *)
Lemma band_unique (price : float) (b1 b2 : float * float * float) :
  In b1 PRICE_TICKS -> In b2 PRICE_TICKS ->
  in_band b1 price = true -> in_band b2 price = true -> b1 = b2.
Proof.
  unfold PRICE_TICKS, in_band. intros I1 I2.
  simpl in I1, I2.
  repeat (destruct I1 as [I1|I1]; [|]); try contradiction;
  repeat (destruct I2 as [I2|I2]; [|]); try contradiction;
  subst b1 b2; try reflexivity;
  rewrite !andb_true_iff; intros [Ha Hb] [Hc Hd]; exfalso;
  first [ exact (band_clash _ _ _ Hb Hc eq_refl)
        | exact (band_clash _ _ _ Hd Ha eq_refl) ].
Qed.

(** A negative price lies in no band: the loop falls through to the
    default tick. *)
Lemma tick_of_negative (price : float) :
  ltb price zero = true -> get_price_tick price = f5_0.
Proof.
  intros Hneg.
  assert (Hlo : forall lo, leb zero lo = true -> leb lo price = false).
  { intros lo Hlo. destruct (leb lo price) eqn:E; [exfalso|reflexivity].
    exact (band_clash _ _ _ Hneg E Hlo). }
  unfold get_price_tick, PRICE_TICKS, first_tick, in_band.
  rewrite !Hlo by reflexivity. reflexivity.
Qed.

(** A valid finite binary64 has at most 53 mantissa bits and exponent at
    most 971. *)
Lemma valid_finite_bounds (s : bool) (m : positive) (e : Z) :
  valid (S754_finite s m e) = true ->
  Zpos (digits2_pos m) <= 53 /\ e <= 971.
Proof.
  unfold valid, valid_binary, bounded, canonical_mantissa.
  rewrite andb_true_iff, Z.eqb_eq, Z.leb_le, fexp_eq.
  unfold fexp64, emax, prec. lia.
Qed.

(** A positive float below another has no larger exponent. *)
Lemma ltb_finite_exponent (m1 m2 : positive) (e1 e2 : Z) :
  ltb (S754_finite false m1 e1) (S754_finite false m2 e2) = true -> e1 <= e2.
Proof.
  unfold ltb, SFltb. simpl.
  destruct (Z.compare_spec e1 e2); intros; try discriminate; lia.
Qed.

(** For a valid positive price the quotient by its tick rounds to an
    int that converts back to a float: neither [round] nor the int
    operand of the product raises. *)
Lemma quotient_rounds (m : positive) (e : Z) :
  valid (S754_finite false m e) = true ->
  exists n fn,
    round (div (S754_finite false m e)
               (get_price_tick (S754_finite false m e))) = Ok n
    /\ of_int n = Ok fn.
Proof.
  intros Hv. set (price := S754_finite false m e). destruct (valid_finite_bounds _ _ _ Hv) as [Hd He].
  assert (Hgen : forall m2 e2, 2 ^ 52 <= Zpos m2 -> e - e2 <= 1021 ->
            exists n fn, round (div price (S754_finite false m2 e2)) = Ok n
                         /\ of_int n = Ok fn).
  { intros m2 e2 Hm2 He2.
    destruct (round_ok (div price (S754_finite false m2 e2)))
      as (n & Hn & Hr).
    - destruct (div_range m m2 e e2 Hd Hm2 He2) as [Hz|Hfin];
        [left; now exists false|right; exact Hfin].
    - destruct (of_int_ok n Hr) as [fn Hfn]. now exists n, fn. }
  rewrite get_price_tick_step by reflexivity. unfold tick_step.
  destruct (ltb price f10) eqn:E1.
  { apply ltb_finite_exponent in E1. apply Hgen; [apply Z.leb_le; reflexivity|lia]. }
  destruct (ltb price f50) eqn:E2.
  { apply ltb_finite_exponent in E2. apply Hgen; [apply Z.leb_le; reflexivity|lia]. }
  destruct (ltb price f100) eqn:E3.
  { apply ltb_finite_exponent in E3. apply Hgen; [apply Z.leb_le; reflexivity|lia]. }
  destruct (ltb price f500) eqn:E4.
  { apply ltb_finite_exponent in E4. apply Hgen; [apply Z.leb_le; reflexivity|lia]. }
  destruct (ltb price f1000) eqn:E5.
  { apply ltb_finite_exponent in E5. apply Hgen; [apply Z.leb_le; reflexivity|lia]. }
  apply Hgen; [apply Z.leb_le; reflexivity|lia].
Qed.

(** C5: for every (finite) price >= 0, [round_taiwan_price] returns a
    number that is an integer multiple of [get_price_tick price] up to
    floating-point rounding: with [n] the int nearest to the quotient
    [price / tick], it is the binary64 product [n * tick], that is, the
    double nearest to the exact multiple. *)
Theorem round_taiwan_price_multiple_of_tick (price : float) :
  valid price = true -> is_finite price = true -> leb zero price = true ->
  exists (n : Z) (fn : float) (r : pynum) (f : float),
    round_taiwan_price price = Ok r /\ num_as_float r = Ok f /\
    round (div price (get_price_tick price)) = Ok n /\
    of_int n = Ok fn /\ f = mul fn (get_price_tick price).
Proof.
  intros Hv Hf H0. destruct price as [s|s| |s m e]; try discriminate.
  - exists 0, (S754_zero false), (PyInt 0), (S754_zero false).
    destruct s; repeat split; reflexivity.
  - destruct s; [discriminate|].
    destruct (quotient_rounds m e Hv) as (n & fn & Hn & Hfn).
    exists n, fn, (PyFloat (mul fn (get_price_tick (S754_finite false m e)))).
    eexists. unfold round_taiwan_price.
    change (leb (S754_finite false m e) zero) with false. cbv iota.
    rewrite Hn. cbn [bind]. unfold int_mul_num. rewrite Hfn. cbn [bind].
    repeat split; reflexivity.
Qed.

(** C5 at the price 100.0. *)
Lemma round_taiwan_price_multiple_of_tick_witness :
  valid f100 = true /\ is_finite f100 = true /\ leb zero f100 = true /\
  exists (n : Z) (fn : float) (r : pynum) (f : float),
    round_taiwan_price f100 = Ok r /\ num_as_float r = Ok f /\
    round (div f100 (get_price_tick f100)) = Ok n /\
    of_int n = Ok fn /\ f = mul fn (get_price_tick f100).
Proof.
  split; [reflexivity|]. split; [reflexivity|]. split; [reflexivity|].
  apply (round_taiwan_price_multiple_of_tick f100); reflexivity.
Defined.

(** C6: the band table partitions [0, oo): every finite price >= 0 lies
    in exactly one band, bands are half-open with the lower bound
    included (so a price on a boundary gets the upper band's tick), each
    band starts where the previous one ends, the first starts at 0, the
    last is unbounded, and [get_price_tick] is non-decreasing on
    prices >= 0. *)
Theorem price_bands_partition (p1 p2 : float) :
  is_finite p1 = true -> leb zero p1 = true -> leb p1 p2 = true ->
  (exists! band, In band PRICE_TICKS /\ in_band band p1 = true)
  /\ (forall band, In band PRICE_TICKS ->
        in_band band (fst (fst band)) = true
        /\ in_band band (snd (fst band)) = false
        /\ get_price_tick (fst (fst band)) = snd band)
  /\ contiguous PRICE_TICKS
  /\ fst (fst (hd (inf, inf, inf) PRICE_TICKS)) = zero
  /\ snd (fst (last PRICE_TICKS (zero, zero, zero))) = inf
  /\ leb (get_price_tick p1) (get_price_tick p2) = true.
Proof.
  intros Hf H0 H12.
  assert (Hbounds : forall band, In band PRICE_TICKS ->
            in_band band (fst (fst band)) = true
            /\ in_band band (snd (fst band)) = false
            /\ get_price_tick (fst (fst band)) = snd band).
  { intros band H. simpl in H.
    repeat (destruct H as [H|H]; [subst band; repeat split; reflexivity|]).
    contradiction. }
  split; [|split; [exact Hbounds|]].
  - destruct (band_exists p1 Hf H0) as (band & Hin & Hb).
    exists band. split; [now split|].
    intros b' [Hin' Hb']. exact (band_unique p1 band b' Hin Hin' Hb Hb').
  - split; [simpl; tauto|]. split; [reflexivity|]. split; [reflexivity|].
    rewrite !get_price_tick_step;
      [now apply tick_step_mono|exact (leb_trans _ _ _ H0 H12)|exact H0].
Qed.

(** C6 at the prices 10.0 and 1000.0. *)
Lemma price_bands_partition_witness :
  is_finite f10 = true /\ leb zero f10 = true /\ leb f10 f1000 = true /\
  (exists! band, In band PRICE_TICKS /\ in_band band f10 = true) /\
  leb (get_price_tick f10) (get_price_tick f1000) = true.
Proof.
  destruct (price_bands_partition f10 f1000 eq_refl eq_refl eq_refl)
    as (Hone & _ & _ & _ & _ & Hmono).
  split; [reflexivity|]. split; [reflexivity|]. split; [reflexivity|].
  split; [exact Hone|exact Hmono].
Defined.

(** C9 (as the code has it): for every price <= 0 [round_taiwan_price]
    returns the int 0 without raising; for a negative price
    [get_price_tick] does not raise either, and returns its fallback
    tick 5.0, not zero. *)
Theorem nonpositive_price_rounds_to_zero (price : float) :
  (leb price zero = true -> round_taiwan_price price = Ok (PyInt 0))
  /\ (ltb price zero = true -> get_price_tick price = f5_0).
Proof.
  split.
  - intros H. unfold round_taiwan_price. now rewrite H.
  - apply tick_of_negative.
Qed.

(** C9 at the price -1.0. *)
Lemma nonpositive_price_rounds_to_zero_witness :
  leb (opp f1_0) zero = true /\ ltb (opp f1_0) zero = true /\
  round_taiwan_price (opp f1_0) = Ok (PyInt 0) /\
  get_price_tick (opp f1_0) = f5_0.
Proof.
  split; [reflexivity|]. split; [reflexivity|]. split.
  - apply (proj1 (nonpositive_price_rounds_to_zero (opp f1_0))). reflexivity.
  - apply (proj2 (nonpositive_price_rounds_to_zero (opp f1_0))). reflexivity.
Defined.

(** C9, counterexample to the claim as stated: the tick looked up for
    the negative price -1.0 is 5.0, which is neither zero nor a no-op
    value. *)
Lemma tick_of_minus_one_is_not_zero :
  ltb (opp f1_0) zero = true /\
  get_price_tick (opp f1_0) = f5_0 /\
  SFeqb (get_price_tick (opp f1_0)) zero = false.
Proof. repeat split; reflexivity. Qed.

End TickFacts.

(** ** The sort *)

Module SortFacts.
Import F64 F64Order LimitScan.

Section Sorting.
Context {A : Type} (key : A -> float).

Let le (a b : A) : Prop := leb (key a) (key b) = true.
Let ordered (a : A) : Prop := is_nan (key a) = false.

(** [insert] adds exactly its element. *)
Lemma insert_perm (x : A) (l : list A) :
  Permutation (insert key x l) (x :: l).
Proof.
  induction l as [|y l IH]; simpl; [reflexivity|].
  destruct (ltb (key x) (key y)); [reflexivity|].
  rewrite IH. apply perm_swap.
Qed.

(** [insert] keeps an upward-sorted list sorted. *)
Lemma insert_sorted (x : A) (l : list A) :
  ordered x -> Forall ordered l ->
  StronglySorted le l -> StronglySorted le (insert key x l).
Proof.
  intros Hx Hl Hs. induction Hs as [|y l Hs IH Hy]; simpl.
  - repeat constructor.
  - apply Forall_cons_iff in Hl. destruct Hl as [Hoy Hl].
    destruct (ltb (key x) (key y)) eqn:E.
    + apply ltb_leb in E.
      constructor; [now constructor|].
      constructor; [exact E|].
      eapply Forall_impl; [|exact Hy].
      intros z Hz. exact (leb_trans _ _ _ E Hz).
    + constructor; [now apply IH|].
      rewrite insert_perm. constructor; [|exact Hy].
      now apply not_ltb_leb.
Qed.

(** The insertion loop permutes its input. *)
Lemma fold_insert_perm (l acc : list A) :
  Permutation (fold_left (fun acc x => insert key x acc) l acc) (acc ++ l).
Proof.
  revert acc. induction l as [|x l IH]; intros acc; simpl.
  - now rewrite app_nil_r.
  - rewrite IH, insert_perm. apply Permutation_middle.
Qed.

(** The insertion loop keeps its accumulator sorted. *)
Lemma fold_insert_sorted (l acc : list A) :
  Forall ordered l -> Forall ordered acc -> StronglySorted le acc ->
  StronglySorted le (fold_left (fun acc x => insert key x acc) l acc).
Proof.
  revert acc. induction l as [|x l IH]; intros acc Hl Hacc Hs; simpl.
  - exact Hs.
  - apply Forall_cons_iff in Hl. destruct Hl as [Hx Hl].
    apply IH; [exact Hl| |now apply insert_sorted].
    rewrite insert_perm. now constructor.
Qed.

(** [sort_asc] permutes and sorts. *)
Lemma sort_asc_perm (l : list A) : Permutation (sort_asc key l) l.
Proof. unfold sort_asc. now rewrite fold_insert_perm. Qed.

Lemma sort_asc_sorted (l : list A) :
  Forall ordered l -> StronglySorted le (sort_asc key l).
Proof.
  intros Hl. apply fold_insert_sorted; [exact Hl|constructor|constructor].
Qed.

(** [sort] permutes, whichever the direction. *)
Lemma sort_perm (reverse : bool) (l : list A) :
  Permutation (sort key reverse l) l.
Proof.
  unfold sort. destruct reverse; [|apply sort_asc_perm].
  now rewrite <- Permutation_rev, sort_asc_perm, <- Permutation_rev.
Qed.

Lemma sort_length (reverse : bool) (l : list A) :
  List.length (sort key reverse l) = List.length l.
Proof. apply Permutation_length, sort_perm. Qed.

(** Appending an upper bound keeps a list sorted. *)
Lemma sorted_snoc (R : A -> A -> Prop) (l : list A) (x : A) :
  StronglySorted R l -> Forall (fun y => R y x) l ->
  StronglySorted R (l ++ [x]).
Proof.
  intros Hs Hx. induction Hs as [|y l Hs IH Hy]; simpl.
  - repeat constructor.
  - apply Forall_cons_iff in Hx. destruct Hx as [Hyx Hx].
    constructor; [now apply IH|].
    apply Forall_app. split; [exact Hy|now constructor].
Qed.

(** Reversal flips the order of a sorted list. *)
Lemma sorted_rev (R : A -> A -> Prop) (l : list A) :
  StronglySorted R l -> StronglySorted (fun a b => R b a) (rev l).
Proof.
  intros Hs. induction Hs as [|y l Hs IH Hy]; simpl; [constructor|].
  apply sorted_snoc; [exact IH|]. now apply Forall_rev.
Qed.

(** A prefix of a sorted list is sorted. *)
Lemma sorted_firstn (R : A -> A -> Prop) (n : nat) (l : list A) :
  StronglySorted R l -> StronglySorted R (firstn n l).
Proof.
  intros Hs. revert n. induction Hs as [|y l Hs IH Hy]; intros [|n]; simpl;
    try constructor; [apply IH|].
  rewrite <- (firstn_skipn n l) in Hy. apply Forall_app in Hy.
  exact (proj1 Hy).
Qed.

(** [sort] with [reverse=False] orders the keys upward, with
    [reverse=True] downward. *)
Lemma sort_sorted (reverse : bool) (l : list A) :
  Forall ordered l ->
  StronglySorted (fun a b => if reverse then le b a else le a b)
                 (sort key reverse l).
Proof.
  intros Hl. unfold sort. destruct reverse.
  - apply sorted_rev, sort_asc_sorted. now apply Forall_rev.
  - now apply sort_asc_sorted.
Qed.

End Sorting.

End SortFacts.

(** ** The row loop *)

Module ScanFacts.
Import F64 F64Order TaiwanStockService LimitScan ScanVocabulary SortFacts.

(** A [bind] that returns did so through both of its steps. *)
Lemma bind_ok {A B : Type} (m : exc A) (k : A -> exc B) (b : B) :
  bind m k = Ok b -> exists a, m = Ok a /\ k a = Ok b.
Proof. destruct m as [a|e]; simpl; [now exists a|discriminate]. Qed.

(** A successful index found its element. *)
Lemma index_ok {A : Type} (row : list A) (i : nat) (a : A) :
  index row i = Ok a -> nth_error row i = Some a.
Proof. unfold index. destruct (nth_error row i); congruence. Qed.

(** Parsing the fields reads column 11, so the row has 12 columns. *)
Lemma parse_fields_length (stock_row : list string) x :
  parse_fields stock_row = Ok x -> (12 <= List.length stock_row)%nat.
Proof.
  unfold parse_fields. intros H.
  repeat (apply bind_ok in H; destruct H as (? & ? & H)).
  match goal with
  | Hi : index stock_row 11 = Ok _ |- _ => apply index_ok in Hi;
      assert (Hn : nth_error stock_row 11 <> None) by congruence;
      apply nth_error_Some in Hn
  end.
  lia.
Qed.

(** What a parsed row was computed from. *)
Lemma parse_row_inv (stock_row : list string) (p : parsed_row) :
  parse_row stock_row = Ok (Some p) ->
  exists raw_price diff,
    parse_fields stock_row =
      Ok (Some (p_code p, p_name p, raw_price, p_change_percent p,
                p_change p, p_volume p))
    /\ round_taiwan_price raw_price = Ok (p_current_price p)
    /\ num_sub_float (p_current_price p) (p_change p) = Ok diff
    /\ round_taiwan_price diff = Ok (p_previous_price p).
Proof.
  unfold parse_row. intros H.
  apply bind_ok in H. destruct H as (fields & Hf & H).
  destruct fields as [[[[[[c n] raw] pct] chg] vol]|]; [|discriminate].
  apply bind_ok in H. destruct H as (cur & Hcur & H).
  apply bind_ok in H. destruct H as (diff & Hdiff & H).
  apply bind_ok in H. destruct H as (prev & Hprev & H).
  injection H as <-. simpl. now exists raw, diff.
Qed.

(** A row that parses passes the length test of line 223. *)
Lemma parse_row_length (stock_row : list string) x :
  parse_row stock_row = Ok x -> (List.length stock_row <? 9)%nat = false.
Proof.
  unfold parse_row. intros H. apply bind_ok in H.
  destruct H as (fields & Hf & _). apply parse_fields_length in Hf.
  apply Nat.ltb_ge. lia.
Qed.

(** A row that parses is processed as its classification says. *)
Lemma process_row_parsed (stock_row : list string) (p : parsed_row) x :
  parse_row stock_row = Ok (Some p) -> classify p = Ok x ->
  process_row stock_row = Ok x.
Proof.
  intros Hp Hc. unfold process_row, row_body.
  rewrite (parse_row_length _ _ Hp), Hp. simpl. now rewrite Hc.
Qed.

(** [float(s)] raises nothing but ValueError. *)
Lemma float_of_string_raises (s : string) (e : exn) :
  float_of_string s = Raise e -> e = ValueError.
Proof.
  unfold float_of_string.
  destruct (split_sign _) as [neg body].
  destruct (_ || _); [discriminate|].
  destruct (chars_eqb _ _); [discriminate|].
  destruct (negb _); [congruence|].
  destruct (span_digits _) as [ip r1].
  destruct (match r1 with
            | "."%char :: rest => span_digits rest
            | _ => ([], r1)
            end) as [fp r2].
  destruct (ip ++ fp); [congruence|].
  destruct r2 as [|c rest]; [discriminate|].
  destruct (Ascii.eqb _ _); [|congruence].
  destruct (split_sign rest) as [eneg ed].
  destruct (all_digits ed); [discriminate|congruence].
Qed.

(** The sentinels are not float literals: without the test of line 235
    they would raise ValueError. *)
Lemma sentinels_do_not_parse :
  float_of_string "--" = Raise ValueError
  /\ float_of_string "-" = Raise ValueError
  /\ float_of_string "" = Raise ValueError.
Proof. repeat split; reflexivity. Qed.

(** A row of 9 to 11 columns passes the length test and then raises
    IndexError at [stock_row[10]] or [stock_row[11]]. *)
Lemma short_row_raises (stock_row : list string) :
  (9 <= List.length stock_row < 12)%nat ->
  row_body stock_row = Raise IndexError.
Proof.
  intros Hlen. unfold row_body, parse_row, parse_fields, index.
  destruct (nth_error stock_row 0) eqn:E0;
    [|apply nth_error_None in E0; lia].
  destruct (nth_error stock_row 1) eqn:E1;
    [|apply nth_error_None in E1; lia].
  destruct (nth_error stock_row 8) eqn:E8;
    [|apply nth_error_None in E8; lia].
  cbn [bind].
  destruct (nth_error stock_row 10) eqn:E10; [|reflexivity].
  destruct (nth_error stock_row 11) eqn:E11; [|reflexivity].
  assert (nth_error stock_row 11 <> None) as H by congruence.
  apply nth_error_Some in H. lia.
Qed.

(** A row whose price column is no sentinel and no float literal raises
    ValueError. *)
Lemma unparsable_price_raises (stock_row : list string) (price_str : string) :
  (12 <= List.length stock_row)%nat ->
  nth_error stock_row 8 = Some price_str ->
  float_of_string (remove_char "," price_str) = Raise ValueError ->
  row_body stock_row = Ok NoAppend \/ row_body stock_row = Raise ValueError.
Proof.
  intros Hlen H8 Hbad. unfold row_body, parse_row, parse_fields, index.
  rewrite H8.
  destruct (nth_error stock_row 0) eqn:E0;
    [|apply nth_error_None in E0; lia].
  destruct (nth_error stock_row 1) eqn:E1;
    [|apply nth_error_None in E1; lia].
  destruct (nth_error stock_row 10) eqn:E10;
    [|apply nth_error_None in E10; lia].
  destruct (nth_error stock_row 11) eqn:E11;
    [|apply nth_error_None in E11; lia].
  destruct (nth_error stock_row 2) eqn:E2;
    [|apply nth_error_None in E2; lia].
  cbn [bind].
  destruct (_ || _); [now left|right].
  rewrite Hbad. reflexivity.
Qed.

(** The same for the change-percent column. *)
Lemma unparsable_percent_raises (stock_row : list string)
      (percent_str : string) :
  (12 <= List.length stock_row)%nat ->
  nth_error stock_row 11 = Some percent_str ->
  float_of_string (remove_char "+" (remove_char "%" percent_str))
    = Raise ValueError ->
  row_body stock_row = Ok NoAppend \/ row_body stock_row = Raise ValueError.
Proof.
  intros Hlen H11 Hbad. unfold row_body, parse_row, parse_fields, index.
  rewrite H11.
  destruct (nth_error stock_row 0) eqn:E0;
    [|apply nth_error_None in E0; lia].
  destruct (nth_error stock_row 1) eqn:E1;
    [|apply nth_error_None in E1; lia].
  destruct (nth_error stock_row 8) as [price_str|] eqn:E8;
    [|apply nth_error_None in E8; lia].
  destruct (nth_error stock_row 10) eqn:E10;
    [|apply nth_error_None in E10; lia].
  destruct (nth_error stock_row 2) eqn:E2;
    [|apply nth_error_None in E2; lia].
  cbn [bind].
  destruct (_ || _); [now left|right].
  destruct (float_of_string (remove_char "," price_str)) as [f|e] eqn:Ef.
  - cbn [bind]. rewrite Hbad. reflexivity.
  - apply float_of_string_raises in Ef. subst e. reflexivity.
Qed.

(** An appended dict comes from a parsed row and its classification. *)
Lemma process_row_append_inv (stock_row : list string) (a : action) :
  process_row stock_row = Ok a -> a <> NoAppend ->
  exists p, parse_row stock_row = Ok (Some p) /\ classify p = Ok a.
Proof.
  unfold process_row, row_body. intros H Ha.
  destruct (List.length stock_row <? 9)%nat; [congruence|].
  destruct (parse_row stock_row) as [[p|]|[| |]]; simpl in H; try congruence.
  exists p. split; [reflexivity|].
  destruct (classify p) as [x|[| |]]; congruence.
Qed.

(** The fields of a stock appended to the "up" list. *)
Lemma classify_up_inv (p : parsed_row) (s : stock) :
  classify p = Ok (AppendUp s) ->
  leb f9_5 (p_change_percent p) = true
  /\ change_percent s = p_change_percent p
  /\ current_price s = p_current_price p
  /\ reference_price s = p_previous_price p
  /\ change s = p_change p
  /\ is_limit s = leb f9_9 (p_change_percent p)
  /\ limit_type s = "up"%string.
Proof.
  unfold classify.
  destruct (leb f9_5 (p_change_percent p)) eqn:Eup.
  - intros H. apply bind_ok in H. destruct H as (t & Ht & H).
    injection H as <-. repeat split.
  - destruct (leb (p_change_percent p) (opp f9_5)); [|discriminate].
    intros H. apply bind_ok in H. destruct H as (t & Ht & H). discriminate.
Qed.

(** The fields of a stock appended to the "down" list. *)
Lemma classify_down_inv (p : parsed_row) (s : stock) :
  classify p = Ok (AppendDown s) ->
  leb (p_change_percent p) (opp f9_5) = true
  /\ change_percent s = p_change_percent p
  /\ current_price s = p_current_price p
  /\ reference_price s = p_previous_price p
  /\ change s = p_change p
  /\ is_limit s = leb (p_change_percent p) (opp f9_9)
  /\ limit_type s = "down"%string.
Proof.
  unfold classify.
  destruct (leb f9_5 (p_change_percent p)) eqn:Eup.
  - intros H. apply bind_ok in H. destruct H as (t & Ht & H). discriminate.
  - destruct (leb (p_change_percent p) (opp f9_5)) eqn:Edown; [|discriminate].
    intros H. apply bind_ok in H. destruct H as (t & Ht & H).
    injection H as <-. repeat split.
Qed.

(** Every appended dict has an ordered (non-NaN) sort key. *)
Lemma ups_ordered (stocks_data : list (list string)) :
  Forall (fun s => is_nan (change_percent s) = false)
         (appended_up stocks_data).
Proof.
  apply Forall_forall. intros s Hs. unfold appended_up in Hs.
  apply in_flat_map in Hs. destruct Hs as (row & _ & Hin).
  destruct (process_row row) as [[|s'|s']|e] eqn:E; simpl in Hin; try tauto.
  destruct Hin as [->|[]].
  apply process_row_append_inv in E; [|discriminate].
  destruct E as (p & _ & Hc). apply classify_up_inv in Hc.
  destruct Hc as (H & -> & _). exact (leb_not_nan_r _ _ H).
Qed.

Lemma downs_ordered (stocks_data : list (list string)) :
  Forall (fun s => is_nan (change_percent s) = false)
         (appended_down stocks_data).
Proof.
  apply Forall_forall. intros s Hs. unfold appended_down in Hs.
  apply in_flat_map in Hs. destruct Hs as (row & _ & Hin).
  destruct (process_row row) as [[|s'|s']|e] eqn:E; simpl in Hin; try tauto.
  destruct Hin as [->|[]].
  apply process_row_append_inv in E; [|discriminate].
  destruct E as (p & _ & Hc). apply classify_down_inv in Hc.
  destruct Hc as (H & -> & _). exact (leb_not_nan_l _ _ H).
Qed.

(** When no row escapes, the loop ends with the appended dicts of each
    direction, in row order. *)
Lemma scan_rows_ok (stocks_data : list (list string)) (ups downs : list stock) :
  existsb escapes stocks_data = false ->
  scan_rows stocks_data ups downs =
    Ok (ups ++ appended_up stocks_data, downs ++ appended_down stocks_data).
Proof.
  revert ups downs.
  induction stocks_data as [|row rest IH]; intros ups downs H.
  - simpl. now rewrite !app_nil_r.
  - simpl in H. apply orb_false_iff in H. destruct H as [Hrow Hrest].
    unfold escapes in Hrow. unfold appended_up, appended_down in *.
    cbn [scan_rows flat_map].
    destruct (process_row row) as [[|s|s]|e]; [| | |discriminate];
      cbn [bind]; rewrite IH by assumption; cbn [app];
      rewrite <- ?app_assoc; reflexivity.
Qed.

Lemma scan_rows_escape (stocks_data : list (list string))
      (ups downs : list stock) :
  existsb escapes stocks_data = true ->
  exists e, scan_rows stocks_data ups downs = Raise e.
Proof.
  revert ups downs.
  induction stocks_data as [|row rest IH]; intros ups downs H.
  - discriminate.
  - cbn [existsb] in H. unfold escapes in H at 1. cbn [scan_rows].
    destruct (process_row row) as [[|s|s]|e]; cbn [bind orb] in *; eauto.
Qed.

(** A row that appends nothing can be dropped from the loop. *)
Lemma scan_rows_skip (before after : list (list string))
      (stock_row : list string) (ups downs : list stock) :
  process_row stock_row = Ok NoAppend ->
  scan_rows (before ++ stock_row :: after) ups downs =
  scan_rows (before ++ after) ups downs.
Proof.
  intros Hskip. revert ups downs.
  induction before as [|row rest IH]; intros ups downs; cbn [app scan_rows].
  - now rewrite Hskip.
  - destruct (process_row row) as [[|s|s]|e]; cbn [bind]; auto.
Qed.

(** The result when no row escapes. *)
Lemma parse_result_ok (stocks_data : list (list string)) :
  existsb escapes stocks_data = false ->
  _parse_limit_stocks_data (Some stocks_data) =
    let full_up := sort change_percent true (appended_up stocks_data) in
    let full_down := sort change_percent false (appended_down stocks_data) in
    {| limit_up := firstn 20 full_up;
       limit_down := firstn 20 full_down;
       error := false;
       summary := {| total_scanned := List.length stocks_data;
                     limit_up_found := List.length full_up;
                     limit_down_found := List.length full_down |} |}.
Proof.
  intros H. unfold _parse_limit_stocks_data.
  rewrite (scan_rows_ok _ [] [] H). reflexivity.
Qed.

(** The result when some row escapes: the backup data. *)
Lemma parse_result_backup (stocks_data : list (list string)) :
  existsb escapes stocks_data = true ->
  _parse_limit_stocks_data (Some stocks_data) = _get_backup_limit_data.
Proof.
  intros H. unfold _parse_limit_stocks_data.
  destruct (scan_rows_escape _ [] [] H) as [e ->]. reflexivity.
Qed.

End ScanFacts.

(** ** Properties of the scan *)

Module ScanClaims.
Import F64 F64Order TaiwanStockService LimitScan ScanVocabulary SortFacts
       ScanFacts.

(** Run the loop body on a concrete row. *)
Ltac run_row row :=
  let E := fresh "E" in
  destruct (process_row row) as [[|?s|?s]|] eqn:E; vm_compute in E;
  first [discriminate E | injection E as <-].

(** C1, counterexample to the claim as stated: two rows whose fields
    all parse, with change percent 9.9, that are not listed "up".  With
    the price "1e308" the turnover [int(1000 * 1e308)] raises
    OverflowError, which leaves the loop; with the price "nan" the tick
    rounding raises ValueError and the row is skipped. *)
Lemma parsed_rows_at_the_limit_not_listed :
  (exists stock_code stock_name raw_price pct change volume,
     parse_fields huge_price_row
     = Ok (Some (stock_code, stock_name, raw_price, pct, change, volume))
     /\ leb f9_9 pct = true
     /\ process_row huge_price_row = Raise OverflowError)
  /\ (exists stock_code stock_name raw_price pct change volume,
        parse_fields nan_price_row
        = Ok (Some (stock_code, stock_name, raw_price, pct, change, volume))
        /\ leb f9_9 pct = true
        /\ process_row nan_price_row = Ok NoAppend).
Proof.
  split.
  - exists "5678"%string, ""%string, (of_decimal false 1 308),
      (of_decimal false 99 (-1)), (of_decimal false 10 0), 1000.
    split; [vm_compute; reflexivity|].
    split; [vm_compute; reflexivity|vm_compute; reflexivity].
  - exists "6789"%string, ""%string, S754_nan,
      (of_decimal false 99 (-1)), (of_decimal false 10 0), 1000.
    split; [vm_compute; reflexivity|].
    split; [vm_compute; reflexivity|vm_compute; reflexivity].
Qed.

(** C1 (as the code has it): for a row whose fields parse and whose
    prices tick-round without an exception (lines 227-245 complete),
    and whose turnover converts to an int, the change percent decides
    the outcome: >= 9.9 appends an "up" dict
    with [is_limit] true; in [9.5, 9.9) an "up" dict with [is_limit]
    false; <= -9.9 a "down" dict with [is_limit] true; in (-9.9, -9.5]
    a "down" dict with [is_limit] false; anything else appends to
    neither list. *)
Theorem limit_classification_thresholds
        (stock_row : list string) (p : parsed_row) (t : Z) :
  parse_row stock_row = Ok (Some p) ->
  turnover_of (p_volume p) (p_current_price p) = Ok t ->
  let pct := p_change_percent p in
  (leb f9_9 pct = true ->
     exists s, process_row stock_row = Ok (AppendUp s)
               /\ change_percent s = pct
               /\ limit_type s = "up"%string /\ is_limit s = true)
  /\ (leb f9_5 pct = true -> ltb pct f9_9 = true ->
     exists s, process_row stock_row = Ok (AppendUp s)
               /\ change_percent s = pct
               /\ limit_type s = "up"%string /\ is_limit s = false)
  /\ (leb pct (opp f9_9) = true ->
     exists s, process_row stock_row = Ok (AppendDown s)
               /\ change_percent s = pct
               /\ limit_type s = "down"%string /\ is_limit s = true)
  /\ (ltb (opp f9_9) pct = true -> leb pct (opp f9_5) = true ->
     exists s, process_row stock_row = Ok (AppendDown s)
               /\ change_percent s = pct
               /\ limit_type s = "down"%string /\ is_limit s = false)
  /\ (leb f9_5 pct = false -> leb pct (opp f9_5) = false ->
     process_row stock_row = Ok NoAppend).
Proof.
  intros Hp Ht pct.
  assert (Hup : leb f9_5 pct = true ->
            exists s, process_row stock_row = Ok (AppendUp s)
                      /\ change_percent s = pct
                      /\ limit_type s = "up"%string
                      /\ is_limit s = leb f9_9 pct).
  { intros H. eexists. split.
    - apply (process_row_parsed _ p); [exact Hp|].
      unfold classify. fold pct. rewrite H, Ht. reflexivity.
    - repeat split. }
  assert (Hlow : leb pct (opp f9_5) = true -> leb f9_5 pct = false).
  { intros H. destruct (leb f9_5 pct) eqn:E; [|reflexivity].
    pose proof (leb_trans _ _ _ E H). discriminate. }
  assert (Hdown : leb pct (opp f9_5) = true ->
            exists s, process_row stock_row = Ok (AppendDown s)
                      /\ change_percent s = pct
                      /\ limit_type s = "down"%string
                      /\ is_limit s = leb pct (opp f9_9)).
  { intros H. eexists. split.
    - apply (process_row_parsed _ p); [exact Hp|].
      unfold classify. fold pct. rewrite (Hlow H), H, Ht. reflexivity.
    - repeat split. }
  split; [|split; [|split; [|split]]].
  - intros H.
    destruct (Hup (leb_trans f9_5 f9_9 pct eq_refl H)) as (s & Hs & Hc & Hl & Hi).
    exists s. rewrite Hi, H. auto.
  - intros H Hlt. destruct (Hup H) as (s & Hs & Hc & Hl & Hi).
    exists s. rewrite Hi, (ltb_leb_false _ _ Hlt). auto.
  - intros H.
    destruct (Hdown (leb_trans pct (opp f9_9) (opp f9_5) H eq_refl))
      as (s & Hs & Hc & Hl & Hi).
    exists s. rewrite Hi, H. auto.
  - intros Hlt H. destruct (Hdown H) as (s & Hs & Hc & Hl & Hi).
    exists s. rewrite Hi, (ltb_leb_false _ _ Hlt). auto.
  - intros H1 H2. apply (process_row_parsed _ p); [exact Hp|].
    unfold classify. fold pct. now rewrite H1, H2.
Qed.

(** C1 (as the code has it) at the scenario row. *)
Lemma limit_classification_thresholds_witness :
  exists p t,
    parse_row scenario_row = Ok (Some p)
    /\ turnover_of (p_volume p) (p_current_price p) = Ok t
    /\ leb f9_9 (p_change_percent p) = true
    /\ exists s, process_row scenario_row = Ok (AppendUp s)
                 /\ change_percent s = p_change_percent p
                 /\ limit_type s = "up"%string /\ is_limit s = true.
Proof.
  destruct (parse_row scenario_row) as [[p|]|] eqn:E;
    pose proof E as E'; vm_compute in E';
    [injection E' as <-|discriminate E'|discriminate E'].
  match type of E with
  | _ = Ok (Some ?p0) =>
      assert (Ht : turnover_of (p_volume p0) (p_current_price p0) = Ok 110000)
        by (vm_compute; reflexivity);
      assert (Hpct : leb f9_9 (p_change_percent p0) = true)
        by (vm_compute; reflexivity);
      exists p0, 110000;
      split; [reflexivity|]; split; [exact Ht|]; split; [exact Hpct|];
      exact (proj1 (limit_classification_thresholds scenario_row p0 110000
                      E Ht) Hpct)
  end.
Defined.

(** C2, counterexample to the claim as stated: an input with 25 rows
    at the upper limit and one row whose price is infinite.  That row
    raises OverflowError out of the loop, the aggregation step is not
    reached, and the returned ['limit_up'] is empty, not of length
    20. *)
Lemma escaping_row_empties_limit_up :
  List.length (appended_up scan_with_escape) = 25%nat
  /\ process_row escaping_row = Raise OverflowError
  /\ limit_up (_parse_limit_stocks_data (Some scan_with_escape)) = []
  /\ error (_parse_limit_stocks_data (Some scan_with_escape)) = true.
Proof.
  split; [vm_compute; reflexivity|].
  split; [vm_compute; reflexivity|].
  split; [vm_compute; reflexivity|vm_compute; reflexivity].
Qed.

(** C2 (as the code has it): [limit_up] is sorted by change percent
    downward and [limit_down] upward (most negative first), each of at
    most 20 entries, for every input; when no row escapes the loop
    (none raises an exception other than ValueError and IndexError),
    [limit_up] is the first 20 of the appended "up" dicts so sorted
    and [limit_down] the first 20 of the "down" dicts, and with 25
    appended "up" dicts [limit_up] has exactly 20 entries. *)
Theorem limit_lists_sorted_and_truncated (stocks_data : list (list string)) :
  let r := _parse_limit_stocks_data (Some stocks_data) in
  let ups := appended_up stocks_data in
  let downs := appended_down stocks_data in
  StronglySorted descending (limit_up r)
  /\ StronglySorted ascending (limit_down r)
  /\ (List.length (limit_up r) <= 20)%nat
  /\ (List.length (limit_down r) <= 20)%nat
  /\ (existsb escapes stocks_data = false ->
      (exists full_up full_down,
         Permutation full_up ups /\ StronglySorted descending full_up
         /\ limit_up r = firstn 20 full_up
         /\ Permutation full_down downs /\ StronglySorted ascending full_down
         /\ limit_down r = firstn 20 full_down)
      /\ List.length (limit_up r) = Nat.min 20 (List.length ups)
      /\ List.length (limit_down r) = Nat.min 20 (List.length downs)
      /\ (List.length ups = 25%nat -> List.length (limit_up r) = 20%nat)).
Proof.
  intros r ups downs. subst r.
  destruct (existsb escapes stocks_data) eqn:H.
  - rewrite (parse_result_backup _ H). cbn [_get_backup_limit_data limit_up limit_down List.length].
    repeat split; try constructor; try lia. all: discriminate.
  - rewrite (parse_result_ok _ H). cbv zeta.
    cbn [limit_up limit_down]. fold ups downs.
    assert (Su : StronglySorted descending (sort change_percent true ups))
      by exact (sort_sorted change_percent true ups (ups_ordered _)).
    assert (Sd : StronglySorted ascending (sort change_percent false downs))
      by exact (sort_sorted change_percent false downs (downs_ordered _)).
    split; [now apply sorted_firstn|]. split; [now apply sorted_firstn|].
    split; [apply firstn_le_length|]. split; [apply firstn_le_length|].
    intros _. split; [|split; [|split]].
    + exists (sort change_percent true ups), (sort change_percent false downs).
      repeat split; try assumption; apply sort_perm.
    + now rewrite length_firstn, sort_length.
    + now rewrite length_firstn, sort_length.
    + intros L. now rewrite length_firstn, sort_length, L.
Qed.

(** C2 (as the code has it) at 25 copies of the scenario row. *)
Lemma limit_lists_sorted_and_truncated_witness :
  existsb escapes (repeat scenario_row 25) = false /\
  List.length (appended_up (repeat scenario_row 25)) = 25%nat /\
  List.length
    (limit_up (_parse_limit_stocks_data (Some (repeat scenario_row 25))))
    = 20%nat /\
  StronglySorted descending
    (limit_up (_parse_limit_stocks_data (Some (repeat scenario_row 25)))).
Proof.
  assert (E : existsb escapes (repeat scenario_row 25) = false)
    by (vm_compute; reflexivity).
  assert (L : List.length (appended_up (repeat scenario_row 25)) = 25%nat)
    by (vm_compute; reflexivity).
  destruct (limit_lists_sorted_and_truncated (repeat scenario_row 25))
    as (Hs & _ & _ & _ & Hok).
  destruct (Hok E) as (_ & _ & _ & H25).
  split; [exact E|]. split; [exact L|]. split; [exact (H25 L)|exact Hs].
Defined.

(** C3, counterexample to the claim as stated: the placeholder row is
    skipped, but next to a row that escapes the loop it is not counted:
    the scan returns the backup data, whose [total_scanned] is 0. *)
Lemma skipped_row_not_counted_after_escape :
  is_sentinel "--" = true
  /\ process_row placeholder_row = Ok NoAppend
  /\ process_row escaping_row = Raise OverflowError
  /\ total_scanned
       (summary (_parse_limit_stocks_data
                   (Some [scenario_row; placeholder_row; escaping_row])))
     = 0%nat.
Proof.
  split; [reflexivity|].
  split; [vm_compute; reflexivity|].
  split; [vm_compute; reflexivity|vm_compute; reflexivity].
Qed.

(** C3 (as the code has it): a row whose price or change-percent
    column is one of the sentinels "--", "-", "", and a row whose
    [try] block raises ValueError or IndexError, is skipped without an
    exception: the two lists and the two found-counts are what they
    are without the row, and when the scan does not fall back to the
    backup data (no other row raises an exception that the loop does
    not catch) the row is counted in [total_scanned]. *)
Theorem unparsable_rows_are_skipped
        (before after : list (list string)) (stock_row : list string) :
  (exists price_str percent_str,
      nth_error stock_row 8 = Some price_str /\
      nth_error stock_row 11 = Some percent_str /\
      is_sentinel price_str || is_sentinel percent_str = true)
  \/ row_body stock_row = Raise ValueError
  \/ row_body stock_row = Raise IndexError ->
  let r := _parse_limit_stocks_data (Some (before ++ stock_row :: after)) in
  let r' := _parse_limit_stocks_data (Some (before ++ after)) in
  process_row stock_row = Ok NoAppend
  /\ limit_up r = limit_up r' /\ limit_down r = limit_down r'
  /\ limit_up_found (summary r) = limit_up_found (summary r')
  /\ limit_down_found (summary r) = limit_down_found (summary r')
  /\ (error r = false ->
      total_scanned (summary r) = List.length (before ++ stock_row :: after)
      /\ total_scanned (summary r) = S (total_scanned (summary r'))).
Proof.
  intros Hrow r r'.
  assert (Hskip : process_row stock_row = Ok NoAppend).
  { unfold process_row.
    destruct (List.length stock_row <? 9)%nat eqn:Elen; [reflexivity|].
    destruct Hrow as [(ps & cs & H8 & H11 & Hs)|[->| ->]]; try reflexivity.
    assert (Hlen : (11 < List.length stock_row)%nat)
      by (apply nth_error_Some; congruence).
    unfold row_body, parse_row, parse_fields, index.
    rewrite H8, H11.
    destruct (nth_error stock_row 0) eqn:E0;
      [|apply nth_error_None in E0; lia].
    destruct (nth_error stock_row 1) eqn:E1;
      [|apply nth_error_None in E1; lia].
    destruct (nth_error stock_row 10) eqn:E10;
      [|apply nth_error_None in E10; lia].
    destruct (nth_error stock_row 2) eqn:E2;
      [|apply nth_error_None in E2; lia].
    cbn [bind]. now rewrite Hs. }
  split; [exact Hskip|].
  subst r r'. unfold _parse_limit_stocks_data.
  rewrite (scan_rows_skip before after stock_row [] [] Hskip).
  destruct (scan_rows (before ++ after) [] []) as [[ups downs]|e];
    cbn [limit_up limit_down summary limit_up_found limit_down_found
         total_scanned error _get_backup_limit_data].
  - repeat split; try reflexivity.
    rewrite !length_app. cbn [List.length]. lia.
  - repeat split; try reflexivity; discriminate.
Qed.

(** C3 (as the code has it) at a placeholder row between two classified
    rows. *)
Lemma unparsable_rows_are_skipped_witness :
  let placeholder := twse_row "9999" "" "--" "--" "--" "--" in
  let r := _parse_limit_stocks_data
             (Some ([scenario_row] ++ placeholder :: [falling_row])) in
  process_row placeholder = Ok NoAppend
  /\ List.length (limit_up r) = 1%nat /\ List.length (limit_down r) = 1%nat
  /\ limit_up_found (summary r) = 1%nat
  /\ limit_down_found (summary r) = 1%nat
  /\ total_scanned (summary r) = 3%nat.
Proof.
  intros placeholder r.
  assert (Hpre :
    (exists price_str percent_str,
        nth_error placeholder 8 = Some price_str /\
        nth_error placeholder 11 = Some percent_str /\
        is_sentinel price_str || is_sentinel percent_str = true)
    \/ row_body placeholder = Raise ValueError
    \/ row_body placeholder = Raise IndexError).
  { left. exists "--"%string, "--"%string. repeat split. }
  destruct (unparsable_rows_are_skipped [scenario_row] [falling_row]
              placeholder Hpre) as (Hs & Hu & Hd & Hfu & Hfd & Ht).
  split; [exact Hs|].
  fold r in Hu, Hd, Hfu, Hfd, Ht.
  rewrite Hu, Hd, Hfu, Hfd.
  assert (Herr : error r = false) by (vm_compute; reflexivity).
  destruct (Ht Herr) as [Hlen _]. rewrite Hlen.
  repeat split; vm_compute; reflexivity.
Defined.

(** C4, counterexample to the claim as stated: for the row with price
    "10.02", change "0.97", change percent "9.90%" the listed reference
    price is 9.03 while the tick rounding of parsed price minus parsed
    change, 10.02 - 0.97, is 9.05. *)
Lemma reference_price_not_from_parsed_price :
  exists s,
    process_row off_grid_row = Ok (AppendUp s)
    /\ reference_price s = PyFloat (of_decimal false 903 (-2))
    /\ reference_from_parsed off_grid_row
       = Ok (Some (PyFloat (of_decimal false 905 (-2))))
    /\ ltb (of_decimal false 903 (-2)) (of_decimal false 905 (-2)) = true.
Proof.
  run_row off_grid_row. eexists. split; [reflexivity|].
  repeat split; vm_compute; reflexivity.
Qed.

(** C4 (as the code has it): the reference price of every listed stock
    is the tick rounding of [current_price - change], where
    [current_price] is the listed current price, itself the tick
    rounding of the parsed price, and [change] is the parsed change.
    For the scenario row (price "110.00", change "10.00", change
    percent "9.90%") the stock is listed "up" with [is_limit] true and
    reference price 100.0, the tick rounding of 100.0. *)
Theorem reference_price_from_rounded_price
        (stock_row : list string) (s : stock) :
  process_row stock_row = Ok (AppendUp s)
  \/ process_row stock_row = Ok (AppendDown s) ->
  (exists code name raw_price pct vol diff,
     parse_fields stock_row =
       Ok (Some (code, name, raw_price, pct, change s, vol))
     /\ round_taiwan_price raw_price = Ok (current_price s)
     /\ num_sub_float (current_price s) (change s) = Ok diff
     /\ round_taiwan_price diff = Ok (reference_price s))
  /\ (exists s0,
        process_row scenario_row = Ok (AppendUp s0)
        /\ limit_type s0 = "up"%string /\ is_limit s0 = true
        /\ current_price s0 = PyFloat (of_decimal false 110 0)
        /\ change s0 = of_decimal false 10 0
        /\ reference_price s0 = PyFloat f100
        /\ round_taiwan_price f100 = Ok (PyFloat f100)).
Proof.
  intros H. split.
  - assert (Hp : exists p, parse_row stock_row = Ok (Some p)
                   /\ current_price s = p_current_price p
                   /\ reference_price s = p_previous_price p
                   /\ change s = p_change p).
    { destruct H as [H|H];
        (apply process_row_append_inv in H; [|discriminate]);
        destruct H as (p & Hp & Hc); exists p; (split; [exact Hp|]).
      - apply classify_up_inv in Hc. tauto.
      - apply classify_down_inv in Hc. tauto. }
    destruct Hp as (p & Hp & -> & -> & ->).
    apply parse_row_inv in Hp.
    destruct Hp as (raw & diff & Hf & Hcur & Hd & Hprev).
    now exists (p_code p), (p_name p), raw, (p_change_percent p),
               (p_volume p), diff.
  - clear H. run_row scenario_row. eexists. split; [reflexivity|].
    repeat split; vm_compute; reflexivity.
Qed.

(** C4 (as the code has it) at the off-grid row. *)
Lemma reference_price_from_rounded_price_witness :
  exists s,
    process_row off_grid_row = Ok (AppendUp s)
    /\ exists diff,
         num_sub_float (current_price s) (change s) = Ok diff
         /\ round_taiwan_price diff = Ok (reference_price s).
Proof.
  assert (H : exists s, process_row off_grid_row = Ok (AppendUp s))
    by (run_row off_grid_row; eexists; reflexivity).
  destruct H as [s Hs]. exists s. split; [exact Hs|].
  destruct (proj1 (reference_price_from_rounded_price off_grid_row s
                     (or_introl Hs)))
    as (c & n & raw & pct & vol & diff & _ & _ & Hd & Hr).
  exists diff. split; assumption.
Defined.

(** C10: the two found-counts are the lengths of the sorted lists before
    they are cut to 20 entries, so each count is at least the length of
    the returned list; it exceeds 20 as soon as more than 20 rows
    classify in that direction. *)
Theorem found_counts_precede_truncation :
  (forall data9,
     let r := _parse_limit_stocks_data data9 in
     (exists full_up full_down,
        limit_up r = firstn 20 full_up
        /\ limit_up_found (summary r) = List.length full_up
        /\ limit_down r = firstn 20 full_down
        /\ limit_down_found (summary r) = List.length full_down)
     /\ (List.length (limit_up r) <= limit_up_found (summary r))%nat
     /\ (List.length (limit_down r) <= limit_down_found (summary r))%nat)
  /\ (forall stocks_data,
        existsb escapes stocks_data = false ->
        let r := _parse_limit_stocks_data (Some stocks_data) in
        limit_up_found (summary r) = List.length (appended_up stocks_data)
        /\ limit_down_found (summary r)
           = List.length (appended_down stocks_data))
  /\ (let r := _parse_limit_stocks_data (Some (repeat scenario_row 21)) in
      limit_up_found (summary r) = 21%nat
      /\ List.length (limit_up r) = 20%nat)
  /\ (let r := _parse_limit_stocks_data (Some (repeat falling_row 21)) in
      limit_down_found (summary r) = 21%nat
      /\ List.length (limit_down r) = 20%nat).
Proof.
  split; [|split; [|split]].
  - intros data9 r.
    assert (Hfull : exists full_up full_down,
              limit_up r = firstn 20 full_up
              /\ limit_up_found (summary r) = List.length full_up
              /\ limit_down r = firstn 20 full_down
              /\ limit_down_found (summary r) = List.length full_down).
    { subst r. unfold _parse_limit_stocks_data.
      destruct data9 as [stocks_data|]; [|now exists [], []].
      destruct (scan_rows stocks_data [] []) as [[ups downs]|e];
        [|now exists [], []].
      now exists (sort change_percent true ups),
                 (sort change_percent false downs). }
    split; [exact Hfull|].
    destruct Hfull as (fu & fd & -> & -> & -> & ->).
    rewrite !length_firstn. lia.
  - intros stocks_data H r. subst r. rewrite (parse_result_ok _ H).
    cbv zeta. cbn [summary limit_up_found limit_down_found].
    rewrite !sort_length. split; reflexivity.
  - vm_compute. split; reflexivity.
  - vm_compute. split; reflexivity.
Qed.

End ScanClaims.

(** ** Market status *)

Module SessionFacts.
Import StockDataService SessionVocabulary.

(** On a weekday [is_open] is decided by the hour alone. *)
Lemma weekday_is_open_by_hour (now : datetime) :
  weekday now < 5 ->
  result_is_open (get_market_status now)
  = (13 <=? hour now) && (hour now <? 21).
Proof.
  intros Hwd. unfold get_market_status, market_status_body.
  replace (weekday now <? 5) with true by (symmetry; apply Z.ltb_lt; exact Hwd).
  set (open_now := (13 <=? hour now) && (hour now <? 21)).
  destruct (hour now <? 13) eqn:E13; [reflexivity|].
  destruct (21 <=? hour now) eqn:E21; [|reflexivity].
  assert (Hclosed : open_now = false).
  { apply Z.leb_le in E21. apply andb_false_iff. right.
    apply Z.ltb_ge. exact E21. }
  rewrite Hclosed.
  destruct (add_days now 1) as [next_day|e]; [|reflexivity].
  cbv [bind].
  destruct (weekday next_day <? 5); [reflexivity|].
  destruct (add_days next_day (7 - weekday next_day)); reflexivity.
Qed.

(** On a weekday the Taiwan classifier reports open from 9:00 up to and
    including the minute 13:30. *)
Lemma taiwan_open_by_minute (now : datetime) :
  well_formed now -> weekday now < 5 ->
  _get_market_status now
  = (9 * 60 <=? hour now * 60 + minute now)
    && (hour now * 60 + minute now <=? 13 * 60 + 30).
Proof.
  intros (_ & Hh & Hm & _) Hwd. unfold _get_market_status.
  replace (5 <=? weekday now) with false
    by (symmetry; apply Z.leb_gt; exact Hwd).
  destruct (Z.eqb_spec (hour now) 9) as [E9|E9];
    destruct (Z.leb_spec 0 (minute now));
    destruct (Z.leb_spec 10 (hour now));
    destruct (Z.leb_spec (hour now) 12);
    destruct (Z.eqb_spec (hour now) 13);
    destruct (Z.leb_spec (minute now) 30);
    destruct (Z.leb_spec (9 * 60) (hour now * 60 + minute now));
    destruct (Z.leb_spec (hour now * 60 + minute now) (13 * 60 + 30));
    try reflexivity; lia.
Qed.

(** C7, the code at a failing input: on Monday at 13:10,
    [get_market_status] reports the market open, although 13:10 is
    before the session open 13:30 that the same function names as
    [next_open] earlier that day; and on Monday at 13:30
    [TaiwanStockService._get_market_status] still reports open, at the
    close of its 9:00-13:30 session. *)
Theorem is_open_outside_session_window :
  weekday (monday_at 13 10) = 0
  /\ next_open_of_morning = Some (at_time (monday_at 9 0) 13 30)
  /\ result_is_open (get_market_status (monday_at 13 10)) = true
  /\ in_window 13 30 21 0 (monday_at 13 10) = false
  /\ _get_market_status (monday_at 13 30) = true
  /\ in_window 9 0 13 30 (monday_at 13 30) = false.
Proof. repeat split; reflexivity. Qed.

(** C8: on a Saturday or Sunday [get_market_status] returns a status
    with [is_open] and [trading_day] false whose [next_open] is the
    next Monday (no Monday lies in between) at 13:30:00; the Taiwan
    classifier reports closed as well. *)
Theorem weekend_is_closed_until_monday (now : datetime) :
  well_formed now -> 5 <= weekday now ->
  exists s next,
    get_market_status now = StatusDict s
    /\ is_open s = false /\ trading_day s = false
    /\ next_open s = Some next
    /\ weekday next = 0
    /\ ordinal now < ordinal next
    /\ (forall d, ordinal now < d < ordinal next -> (d + 6) mod 7 <> 0)
    /\ hour next = 13 /\ minute next = 30
    /\ second next = 0 /\ microsecond next = 0
    /\ _get_market_status now = false.
Proof.
  intros (Hord & _) Hwd. unfold max_ordinal in Hord.
  unfold get_market_status, market_status_body, _get_market_status.
  replace (weekday now <? 5) with false by (symmetry; apply Z.ltb_ge; exact Hwd).
  replace (5 <=? weekday now) with true by (symmetry; apply Z.leb_le; exact Hwd).
  unfold add_days, weekday in *.
  assert (Hin : (1 <=? ordinal now + (7 - (ordinal now + 6) mod 7))
                && (ordinal now + (7 - (ordinal now + 6) mod 7)
                    <=? max_ordinal) = true).
  { apply andb_true_iff. unfold max_ordinal.
    split; apply Z.leb_le; Z.div_mod_to_equations; lia. }
  rewrite Hin. cbv [bind].
  eexists. eexists. split; [reflexivity|].
  cbn [is_open trading_day next_open at_time ordinal hour minute second
       microsecond].
  repeat split; try reflexivity; cbn [at_time ordinal].
  - Z.div_mod_to_equations; lia.
  - Z.div_mod_to_equations; lia.
  - intros d Hd. Z.div_mod_to_equations; lia.
Qed.

(** C8 at Saturday 2024-01-06 12:00. *)
Lemma weekend_is_closed_until_monday_witness :
  well_formed saturday_noon /\ 5 <= weekday saturday_noon /\
  exists s next,
    get_market_status saturday_noon = StatusDict s
    /\ is_open s = false /\ trading_day s = false
    /\ next_open s = Some next
    /\ ordinal next = 738893 /\ weekday next = 0
    /\ hour next = 13 /\ minute next = 30.
Proof.
  assert (Hwf : well_formed saturday_noon)
    by (unfold well_formed, max_ordinal; simpl; lia).
  assert (Hwd : 5 <= weekday saturday_noon) by (vm_compute; discriminate).
  split; [exact Hwf|]. split; [exact Hwd|].
  destruct (weekend_is_closed_until_monday saturday_noon Hwf Hwd)
    as (s & next & Hs & Ho & Ht & Hn & Hmon & _ & _ & Hh & Hm & _).
  exists s, next. repeat split; try assumption.
  vm_compute in Hs. injection Hs as <-. simpl in Hn. injection Hn as <-.
  reflexivity.
Defined.

End SessionFacts.

(** * Further properties *)

(** ** Tick rounding: errors and sign *)

Module TickExtras.
Import F64 F64Order F64Range TaiwanStockService RoundingVocabulary
       TickVocabulary TickFacts.

(** The shape of a float that is neither NaN nor negative. *)
Lemma non_negative_shape (f : float) :
  f = S754_zero false \/ (exists m e, f = S754_finite false m e)
  \/ f = S754_infinity false ->
  leb zero f = true.
Proof. intros [->|[(m & e & ->)| ->]]; reflexivity. Qed.

(** [binary_round_aux] keeps the sign it is given and never makes a NaN
    out of a non-negative mantissa. *)
Lemma round_aux_sign (s : bool) (mx ex : Z) (lx : location) :
  0 <= mx ->
  binary_round_aux prec emax s mx ex lx = S754_zero s
  \/ (exists m e, binary_round_aux prec emax s mx ex lx = S754_finite s m e)
  \/ binary_round_aux prec emax s mx ex lx = S754_infinity s.
Proof.
  intros Hm. unfold binary_round_aux.
  destruct (shr_fexp_spec mx ex lx Hm) as [He1 Hm1].
  destruct (shr_fexp prec emax mx ex lx) as [mrs1 e1]. simpl in He1, Hm1.
  assert (H1 : 0 <= shr_m mrs1) by (rewrite Hm1; apply Z.div_pos; lia).
  pose proof (round_nearest_even_range (shr_m mrs1) (loc_of_shr_record mrs1))
    as Hr.
  set (mr := round_nearest_even (shr_m mrs1) (loc_of_shr_record mrs1)) in *.
  assert (Hmr : 0 <= mr) by lia.
  destruct (shr_fexp_spec mr e1 loc_Exact Hmr) as [He2 Hm2].
  destruct (shr_fexp prec emax mr e1 loc_Exact) as [mrs2 e2].
  simpl in He2, Hm2.
  assert (H2 : 0 <= shr_m mrs2) by (rewrite Hm2; apply Z.div_pos; lia).
  destruct (shr_m mrs2) as [|m|m]; [now left| |lia].
  right. destruct (e2 <=? emax - prec); [left; now exists m, e2|now right].
Qed.

(** The quotient of two positive floats is not negative and not NaN. *)
Lemma div_sign (m1 m2 : positive) (e1 e2 : Z) :
  let q := div (S754_finite false m1 e1) (S754_finite false m2 e2) in
  q = S754_zero false \/ (exists m e, q = S754_finite false m e)
  \/ q = S754_infinity false.
Proof.
  intros q. subst q. unfold div, SFdiv, SFdiv_core_binary.
  set (sh := e1 - e2 - _).
  set (m' := match sh with
             | 0 => Zpos m1
             | Zpos _ => Z.shiftl (Zpos m1) sh
             | Zneg _ => 0
             end).
  assert (Hm' : 0 <= m').
  { unfold m'. destruct sh; try lia. apply Z.shiftl_nonneg. lia. }
  pose proof (Z_div_mod m' (Zpos m2) eq_refl) as Hdm.
  destruct (Z.div_eucl m' (Zpos m2)) as [qz rz].
  destruct Hdm as [Heq Hrz].
  assert (Hqz : 0 <= qz).
  { destruct (Z_le_gt_dec 0 qz) as [|Hneg]; [assumption|exfalso]. nia. }
  apply (round_aux_sign (xorb false false)). exact Hqz.
Qed.

(** [get_price_tick] returns one of the six ticks of the table, on
    every float. *)
Lemma get_price_tick_cases (price : float) :
  In (get_price_tick price) [f0_01; f0_05; f0_1; f0_5; f1_0; f5_0].
Proof.
  unfold get_price_tick, PRICE_TICKS, first_tick.
  repeat match goal with
         | |- context [if in_band ?b price then _ else _] =>
             destruct (in_band b price)
         end; simpl; auto 10.
Qed.

(** Rounding a float that is not negative gives a non-negative int. *)
Lemma round_nonneg (q : float) (n : Z) :
  q = S754_zero false \/ (exists m e, q = S754_finite false m e)
  \/ q = S754_infinity false ->
  round q = Ok n -> 0 <= n.
Proof.
  intros [->|[(m & e & ->)| ->]]; unfold round, cond_Zopp; intros H;
    try discriminate; injection H as <-; [lia|].
  destruct (0 <=? e) eqn:Ee.
  - assert (Hp : 0 <= 2 ^ e) by (apply Z.pow_nonneg; lia).
    change (0 <= Zpos m * 2 ^ e). nia.
  - apply Z.leb_gt in Ee. unfold div_half_even. cbv zeta.
    assert (Hd : 0 <= Zpos m / 2 ^ (- e))
      by (apply Z.div_pos; [lia|]; apply Z.pow_pos_nonneg; lia).
    destruct (_ ?= _); [destruct (Z.even _)| |]; lia.
Qed.

(** A non-negative int converts to a float that is not negative. *)
Lemma of_int_sign (n : Z) (fn : float) :
  0 <= n -> of_int n = Ok fn ->
  fn = S754_zero false \/ exists m e, fn = S754_finite false m e.
Proof.
  intros Hn. unfold of_int, of_Z_round, binary_normalize.
  destruct n as [|p|p]; [intros H; injection H as <-; now left| |lia].
  unfold binary_round.
  destruct (shl_align p 0 _) as [mz ez].
  destruct (round_aux_sign false (Zpos mz) ez loc_Exact)
    as [->|[(m & e & ->)| ->]]; try lia; intros H; try discriminate;
    injection H as <-; [now left|right; now exists m, e].
Qed.

(** X1: on a valid binary64, [round_taiwan_price] raises ValueError
    exactly for NaN and OverflowError exactly for +infinity; on every
    other value, -infinity included, it returns. *)
Theorem round_taiwan_price_raises (price : float) :
  valid price = true ->
  (round_taiwan_price price = Raise ValueError <-> price = S754_nan)
  /\ (round_taiwan_price price = Raise OverflowError
      <-> price = S754_infinity false)
  /\ (price <> S754_nan -> price <> S754_infinity false ->
      exists r, round_taiwan_price price = Ok r).
Proof.
  intros Hv.
  destruct price as [[|]|[|]| |[|] m e];
    try (repeat split; intros; try reflexivity; try discriminate;
         try congruence; try (eexists; reflexivity); fail).
  destruct (quotient_rounds m e Hv) as (n & fn & Hn & Hfn).
    assert (Hok : round_taiwan_price (S754_finite false m e)
                  = Ok (PyFloat (mul fn (get_price_tick
                                           (S754_finite false m e))))).
    { unfold round_taiwan_price.
      change (leb (S754_finite false m e) zero) with false. cbv iota.
      rewrite Hn. cbn [bind]. unfold int_mul_num. rewrite Hfn. reflexivity. }
  rewrite Hok. repeat split; intros; try discriminate. now eexists.
Qed.

(** X1 at NaN. *)
Lemma round_taiwan_price_raises_witness :
  valid S754_nan = true /\ round_taiwan_price S754_nan = Raise ValueError.
Proof.
  split; [reflexivity|].
  apply (proj1 (round_taiwan_price_raises S754_nan eq_refl)). reflexivity.
Defined.

(** X2: whatever [round_taiwan_price] returns is the int 0 or a float
    that is neither negative nor NaN. *)
Theorem round_taiwan_price_nonnegative (price : float) (r : pynum) :
  round_taiwan_price price = Ok r ->
  r = PyInt 0 \/ exists f, r = PyFloat f /\ leb zero f = true.
Proof.
  unfold round_taiwan_price.
  destruct (leb price zero) eqn:E0; [intros H; injection H as <-; now left|].
  intros H. apply ScanFacts.bind_ok in H. destruct H as (n & Hn & H).
  unfold int_mul_num in H. apply ScanFacts.bind_ok in H.
  destruct H as (fn & Hfn & H). injection H as <-.
  right. eexists. split; [reflexivity|].
  set (tick := get_price_tick price) in *.
  assert (Htick : exists m2 e2, tick = S754_finite false m2 e2).
  { pose proof (get_price_tick_cases price) as Hc. fold tick in Hc.
    simpl in Hc.
    repeat (destruct Hc as [<-|Hc]; [now do 2 eexists|]). contradiction. }
  destruct Htick as (m2 & e2 & Ht). rewrite Ht in *.
  assert (Hq : div price (S754_finite false m2 e2) = S754_zero false
               \/ (exists m e, div price (S754_finite false m2 e2)
                               = S754_finite false m e)
               \/ div price (S754_finite false m2 e2) = S754_infinity false).
  { destruct price as [[|]|[|]| |[|] m e];
      try (vm_compute in E0; discriminate E0);
      try (right; right; reflexivity);
      try (cbn in Hn; discriminate Hn).
    apply div_sign. }
  assert (Hn0 : 0 <= n) by exact (round_nonneg _ _ Hq Hn).
  apply non_negative_shape.
  destruct (of_int_sign n fn Hn0 Hfn) as [->|(m & e & ->)].
  - left. reflexivity.
  - unfold mul, SFmul. apply (round_aux_sign (xorb false false)). lia.
Qed.

(** X2 at the price 753.0. *)
Lemma round_taiwan_price_nonnegative_witness :
  exists r, round_taiwan_price (of_decimal false 753 0) = Ok r
            /\ (r = PyInt 0 \/ exists f, r = PyFloat f /\ leb zero f = true).
Proof.
  destruct (round_taiwan_price (of_decimal false 753 0)) as [r|e] eqn:E;
    [|vm_compute in E; discriminate E].
  exists r. split; [reflexivity|].
  exact (round_taiwan_price_nonnegative _ r E).
Defined.

End TickExtras.

(** ** The scan: what the returned lists hold *)

Module ScanExtras.
Import F64 F64Order TaiwanStockService LimitScan ScanVocabulary SortFacts
       ScanFacts TaiwanFeeds.

(** The dict appended by the "up" branch, in full. *)
Lemma classify_up_fields (p : parsed_row) (s : stock) :
  classify p = Ok (AppendUp s) ->
  leb f9_5 (p_change_percent p) = true
  /\ symbol s = (code s ++ ".TW")%string
  /\ turnover_of (volume s) (current_price s) = Ok (turnover s)
  /\ status s = (if is_limit s then StatusLimitUp else StatusNearLimitUp).
Proof.
  unfold classify.
  destruct (leb f9_5 (p_change_percent p)) eqn:Eup.
  - intros H. apply bind_ok in H. destruct H as (t & Ht & H).
    injection H as <-. cbn [symbol code turnover volume current_price
                             status is_limit]. auto.
  - destruct (leb (p_change_percent p) (opp f9_5)); [|discriminate].
    intros H. apply bind_ok in H. destruct H as (t & Ht & H). discriminate.
Qed.

(** The dict appended by the "down" branch, in full. *)
Lemma classify_down_fields (p : parsed_row) (s : stock) :
  classify p = Ok (AppendDown s) ->
  leb (p_change_percent p) (opp f9_5) = true
  /\ symbol s = (code s ++ ".TW")%string
  /\ turnover_of (volume s) (current_price s) = Ok (turnover s)
  /\ status s = (if is_limit s then StatusLimitDown
                 else StatusNearLimitDown).
Proof.
  unfold classify.
  destruct (leb f9_5 (p_change_percent p)) eqn:Eup.
  - intros H. apply bind_ok in H. destruct H as (t & Ht & H). discriminate.
  - destruct (leb (p_change_percent p) (opp f9_5)) eqn:Edown; [|discriminate].
    intros H. apply bind_ok in H. destruct H as (t & Ht & H).
    injection H as <-. cbn [symbol code turnover volume current_price
                             status is_limit]. auto.
Qed.

(** Every result of [get_real_limit_stocks] is a result of the parser
    or the backup data. *)
Lemma real_limit_stocks_cases
      (reply : exc (Z * exc (option (list (list string))))) :
  get_real_limit_stocks reply = _get_backup_limit_data
  \/ exists stocks_data,
       existsb escapes stocks_data = false
       /\ get_real_limit_stocks reply
          = _parse_limit_stocks_data (Some stocks_data).
Proof.
  unfold get_real_limit_stocks.
  destruct reply as [[status_code body]|e]; [|now left].
  destruct (status_code =? 200); [|now left].
  destruct body as [[stocks_data|]|e]; [|now left|now left].
  destruct (existsb escapes stocks_data) eqn:E.
  - left. apply parse_result_backup. exact E.
  - right. now exists stocks_data.
Qed.

(** A returned "up" dict was appended for some row of the reply. *)
Lemma listed_up_origin
      (reply : exc (Z * exc (option (list (list string))))) (s : stock) :
  In s (limit_up (get_real_limit_stocks reply)) ->
  exists stock_row, process_row stock_row = Ok (AppendUp s).
Proof.
  destruct (real_limit_stocks_cases reply) as [->|(rows & E & ->)];
    [intros []|].
  rewrite (parse_result_ok _ E). cbv zeta. cbn [limit_up]. intros H.
  assert (Hin : In s (appended_up rows)).
  { apply (Permutation_in _ (sort_perm change_percent true _)).
    rewrite <- (firstn_skipn 20 (sort _ _ _)). apply in_or_app. now left. }
  unfold appended_up in Hin. apply in_flat_map in Hin.
  destruct Hin as (row & _ & Hin). exists row.
  destruct (process_row row) as [[|s'|s']|e]; simpl in Hin; try tauto.
  destruct Hin as [->|[]]. reflexivity.
Qed.

(** A returned "down" dict was appended for some row of the reply. *)
Lemma listed_down_origin
      (reply : exc (Z * exc (option (list (list string))))) (s : stock) :
  In s (limit_down (get_real_limit_stocks reply)) ->
  exists stock_row, process_row stock_row = Ok (AppendDown s).
Proof.
  destruct (real_limit_stocks_cases reply) as [->|(rows & E & ->)];
    [intros []|].
  rewrite (parse_result_ok _ E). cbv zeta. cbn [limit_down]. intros H.
  assert (Hin : In s (appended_down rows)).
  { apply (Permutation_in _ (sort_perm change_percent false _)).
    rewrite <- (firstn_skipn 20 (sort _ _ _)). apply in_or_app. now left. }
  unfold appended_down in Hin. apply in_flat_map in Hin.
  destruct Hin as (row & _ & Hin). exists row.
  destruct (process_row row) as [[|s'|s']|e]; simpl in Hin; try tauto.
  destruct Hin as [->|[]]. reflexivity.
Qed.

(** X3: every dict that [get_real_limit_stocks] returns in
    ['limit_up'], whatever the reply, has [limit_type] "up", a change
    percent of at least 9.5 that is not NaN, [is_limit] set exactly
    when the change percent is at least 9.9, the status label that
    goes with [is_limit], the symbol [code + ".TW"], a tick-rounded
    price that is not negative, and as turnover the int of volume
    times price. *)
Theorem returned_up_stocks_invariant
        (reply : exc (Z * exc (option (list (list string))))) (s : stock) :
  In s (limit_up (get_real_limit_stocks reply)) ->
  limit_type s = "up"%string
  /\ leb f9_5 (change_percent s) = true
  /\ is_nan (change_percent s) = false
  /\ is_limit s = leb f9_9 (change_percent s)
  /\ status s = (if is_limit s then StatusLimitUp else StatusNearLimitUp)
  /\ symbol s = (code s ++ ".TW")%string
  /\ (exists raw, round_taiwan_price raw = Ok (current_price s))
  /\ turnover_of (volume s) (current_price s) = Ok (turnover s).
Proof.
  intros H. apply listed_up_origin in H. destruct H as (row & Hrow).
  apply process_row_append_inv in Hrow; [|discriminate].
  destruct Hrow as (p & Hp & Hc).
  destruct (classify_up_inv p s Hc) as (Hge & Hpct & Hcur & _ & _ & Hlim & Hty).
  destruct (classify_up_fields p s Hc) as (_ & Hsym & Hturn & Hst).
  destruct (parse_row_inv row p Hp) as (raw & diff & _ & Hraw & _).
  rewrite Hpct, Hcur.
  repeat split; try assumption.
  - exact (leb_not_nan_r _ _ Hge).
  - now exists raw.
  - rewrite <- Hcur. exact Hturn.
Qed.

(** X3 at the reply whose only row is the scenario row. *)
Lemma returned_up_stocks_invariant_witness :
  let r := get_real_limit_stocks (Ok (200, Ok (Some [scenario_row]))) in
  List.length (limit_up r) = 1%nat
  /\ Forall (fun s => limit_type s = "up"%string
                      /\ leb f9_5 (change_percent s) = true) (limit_up r).
Proof.
  split; [vm_compute; reflexivity|].
  apply Forall_forall. intros s Hin.
  destruct (returned_up_stocks_invariant _ s Hin) as (Hty & Hge & _).
  split; [exact Hty|exact Hge].
Defined.

(** X4: every dict that [get_real_limit_stocks] returns in
    ['limit_down'] has [limit_type] "down", a change percent of at most
    -9.5 that is not NaN, [is_limit] set exactly when the change
    percent is at most -9.9, the matching status label, the symbol
    [code + ".TW"], a tick-rounded price, and as turnover the int of
    volume times price. *)
Theorem returned_down_stocks_invariant
        (reply : exc (Z * exc (option (list (list string))))) (s : stock) :
  In s (limit_down (get_real_limit_stocks reply)) ->
  limit_type s = "down"%string
  /\ leb (change_percent s) (opp f9_5) = true
  /\ is_nan (change_percent s) = false
  /\ is_limit s = leb (change_percent s) (opp f9_9)
  /\ status s = (if is_limit s then StatusLimitDown
                 else StatusNearLimitDown)
  /\ symbol s = (code s ++ ".TW")%string
  /\ (exists raw, round_taiwan_price raw = Ok (current_price s))
  /\ turnover_of (volume s) (current_price s) = Ok (turnover s).
Proof.
  intros H. apply listed_down_origin in H. destruct H as (row & Hrow).
  apply process_row_append_inv in Hrow; [|discriminate].
  destruct Hrow as (p & Hp & Hc).
  destruct (classify_down_inv p s Hc)
    as (Hle & Hpct & Hcur & _ & _ & Hlim & Hty).
  destruct (classify_down_fields p s Hc) as (_ & Hsym & Hturn & Hst).
  destruct (parse_row_inv row p Hp) as (raw & diff & _ & Hraw & _).
  rewrite Hpct, Hcur.
  repeat split; try assumption.
  - exact (leb_not_nan_l _ _ Hle).
  - now exists raw.
  - rewrite <- Hcur. exact Hturn.
Qed.

(** X4 at the reply whose only row is the falling row. *)
Lemma returned_down_stocks_invariant_witness :
  let r := get_real_limit_stocks (Ok (200, Ok (Some [falling_row]))) in
  List.length (limit_down r) = 1%nat
  /\ Forall (fun s => limit_type s = "down"%string
                      /\ leb (change_percent s) (opp f9_5) = true)
            (limit_down r).
Proof.
  split; [vm_compute; reflexivity|].
  apply Forall_forall. intros s Hin.
  destruct (returned_down_stocks_invariant _ s Hin) as (Hty & Hle & _).
  split; [exact Hty|exact Hle].
Defined.

(** Each row appends to at most one list. *)
Lemma appended_lengths (stocks_data : list (list string)) :
  (List.length (appended_up stocks_data)
   + List.length (appended_down stocks_data)
   <= List.length stocks_data)%nat.
Proof.
  induction stocks_data as [|row rest IH]; [reflexivity|].
  unfold appended_up, appended_down in *. cbn [flat_map].
  rewrite !length_app.
  destruct (process_row row) as [[|s|s]|e]; cbn [List.length]; lia.
Qed.

(** X5: in every result of [get_real_limit_stocks] the two found-counts
    add up to at most [total_scanned]; a result with the ['error'] key
    is the backup data, with empty lists and all counts zero; and the
    summary of [get_taiwan_market_summary] repeats these lists, their
    lengths and this scan summary. *)
Theorem scan_counts_are_consistent
        (taiex_data otc_data : option index_quote)
        (reply : exc (Z * exc (option (list (list string))))) :
  let r := get_real_limit_stocks reply in
  let m := get_taiwan_market_summary taiex_data otc_data reply in
  (limit_up_found (summary r) + limit_down_found (summary r)
   <= total_scanned (summary r))%nat
  /\ (error r = true -> r = _get_backup_limit_data)
  /\ limit_up_stocks m = limit_up r /\ limit_down_stocks m = limit_down r
  /\ summary_scan m = summary r
  /\ limit_up_count m = Nat.min 20 (limit_up_found (summary r))
  /\ limit_down_count m = Nat.min 20 (limit_down_found (summary r)).
Proof.
  intros r m. subst r m.
  unfold get_taiwan_market_summary, get_limit_stocks.
  cbn [limit_up_stocks limit_down_stocks summary_scan limit_up_count
       limit_down_count].
  destruct (real_limit_stocks_cases reply) as [->|(rows & E & ->)].
  - cbn. repeat split; lia.
  - rewrite (parse_result_ok _ E). cbv zeta.
    cbn [summary limit_up limit_down error limit_up_found limit_down_found
         total_scanned].
    rewrite !length_firstn, !sort_length.
    pose proof (appended_lengths rows).
    repeat split; try lia; discriminate.
Qed.

(** A row of fewer than 12 columns appends nothing and raises nothing. *)
Lemma narrow_row_skipped (stock_row : list string) :
  (List.length stock_row < 12)%nat -> process_row stock_row = Ok NoAppend.
Proof.
  intros Hlen. unfold process_row.
  destruct (List.length stock_row <? 9)%nat eqn:E9; [reflexivity|].
  apply Nat.ltb_ge in E9.
  rewrite (short_row_raises stock_row (conj E9 Hlen)). reflexivity.
Qed.

(** X6: when no row has 12 columns (an empty ['data9'] included) the
    result is a regular one, without the ['error'] key: both lists
    empty, both found-counts zero, and [total_scanned] the number of
    rows. *)
Theorem narrow_rows_list_nothing (stocks_data : list (list string)) :
  Forall (fun stock_row => (List.length stock_row < 12)%nat) stocks_data ->
  _parse_limit_stocks_data (Some stocks_data)
  = {| limit_up := []; limit_down := []; error := false;
       summary := {| total_scanned := List.length stocks_data;
                     limit_up_found := 0; limit_down_found := 0 |} |}.
Proof.
  intros Hrows.
  assert (Hskip : Forall (fun row => process_row row = Ok NoAppend)
                         stocks_data).
  { eapply Forall_impl; [|exact Hrows]. exact narrow_row_skipped. }
  assert (Hesc : existsb escapes stocks_data = false).
  { clear Hrows. induction Hskip as [|row rest Hrow _ IH]; [reflexivity|].
    cbn [existsb]. unfold escapes at 1. rewrite Hrow. exact IH. }
  assert (Hup : appended_up stocks_data = []).
  { clear Hrows Hesc. induction Hskip as [|row rest Hrow _ IH];
      [reflexivity|].
    unfold appended_up in *. cbn [flat_map]. rewrite Hrow, IH. reflexivity. }
  assert (Hdown : appended_down stocks_data = []).
  { clear Hrows Hesc Hup. induction Hskip as [|row rest Hrow _ IH];
      [reflexivity|].
    unfold appended_down in *. cbn [flat_map]. rewrite Hrow, IH.
    reflexivity. }
  rewrite (parse_result_ok _ Hesc), Hup, Hdown. reflexivity.
Qed.

(** X6 at three rows of 0, 8 and 11 columns. *)
Lemma narrow_rows_list_nothing_witness :
  let stocks_data := [[]; repeat "1"%string 8; repeat "1"%string 11] in
  Forall (fun stock_row => (List.length stock_row < 12)%nat) stocks_data
  /\ total_scanned (summary (_parse_limit_stocks_data (Some stocks_data)))
     = 3%nat
  /\ error (_parse_limit_stocks_data (Some stocks_data)) = false.
Proof.
  assert (H : Forall (fun stock_row => (List.length stock_row < 12)%nat)
                     [[]; repeat "1"%string 8; repeat "1"%string 11])
    by (repeat constructor).
  split; [exact H|].
  rewrite (narrow_rows_list_nothing _ H). split; reflexivity.
Defined.

(** Rows that read the same run the loop body the same way. *)
Lemma reads_same_process_row (row row' : list string) :
  ScanColumns.reads_same row row' -> process_row row = process_row row'.
Proof.
  intros [[H H']|(H & H' & Hcols)].
  - now rewrite !narrow_row_skipped.
  - unfold process_row.
    replace (List.length row <? 9)%nat with false
      by (symmetry; apply Nat.ltb_ge; lia).
    replace (List.length row' <? 9)%nat with false
      by (symmetry; apply Nat.ltb_ge; lia).
    unfold row_body, parse_row, parse_fields, index.
    repeat match goal with
           | Hc : Forall _ (_ :: _) |- _ =>
               let E := fresh "E" in
               apply Forall_cons_iff in Hc; destruct Hc as [E Hc];
               rewrite E
           end.
    reflexivity.
Qed.

(** X7: the parser reads a row through its length and its columns 0,
    1, 2, 8, 10 and 11 only: replacing every row by one that has the
    same strings in these columns (both of at least 12 columns), or
    one row of fewer than 12 columns by another, leaves the whole
    result unchanged. *)
Theorem result_depends_on_six_columns
        (stocks_data stocks_data' : list (list string)) :
  Forall2 ScanColumns.reads_same stocks_data stocks_data' ->
  _parse_limit_stocks_data (Some stocks_data)
  = _parse_limit_stocks_data (Some stocks_data').
Proof.
  intros H. unfold _parse_limit_stocks_data.
  rewrite (Forall2_length H).
  assert (Hscan : forall ups downs,
             scan_rows stocks_data ups downs
             = scan_rows stocks_data' ups downs).
  { induction H as [|row row' rest rest' Hrow _ IH]; intros ups downs;
      [reflexivity|].
    cbn [scan_rows]. rewrite (reads_same_process_row _ _ Hrow).
    destruct (process_row row') as [[|s|s]|e]; cbn [bind];
      [apply IH|apply IH|apply IH|reflexivity]. }
  rewrite Hscan. reflexivity.
Qed.

(** X7 at the scenario row and its 16-column rendering. *)
Lemma result_depends_on_six_columns_witness :
  Forall2 ScanColumns.reads_same
          [scenario_row; []] [ScanColumns.scenario_row_wide; [""%string]]
  /\ _parse_limit_stocks_data (Some [scenario_row; []])
     = _parse_limit_stocks_data
         (Some [ScanColumns.scenario_row_wide; [""%string]]).
Proof.
  assert (H : Forall2 ScanColumns.reads_same
                      [scenario_row; []]
                      [ScanColumns.scenario_row_wide; [""%string]]).
  { constructor; [|constructor; [|constructor]].
    - right. split; [simpl; lia|]. split; [simpl; lia|].
      repeat constructor.
    - left. split; simpl; lia. }
  split; [exact H|].
  exact (result_depends_on_six_columns _ _ H).
Defined.

(** X8: one row whose fields parse and whose price parses to
    +infinity (the text "inf", "Infinity", "1e999", ...) makes
    [round_taiwan_price] raise OverflowError, which the loop does not
    catch: the result is the backup data, with empty lists and the
    ['error'] key, whatever the other rows hold. *)
Theorem infinite_price_discards_scan
        (stocks_data : list (list string)) (stock_row : list string)
        (stock_code stock_name : string) (change_percent change : float)
        (volume : Z) :
  In stock_row stocks_data ->
  parse_fields stock_row
  = Ok (Some (stock_code, stock_name, S754_infinity false,
              change_percent, change, volume)) ->
  process_row stock_row = Raise OverflowError
  /\ _parse_limit_stocks_data (Some stocks_data) = _get_backup_limit_data.
Proof.
  intros Hin Hf.
  assert (Hrow : process_row stock_row = Raise OverflowError).
  { unfold process_row.
    pose proof (parse_fields_length _ _ Hf) as Hlen.
    replace (List.length stock_row <? 9)%nat with false
      by (symmetry; apply Nat.ltb_ge; lia).
    unfold row_body, parse_row. rewrite Hf. reflexivity. }
  split; [exact Hrow|].
  apply parse_result_backup. apply existsb_exists.
  exists stock_row. split; [exact Hin|].
  unfold escapes. rewrite Hrow. reflexivity.
Qed.

(** X8 at a scan of the scenario row, a row with price "inf" and the
    falling row. *)
Lemma infinite_price_discards_scan_witness :
  let stocks_data :=
    [scenario_row; ScanColumns.infinite_price_row; falling_row] in
  In ScanColumns.infinite_price_row stocks_data
  /\ _parse_limit_stocks_data (Some stocks_data) = _get_backup_limit_data
  /\ error (_parse_limit_stocks_data (Some [scenario_row; falling_row]))
     = false.
Proof.
  assert (Hin : In ScanColumns.infinite_price_row
                   [scenario_row; ScanColumns.infinite_price_row;
                    falling_row])
    by (right; left; reflexivity).
  split; [exact Hin|]. split; [|vm_compute; reflexivity].
  refine (proj2 (infinite_price_discards_scan
                   _ _ "4567" "" (of_decimal false 99 (-1))
                   (of_decimal false 10 0) 1000 Hin _)).
  vm_compute. reflexivity.
Defined.

End ScanExtras.

(** ** Clock times *)

Module ClockExtras.
Import Random TaiwanFeeds StockDataService ClockVocabulary.

(** [randint] on a non-empty range returns a value of the range. *)
Lemma randint_range (a b u : Z) :
  a <= b -> exists x, randint a b u = Ok x /\ a <= x <= b.
Proof.
  intros Hab. unfold randint.
  replace (b <? a) with false by (symmetry; apply Z.ltb_ge; exact Hab).
  eexists. split; [reflexivity|].
  pose proof (Z.mod_pos_bound u (b - a + 1)). lia.
Qed.

(** [choice] among the five session hours. *)
Lemma choice_hours (u : Z) :
  exists x, choice [9; 10; 11; 12; 13] u = Ok x /\ 9 <= x <= 13.
Proof.
  unfold choice. eexists. split; [reflexivity|].
  change (Z.of_nat (List.length [9; 10; 11; 12; 13])) with 5.
  pose proof (Z.mod_pos_bound u 5 eq_refl) as Hk.
  set (k := u mod 5) in *.
  assert (Hc : k = 0 \/ k = 1 \/ k = 2 \/ k = 3 \/ k = 4) by lia.
  destruct Hc as [->|[->|[->|[->| ->]]]];
    (split; [apply Z.leb_le|apply Z.leb_le]; reflexivity).
Qed.

(** Membership in [below]. *)
Lemma below_spec (n : nat) (z : Z) :
  0 <= z < Z.of_nat n -> In z (below n).
Proof.
  intros Hz. unfold below. apply in_map_iff. exists (Z.to_nat z).
  split; [lia|]. apply in_seq. lia.
Qed.

(** Two-digit rendering is injective below 100. *)
Lemma format_02d_injective (n n' : Z) :
  0 <= n < 100 -> 0 <= n' < 100 ->
  format_02d n = format_02d n' -> n = n'.
Proof.
  intros Hn Hn' H.
  assert (Hall : forallb (fun a =>
                   forallb (fun b =>
                     implb (String.eqb (format_02d a) (format_02d b))
                           (a =? b)) (below 100)) (below 100) = true)
    by (vm_compute; reflexivity).
  rewrite forallb_forall in Hall.
  specialize (Hall n (below_spec 100 n Hn)).
  rewrite forallb_forall in Hall.
  specialize (Hall n' (below_spec 100 n' Hn')).
  rewrite H, String.eqb_refl in Hall. cbn [implb] in Hall.
  apply Z.eqb_eq. exact Hall.
Qed.

(** Two-digit rendering has width two below 100. *)
Lemma format_02d_length (n : Z) :
  0 <= n < 100 -> String.length (format_02d n) = 2%nat.
Proof.
  intros Hn.
  assert (Hall : forallb (fun a =>
                   Nat.eqb (String.length (format_02d a)) 2) (below 100)
                 = true)
    by (vm_compute; reflexivity).
  rewrite forallb_forall in Hall.
  apply Nat.eqb_eq. apply Hall. apply below_spec. exact Hn.
Qed.

(** Strings of the same length in front of equal rests are equal. *)
Lemma append_same_length (a a' b b' : string) :
  String.length a = String.length a' ->
  (a ++ b)%string = (a' ++ b')%string -> a = a' /\ b = b'.
Proof.
  revert a'. induction a as [|c a IH]; intros [|c' a'] Hlen H;
    try discriminate.
  - now split.
  - simpl in H. injection H as -> H. simpl in Hlen. injection Hlen as Hlen.
    destruct (IH a' Hlen H) as [-> ->]. now split.
Qed.

(** The clock text determines hour and minute. *)
Lemma format_clock_injective (h m h' m' : Z) :
  0 <= h < 100 -> 0 <= m < 100 -> 0 <= h' < 100 -> 0 <= m' < 100 ->
  format_clock h m = format_clock h' m' -> h = h' /\ m = m'.
Proof.
  intros Hh Hm Hh' Hm' H. unfold format_clock in H.
  apply append_same_length in H;
    [|now rewrite !format_02d_length].
  destruct H as [H1 H2]. simpl in H2. injection H2 as H2.
  split; apply format_02d_injective; assumption.
Qed.

(** X9: for every well-formed [now] and every pair of random draws,
    [_estimate_limit_time] raises nothing and returns the text
    "HH:MM" of one clock time between 09:00 and 13:30, a time at which
    [_get_market_status] reports the market open on any weekday; when
    [now] is in the hours 9 to 13 that time is not later than [now]. *)
Theorem estimate_limit_time_in_session (now : datetime) (u1 u2 : Z) :
  well_formed now ->
  exists h m,
    _estimate_limit_time now u1 u2 = Ok (format_clock h m)
    /\ 9 * 60 <= h * 60 + m <= 13 * 60 + 30
    /\ 9 <= h <= 13 /\ 0 <= m <= 59
    /\ (forall h' m', 0 <= h' < 100 -> 0 <= m' < 100 ->
          format_clock h' m' = format_clock h m -> h' = h /\ m' = m)
    /\ (forall day, weekday day < 5 ->
          _get_market_status (at_time day h m) = true)
    /\ (9 <= hour now <= 13 ->
          h * 60 + m <= hour now * 60 + minute now).
Proof.
  intros (_ & Hh & Hm & _).
  assert (Hgoal : exists h m,
             _estimate_limit_time now u1 u2 = Ok (format_clock h m)
             /\ 9 <= h <= 13 /\ 0 <= m <= 59 /\ (h = 13 -> m <= 30)
             /\ (9 <= hour now <= 13 ->
                 h * 60 + m <= hour now * 60 + minute now)).
  { unfold _estimate_limit_time.
    destruct ((9 <=? hour now) && (hour now <=? 13)) eqn:Esession.
    - apply andb_true_iff in Esession. destruct Esession as [E9 E13].
      apply Z.leb_le in E9, E13.
      destruct ((hour now =? 13) && (30 <? minute now)) eqn:Eafter.
      + apply andb_true_iff in Eafter. destruct Eafter as [Ea Eb].
        apply Z.eqb_eq in Ea. apply Z.ltb_lt in Eb.
        exists 13, 30. split; [reflexivity|]. lia.
      + cbv zeta. rewrite (Z.min_l (hour now) 13 E13), Z.eqb_refl.
        destruct (randint_range 9 (hour now) u1 E9) as (h & -> & Hrange).
        cbn [bind].
        destruct (Z.eqb_spec h (hour now)) as [->|Hne].
        * destruct (randint_range 0 (minute now) u2 (proj1 Hm))
            as (m & -> & Hmr).
          cbn [bind]. exists (hour now), m. split; [reflexivity|].
          apply andb_false_iff in Eafter.
          destruct Eafter as [Ea|Eb];
            [apply Z.eqb_neq in Ea|apply Z.ltb_ge in Eb]; lia.
        * destruct (Z.eqb_spec h 13) as [->|Hne13]; [lia|].
          destruct (randint_range 0 59 u2 ltac:(lia)) as (m & -> & Hmr).
          cbn [bind]. exists h, m. split; [reflexivity|]. lia.
    - apply andb_false_iff in Esession.
      destruct (choice_hours u1) as (h & -> & Hrange). cbn [bind].
      destruct (Z.eqb_spec h 13) as [->|Hne13].
      + destruct (randint_range 0 30 u2 ltac:(lia)) as (m & -> & Hmr).
        cbn [bind]. exists 13, m. split; [reflexivity|].
        destruct Esession as [E|E];
          [apply Z.leb_gt in E|apply Z.leb_gt in E]; lia.
      + destruct (randint_range 0 59 u2 ltac:(lia)) as (m & -> & Hmr).
        cbn [bind]. exists h, m. split; [reflexivity|].
        destruct Esession as [E|E];
          [apply Z.leb_gt in E|apply Z.leb_gt in E]; lia. }
  destruct Hgoal as (h & m & Hres & Hhr & Hmr & H13 & Hnow).
  exists h, m. split; [exact Hres|].
  split; [lia|]. split; [exact Hhr|]. split; [exact Hmr|].
  split; [|split; [|exact Hnow]].
  - intros h' m' Hh' Hm' Heq.
    apply format_clock_injective; try assumption; lia.
  - intros day Hday. unfold _get_market_status.
    replace (weekday (at_time day h m)) with (weekday day) by reflexivity.
    replace (5 <=? weekday day) with false
      by (symmetry; apply Z.leb_gt; exact Hday).
    cbn [at_time hour minute].
    destruct (Z.eqb_spec h 9); destruct (Z.leb_spec 0 m);
      destruct (Z.leb_spec 10 h); destruct (Z.leb_spec h 12);
      destruct (Z.eqb_spec h 13); destruct (Z.leb_spec m 30);
      try reflexivity; lia.
Qed.

(** X9 at Wednesday 11:20 with the draws 7 and 45. *)
Lemma estimate_limit_time_in_session_witness :
  well_formed wednesday_morning
  /\ exists h m,
       _estimate_limit_time wednesday_morning 7 45 = Ok (format_clock h m)
       /\ h * 60 + m <= 11 * 60 + 20.
Proof.
  assert (Hwf : well_formed wednesday_morning)
    by (unfold well_formed, max_ordinal; simpl; lia).
  split; [exact Hwf|].
  destruct (estimate_limit_time_in_session wednesday_morning 7 45 Hwf)
    as (h & m & Hres & _ & _ & _ & _ & _ & Hnow).
  exists h, m. split; [exact Hres|].
  apply Hnow. simpl. lia.
Defined.

End ClockExtras.

(** ** [get_market_status] on every day of the week *)

Module StatusExtras.
Import StockDataService ClockVocabulary.

(** The shape of the result, case by case. *)
Lemma market_status_cases (now : datetime) :
  well_formed now ->
  (weekday now < 5 /\ hour now < 13
   /\ get_market_status now
      = StatusDict {| is_open := false;
                      next_open := Some (at_time now 13 30);
                      next_close := None; trading_day := true |})
  \/ (weekday now < 5 /\ 13 <= hour now < 21
      /\ get_market_status now
         = StatusDict {| is_open := true; next_open := None;
                         next_close := Some (at_time now 21 0);
                         trading_day := true |})
  \/ (weekday now < 5 /\ 21 <= hour now /\ ordinal now = max_ordinal
      /\ get_market_status now = ErrorDict)
  \/ (weekday now < 5 /\ 21 <= hour now /\ ordinal now < max_ordinal
      /\ exists next,
           get_market_status now
           = StatusDict {| is_open := false;
                           next_open := Some (at_time next 13 30);
                           next_close := None; trading_day := true |}
           /\ ordinal next
              = ordinal now + (if weekday now =? 4 then 3 else 1))
  \/ (5 <= weekday now
      /\ exists next,
           get_market_status now
           = StatusDict {| is_open := false;
                           next_open := Some (at_time next 13 30);
                           next_close := None; trading_day := false |}
           /\ ordinal next = ordinal now + (7 - weekday now)).
Proof.
  intros (Hord & Hh & _). unfold get_market_status, market_status_body.
  destruct (Z.ltb_spec (weekday now) 5) as [Hwd|Hwd].
  - destruct (Z.ltb_spec (hour now) 13) as [H13|H13].
    + left. repeat split; try assumption.
      replace ((13 <=? hour now) && (hour now <? 21)) with false
        by (symmetry; apply andb_false_iff; left; apply Z.leb_gt; exact H13).
      reflexivity.
    + destruct (Z.leb_spec 21 (hour now)) as [H21|H21].
      * right. right.
        replace ((13 <=? hour now) && (hour now <? 21)) with false
          by (symmetry; apply andb_false_iff; right; apply Z.ltb_ge;
              exact H21).
        destruct (add_days now 1) as [next_day|e] eqn:End;
          unfold add_days in End;
          destruct (Z.eq_dec (ordinal now) max_ordinal) as [Emax|Emax].
        -- exfalso. rewrite Emax in End. discriminate End.
        -- right. left. repeat split; try assumption; [lia|].
           replace ((1 <=? ordinal now + 1)
                    && (ordinal now + 1 <=? max_ordinal)) with true in End
             by (symmetry; apply andb_true_iff; split; apply Z.leb_le; lia).
           injection End as <-.
           cbv [bind]. unfold weekday at 1. cbn [ordinal].
           unfold weekday in Hwd.
           destruct (Z.ltb_spec ((ordinal now + 1 + 6) mod 7) 5) as [Hn|Hn].
           ++ eexists. split; [reflexivity|]. cbn [ordinal].
              unfold weekday.
              destruct (Z.eqb_spec ((ordinal now + 6) mod 7) 4);
                [exfalso; Z.div_mod_to_equations; lia|reflexivity].
           ++ unfold add_days, weekday. cbn [ordinal hour minute second
                                              microsecond].
              unfold max_ordinal in *.
              replace ((1 <=? ordinal now + 1
                               + (7 - (ordinal now + 1 + 6) mod 7))
                       && (ordinal now + 1
                           + (7 - (ordinal now + 1 + 6) mod 7)
                           <=? 3652059)) with true
                by (symmetry; apply andb_true_iff; split; apply Z.leb_le;
                    Z.div_mod_to_equations; lia).
              eexists. split; [reflexivity|]. cbn [ordinal].
              destruct (Z.eqb_spec ((ordinal now + 6) mod 7) 4);
                Z.div_mod_to_equations; lia.
        -- left. repeat split; try assumption. 
        -- exfalso.
           replace ((1 <=? ordinal now + 1)
                    && (ordinal now + 1 <=? max_ordinal)) with true in End
             by (symmetry; apply andb_true_iff; split; apply Z.leb_le; lia).
           discriminate End.
      * right. left. repeat split; try assumption.
        replace ((13 <=? hour now) && (hour now <? 21)) with true
          by (symmetry; apply andb_true_iff; split;
              [apply Z.leb_le|apply Z.ltb_lt]; assumption).
        reflexivity.
  - do 4 right. split; [exact Hwd|].
    unfold add_days, weekday in *. unfold max_ordinal in *.
    replace ((1 <=? ordinal now + (7 - (ordinal now + 6) mod 7))
             && (ordinal now + (7 - (ordinal now + 6) mod 7)
                 <=? 3652059)) with true
      by (symmetry; apply andb_true_iff; split; apply Z.leb_le;
          Z.div_mod_to_equations; lia).
    eexists. split; reflexivity.
Qed.

(** X10: whenever [get_market_status] names a ['next_open'], on a
    well-formed [now], it is the first 13:30:00 of a weekday that lies
    strictly after [now]: same day before 13:00, a later day
    otherwise, no weekday's 13:30 skipped. *)
Theorem next_open_is_first_weekday_session
        (now : datetime) (s : market_status) (next : datetime) :
  well_formed now ->
  get_market_status now = StatusDict s -> next_open s = Some next ->
  hour next = 13 /\ minute next = 30
  /\ second next = 0 /\ microsecond next = 0
  /\ weekday next < 5
  /\ before_open_of now (ordinal next)
  /\ (forall d, (d + 6) mod 7 < 5 -> before_open_of now d ->
        ordinal next <= d).
Proof.
  intros Hwf Hs Hn. pose proof Hwf as (Hord & Hh & Hm & _).
  unfold before_open_of.
  destruct (market_status_cases now Hwf)
    as [(Hwd & H13 & E)|[(Hwd & H13 & E)|[(Hwd & H21 & Emax & E)
        |[(Hwd & H21 & Emax & nx & E & Enx)|(Hwd & nx & E & Enx)]]]];
    rewrite E in Hs; try discriminate Hs; injection Hs as <-;
    cbn [next_open] in Hn; try discriminate Hn; injection Hn as <-;
    cbn [at_time hour minute second microsecond ordinal];
    unfold weekday in *; cbn [at_time ordinal].
  - repeat split; try lia;
      try (intros d Hd [Hlt|[Heq Hlt]]; lia).
  - rewrite Enx.
    destruct (Z.eqb_spec ((ordinal now + 6) mod 7) 4) as [E4|E4];
      repeat split; try lia;
      try (intros d Hd [Hlt|[Heq Hlt]]); Z.div_mod_to_equations; lia.
  - rewrite Enx. repeat split; try lia;
      try (intros d Hd [Hlt|[Heq Hlt]]); Z.div_mod_to_equations; lia.
Qed.

(** X10 at Friday 22:15: the next open is Monday 13:30. *)
Lemma next_open_is_first_weekday_session_witness :
  well_formed friday_night
  /\ exists s next,
       get_market_status friday_night = StatusDict s
       /\ next_open s = Some next
       /\ ordinal next = 738893 /\ hour next = 13 /\ minute next = 30
       /\ weekday next < 5.
Proof.
  assert (Hwf : well_formed friday_night)
    by (unfold well_formed, max_ordinal; simpl; lia).
  split; [exact Hwf|].
  destruct (get_market_status friday_night) as [s|] eqn:E;
    [|vm_compute in E; discriminate E].
  destruct (next_open s) as [next|] eqn:En;
    [|vm_compute in E; injection E as <-; discriminate En].
  exists s, next. split; [reflexivity|]. split; [exact En|].
  destruct (next_open_is_first_weekday_session friday_night s next Hwf E En)
    as (Hh & Hm & _ & _ & Hwd & _).
  split; [|split; [exact Hh|split; [exact Hm|exact Hwd]]].
  vm_compute in E. injection E as <-. cbn in En. injection En as <-.
  reflexivity.
Defined.

(** X11: on a well-formed [now], [get_market_status] returns the error
    dict exactly on the last day of the calendar from 21:00 on (the
    next day does not exist); in every status dict ['is_open'] is true
    exactly when ['next_open'] is None and exactly when ['next_close']
    is set, ['next_close'] is then 21:00:00 of the same day, and
    ['trading_day'] tells whether [now] is a weekday. *)
Theorem market_status_fields_agree (now : datetime) :
  well_formed now ->
  (get_market_status now = ErrorDict
   <-> ordinal now = max_ordinal /\ 21 <= hour now)
  /\ (forall s, get_market_status now = StatusDict s ->
        (is_open s = true <-> next_open s = None)
        /\ next_close s
           = (if is_open s then Some (at_time now 21 0) else None)
        /\ trading_day s = (weekday now <? 5)
        /\ is_open s = (weekday now <? 5)
                       && (13 <=? hour now) && (hour now <? 21)).
Proof.
  intros Hwf.
  assert (Hlast : ordinal now = max_ordinal -> weekday now = 4).
  { intros H. unfold weekday. rewrite H. reflexivity. }
  destruct (market_status_cases now Hwf)
    as [(Hwd & H13 & E)|[(Hwd & H13 & E)|[(Hwd & H21 & Emax & E)
        |[(Hwd & H21 & Emax & nx & E & Enx)|(Hwd & nx & E & Enx)]]]];
    rewrite E; split;
    try (split; [intros H; discriminate H|intros [Ho Hh]]);
    try (intros s Hs; first [discriminate Hs|injection Hs as <-];
         cbn [is_open next_open next_close trading_day];
         destruct (Z.ltb_spec (weekday now) 5);
         destruct (Z.leb_spec 13 (hour now));
         destruct (Z.ltb_spec (hour now) 21); try lia;
         cbn [andb]; repeat split; intros;
         first [reflexivity|discriminate]).
  - lia.
  - lia.
  - split; [intros _; split; assumption|reflexivity].
  - lia.
  - specialize (Hlast Ho). lia.
Qed.

(** X11 at the last evening of the calendar. *)
Lemma market_status_fields_agree_witness :
  well_formed last_evening /\ get_market_status last_evening = ErrorDict.
Proof.
  assert (Hwf : well_formed last_evening)
    by (unfold well_formed, last_evening, max_ordinal; simpl; lia).
  split; [exact Hwf|].
  apply (proj2 (proj1 (market_status_fields_agree last_evening Hwf))).
  split; [reflexivity|]. unfold last_evening. simpl. lia.
Defined.

(** X12: read off the same clock, the two services report their
    markets open together exactly on a weekday from 13:00 up to and
    including the minute 13:30: the Taiwan classifier is open from
    9:00 through 13:30 and [get_market_status] from the hour 13 on. *)
Theorem both_markets_open_window (now : datetime) :
  well_formed now ->
  _get_market_status now && result_is_open (get_market_status now)
  = (weekday now <? 5) && (hour now =? 13) && (minute now <=? 30).
Proof.
  intros Hwf. pose proof Hwf as (_ & Hh & Hm & _).
  destruct (Z.ltb_spec (weekday now) 5) as [Hwd|Hwd].
  - rewrite (SessionFacts.taiwan_open_by_minute now Hwf Hwd),
            (SessionFacts.weekday_is_open_by_hour now Hwd).
    destruct (Z.leb_spec (9 * 60) (hour now * 60 + minute now));
      destruct (Z.leb_spec (hour now * 60 + minute now) (13 * 60 + 30));
      destruct (Z.leb_spec 13 (hour now));
      destruct (Z.ltb_spec (hour now) 21);
      destruct (Z.eqb_spec (hour now) 13);
      destruct (Z.leb_spec (minute now) 30);
      try reflexivity; lia.
  - unfold _get_market_status.
    replace (5 <=? weekday now) with true
      by (symmetry; apply Z.leb_le; exact Hwd).
    reflexivity.
Qed.

(** X12 at Monday 13:10. *)
Lemma both_markets_open_window_witness :
  well_formed (SessionVocabulary.monday_at 13 10)
  /\ _get_market_status (SessionVocabulary.monday_at 13 10)
     && result_is_open (get_market_status (SessionVocabulary.monday_at 13 10))
     = true.
Proof.
  assert (Hwf : well_formed (SessionVocabulary.monday_at 13 10))
    by (unfold well_formed, SessionVocabulary.monday_at, max_ordinal;
        simpl; lia).
  split; [exact Hwf|].
  rewrite (both_markets_open_window _ Hwf). reflexivity.
Defined.

End StatusExtras.

(** ** Price history *)

Module HistoryExtras.
Import F64 F64Order Builtins StockQuotes QuoteVocabulary.

(** [<] holds between ordered values only. *)
Lemma ltb_not_nan (x y : float) :
  ltb x y = true -> is_nan x = false /\ is_nan y = false.
Proof.
  intros H. apply ltb_leb in H.
  split; [exact (leb_not_nan_l _ _ H)|exact (leb_not_nan_r _ _ H)].
Qed.

(** What the validity test of a data point says about its prices. *)
Lemma consistent_inv (p : data_point) :
  consistent p = true ->
  leb (dp_low p) (dp_open p) = true
  /\ leb (dp_open p) (dp_high p) = true
  /\ (is_nan (dp_close p) = true
      \/ (leb (dp_low p) (dp_close p) = true
          /\ leb (dp_close p) (dp_high p) = true)).
Proof.
  unfold consistent, py_max, py_min. intros H.
  apply andb_true_iff in H. destruct H as [H Hmin].
  apply andb_true_iff in H. destruct H as [Hlh Hmax].
  destruct (ltb (dp_open p) (dp_close p)) eqn:Eoc.
  - rewrite (leb_ltb_false _ _ (ltb_leb _ _ Eoc)) in Hmin.
    pose proof (ltb_leb _ _ Eoc) as Hoc.
    split; [exact Hmin|]. split; [exact (leb_trans _ _ _ Hoc Hmax)|].
    right. split; [exact (leb_trans _ _ _ Hmin Hoc)|exact Hmax].
  - destruct (ltb (dp_close p) (dp_open p)) eqn:Eco.
    + pose proof (ltb_leb _ _ Eco) as Hco.
      split; [exact (leb_trans _ _ _ Hmin Hco)|]. split; [exact Hmax|].
      right. split; [exact Hmin|exact (leb_trans _ _ _ Hco Hmax)].
    + split; [exact Hmin|]. split; [exact Hmax|].
      destruct (is_nan (dp_close p)) eqn:Enan; [now left|right].
      pose proof (leb_not_nan_l _ _ Hmax) as Ho.
      pose proof (not_ltb_leb _ _ Ho Enan Eoc) as Hco.
      pose proof (not_ltb_leb _ _ Enan Ho Eco) as Hoc.
      split; [exact (leb_trans _ _ _ Hmin Hoc)
             |exact (leb_trans _ _ _ Hco Hmax)].
Qed.

(** The loop appends only consistent points made from its rows. *)
Lemma chart_rows_inv (rows : list bar) (chart_data out : list data_point) :
  chart_rows rows chart_data = Ok out ->
  forall p, In p out ->
    In p chart_data
    \/ exists row, In row rows /\ point_of row = Ok p
                   /\ consistent p = true.
Proof.
  revert chart_data. induction rows as [|row rest IH]; intros acc H p Hp.
  - injection H as <-. now left.
  - cbn [chart_rows] in H.
    destruct (point_of row) as [dp|[| |]] eqn:Ept; try discriminate H.
    + destruct (consistent dp) eqn:Ec.
      * destruct (IH _ H p Hp) as [Hacc|(r & Hr & Hpt & Hcp)].
        -- apply in_app_or in Hacc. destruct Hacc as [Hacc|[<-|[]]].
           ++ now left.
           ++ right. exists row. split; [now left|]. now split.
        -- right. exists r. split; [now right|]. now split.
      * destruct (IH _ H p Hp) as [Hacc|(r & Hr & Hpt & Hcp)];
          [now left|].
        right. exists r. split; [now right|]. now split.
    + destruct (IH _ H p Hp) as [Hacc|(r & Hr & Hpt & Hcp)];
        [now left|].
      right. exists r. split; [now right|]. now split.
Qed.

(** X13: every data point that [get_historical_data] returns comes
    from a row of the frame, with its prices rounded to two places,
    and has open, high and low that are not NaN with
    low <= open <= high; its close is within [low, high] or is NaN: a
    row without a close passes the validity test, because [max] and
    [min] return their first argument when the second is NaN. *)
Theorem returned_points_are_consistent
        (hist : exc (list bar)) (p : data_point) :
  In p (get_historical_data hist) ->
  (exists rows row,
     hist = Ok rows /\ In row rows
     /\ dp_time p = bar_time row
     /\ dp_open p = round2 (bar_open row)
     /\ dp_high p = round2 (bar_high row)
     /\ dp_low p = round2 (bar_low row)
     /\ dp_close p = round2 (bar_close row))
  /\ is_nan (dp_open p) = false /\ is_nan (dp_high p) = false
  /\ is_nan (dp_low p) = false
  /\ leb (dp_low p) (dp_open p) = true
  /\ leb (dp_open p) (dp_high p) = true
  /\ (is_nan (dp_close p) = true
      \/ (leb (dp_low p) (dp_close p) = true
          /\ leb (dp_close p) (dp_high p) = true)).
Proof.
  unfold get_historical_data.
  destruct hist as [rows|e]; [|intros []].
  destruct rows as [|row0 rest]; [intros []|].
  destruct (chart_rows (row0 :: rest) []) as [out|e] eqn:E; [|intros []].
  intros Hp.
  destruct (chart_rows_inv _ _ _ E p Hp) as [[]|(row & Hrow & Hpt & Hc)].
  destruct (consistent_inv p Hc) as (Hlo & Hoh & Hclose).
  split.
  - exists (row0 :: rest), row. split; [reflexivity|]. split; [exact Hrow|].
    unfold point_of in Hpt.
    destruct (if is_nan (bar_volume row) then Ok 0
              else trunc (bar_volume row)) as [v|e]; [|discriminate Hpt].
    cbn [bind] in Hpt. injection Hpt as <-. repeat split.
  - split; [exact (leb_not_nan_l _ _ Hoh)|].
    split; [exact (leb_not_nan_r _ _ Hoh)|].
    split; [exact (leb_not_nan_l _ _ Hlo)|].
    split; [exact Hlo|]. split; [exact Hoh|exact Hclose].
Qed.

(** X13 at a frame of a bar without close and a regular bar: both are
    returned, the first with a NaN close. *)
Lemma returned_points_are_consistent_witness :
  let out := get_historical_data (Ok [bar_without_close; regular_bar]) in
  List.length out = 2%nat
  /\ existsb (fun p => is_nan (dp_close p)) out = true
  /\ Forall (fun p => leb (dp_low p) (dp_open p) = true
                      /\ leb (dp_open p) (dp_high p) = true) out.
Proof.
  split; [vm_compute; reflexivity|]. split; [vm_compute; reflexivity|].
  apply Forall_forall. intros p Hp.
  destruct (returned_points_are_consistent _ p Hp)
    as (_ & _ & _ & _ & Hlo & Hoh & _).
  split; [exact Hlo|exact Hoh].
Defined.

(** A row of infinite volume stops the loop with an exception that the
    inner handler does not catch. *)
Lemma chart_rows_infinite_volume
      (rows : list bar) (chart_data : list data_point) (row : bar)
      (sign : bool) :
  In row rows -> bar_volume row = S754_infinity sign ->
  chart_rows rows chart_data = Raise OverflowError.
Proof.
  intros Hin Hvol. revert chart_data.
  induction rows as [|r rest IH]; intros acc; [destruct Hin|].
  cbn [chart_rows].
  destruct (point_of r) as [dp|[| |]] eqn:Ept.
  - destruct Hin as [->|Hin].
    + unfold point_of in Ept. rewrite Hvol in Ept. discriminate Ept.
    + destruct (consistent dp); apply IH; exact Hin.
  - destruct Hin as [->|Hin]; [|apply IH; exact Hin].
    unfold point_of in Ept. rewrite Hvol in Ept. discriminate Ept.
  - unfold point_of in Ept.
    destruct (is_nan (bar_volume r)); [discriminate Ept|].
    destruct (bar_volume r); discriminate Ept.
  - reflexivity.
Qed.

(** X14: one row whose volume is infinite empties the whole history:
    [int] raises OverflowError, which the loop's handler for ValueError
    and TypeError lets through to the outer handler; a NaN volume, in
    contrast, is stored as 0. *)
Theorem infinite_volume_empties_history
        (rows : list bar) (row : bar) (sign : bool) :
  In row rows -> bar_volume row = S754_infinity sign ->
  get_historical_data (Ok rows) = []
  /\ (forall other, is_nan (bar_volume other) = true ->
        exists p, point_of other = Ok p /\ dp_volume p = 0).
Proof.
  intros Hin Hvol. split.
  - unfold get_historical_data.
    destruct rows as [|r rest]; [reflexivity|].
    rewrite (chart_rows_infinite_volume _ [] row sign Hin Hvol).
    reflexivity.
  - intros other Hnan. unfold point_of. rewrite Hnan. cbn [bind].
    eexists. split; reflexivity.
Qed.

(** X14 at a frame whose last bar has infinite volume. *)
Lemma infinite_volume_empties_history_witness :
  In bar_of_infinite_volume [regular_bar; bar_of_infinite_volume]
  /\ get_historical_data (Ok [regular_bar; bar_of_infinite_volume]) = []
  /\ List.length (get_historical_data (Ok [regular_bar])) = 1%nat.
Proof.
  assert (Hin : In bar_of_infinite_volume
                   [regular_bar; bar_of_infinite_volume])
    by (right; left; reflexivity).
  split; [exact Hin|]. split; [|vm_compute; reflexivity].
  exact (proj1 (infinite_volume_empties_history
                  _ bar_of_infinite_volume false Hin eq_refl)).
Defined.

End HistoryExtras.

(** ** Quotes: rankings and search *)

Module QuoteExtras.
Import F64 F64Order LimitScan SortFacts Text StockQuotes QuoteVocabulary.

(** An element of a prefix is an element of the list. *)
Lemma in_firstn {A : Type} (n : nat) (l : list A) (x : A) :
  In x (firstn n l) -> In x l.
Proof.
  intros H. rewrite <- (firstn_skipn n l). apply in_or_app. now left.
Qed.

Lemma in_skipn {A : Type} (n : nat) (l : list A) (x : A) :
  In x (skipn n l) -> In x l.
Proof.
  intros H. rewrite <- (firstn_skipn n l). apply in_or_app. now right.
Qed.

(** In a sorted list every element of a front part is related to every
    element of the rest. *)
Lemma sorted_app_inv {A : Type} (R : A -> A -> Prop) (l1 l2 : list A) :
  StronglySorted R (l1 ++ l2) ->
  forall a b, In a l1 -> In b l2 -> R a b.
Proof.
  induction l1 as [|x l1 IH]; intros Hs a b Ha Hb; [destruct Ha|].
  simpl in Hs. apply StronglySorted_inv in Hs. destruct Hs as [Hs Hx].
  destruct Ha as [->|Ha]; [|exact (IH Hs a b Ha Hb)].
  rewrite Forall_forall in Hx. apply Hx. apply in_or_app. now right.
Qed.

(** A suffix of a sorted list is sorted. *)
Lemma sorted_skipn {A : Type} (R : A -> A -> Prop) (n : nat) (l : list A) :
  StronglySorted R l -> StronglySorted R (skipn n l).
Proof.
  revert l. induction n as [|n IH]; intros l Hs; [exact Hs|].
  destruct l as [|x l]; [exact Hs|].
  simpl. apply IH. apply StronglySorted_inv in Hs. exact (proj1 Hs).
Qed.

(** [l[:limit]] is a prefix of [l]. *)
Lemma slice_to_prefix {A : Type} (limit : Z) (l : list A) :
  exists n, slice_to limit l = firstn n l.
Proof. unfold slice_to. destruct (0 <=? limit); eexists; reflexivity. Qed.

Lemma slice_to_length {A : Type} (limit : Z) (l : list A) :
  0 <= limit -> Z.of_nat (List.length (slice_to limit l)) <= limit.
Proof.
  intros H. unfold slice_to.
  replace (0 <=? limit) with true by (symmetry; apply Z.leb_le; exact H).
  pose proof (firstn_le_length (Z.to_nat limit) l). lia.
Qed.

Section Feed.
Variable feed : string -> option quote.

(** What is fetched comes from the feed, for a symbol of the list. *)
Lemma fetch_all_in (symbols : list string) (q : quote) :
  In q (fetch_all feed symbols) ->
  exists symbol, In symbol symbols /\ feed symbol = Some q.
Proof.
  unfold fetch_all. intros H. apply in_flat_map in H.
  destruct H as (symbol & Hs & Hq). exists symbol. split; [exact Hs|].
  destruct (feed symbol) as [q'|]; [|destruct Hq].
  destruct Hq as [->|[]]. reflexivity.
Qed.

Lemma fetch_all_length (symbols : list string) :
  (List.length (fetch_all feed symbols) <= List.length symbols)%nat.
Proof.
  induction symbols as [|s rest IH]; [reflexivity|].
  unfold fetch_all in *. cbn [flat_map]. rewrite length_app.
  destruct (feed s); cbn [List.length]; lia.
Qed.

Lemma fetch_all_ordered (symbols : list string) :
  ordered_feed feed -> ordered_quotes (fetch_all feed symbols).
Proof.
  intros Hfeed. apply Forall_forall. intros q Hq.
  destruct (fetch_all_in _ _ Hq) as (symbol & _ & Hs).
  exact (Hfeed symbol q Hs).
Qed.

(** X15: when every fetched change percent is a number (no NaN), with
    [n <= 24] the number of US symbols the feed answers for, both
    ['gainers'] and ['losers'] are sorted by change percent downward
    and hold [min 10 n] quotes; from 20 quotes on every gainer has a
    change percent at least that of every loser; with fewer than 20
    (and at least one) some quote is in both lists, and with at most
    10 the two lists are the same list. *)
Theorem gainers_and_losers_overlap :
  ordered_feed feed ->
  let n := List.length (fetch_all feed US_POPULAR) in
  let r := get_gainers_losers feed in
  (n <= 24)%nat
  /\ StronglySorted falling (gainers r)
  /\ StronglySorted falling (losers r)
  /\ List.length (gainers r) = Nat.min 10 n
  /\ List.length (losers r) = Nat.min 10 n
  /\ (forall q, In q (gainers r) \/ In q (losers r) ->
        exists symbol, In symbol US_POPULAR /\ feed symbol = Some q)
  /\ ((20 <= n)%nat ->
      forall a b, In a (gainers r) -> In b (losers r) -> falling a b)
  /\ ((0 < n < 20)%nat -> exists q, In q (gainers r) /\ In q (losers r))
  /\ ((n <= 10)%nat -> gainers r = losers r).
Proof.
  intros Hfeed n r. subst r. unfold get_gainers_losers.
  cbv zeta. cbn [gainers losers].
  set (l := sort q_change_percent true (fetch_all feed US_POPULAR)).
  assert (Hlen : List.length l = n)
    by (unfold l; apply sort_length).
  assert (Hsorted : StronglySorted falling l).
  { unfold l. apply (sort_sorted q_change_percent true).
    apply fetch_all_ordered. exact Hfeed. }
  assert (Hin : forall q, In q l ->
                  exists symbol, In symbol US_POPULAR /\ feed symbol = Some q).
  { intros q Hq. apply fetch_all_in.
    apply (Permutation_in _ (sort_perm q_change_percent true _)). exact Hq. }
  unfold last_n. rewrite Hlen.
  split; [subst n; exact (fetch_all_length US_POPULAR)|].
  split; [apply sorted_firstn; exact Hsorted|].
  split; [apply sorted_skipn; exact Hsorted|].
  split; [rewrite length_firstn; lia|].
  split; [rewrite length_skipn; lia|].
  split; [|split; [|split]].
  - intros q [Hq|Hq]; apply Hin;
      [exact (in_firstn _ _ _ Hq)|exact (in_skipn _ _ _ Hq)].
  - intros Hn a b Ha Hb.
    apply (sorted_app_inv falling (firstn 10 l) (skipn 10 l));
      [rewrite firstn_skipn; exact Hsorted|exact Ha|].
    replace (n - 10)%nat with ((n - 20) + 10)%nat in Hb by lia.
    rewrite <- skipn_skipn in Hb. exact (in_skipn _ _ _ Hb).
  - intros Hn.
    destruct (skipn (n - 10) l) as [|q tl] eqn:Etl.
    + apply (f_equal (@List.length quote)) in Etl.
      rewrite length_skipn in Etl. simpl in Etl. lia.
    + exists q. split; [|now left].
      rewrite <- (firstn_skipn (n - 10) l), Etl, firstn_app.
      apply in_or_app. right.
      rewrite length_firstn.
      replace (10 - Nat.min (n - 10) (List.length l))%nat
        with (S (9 - (n - 10)))%nat by lia.
      now left.
  - intros Hn. replace (n - 10)%nat with 0%nat by lia.
    rewrite firstn_all2 by lia. reflexivity.
Qed.

(** X16: when every fetched change percent is a number,
    [get_trending_stocks] returns quotes of the region's popular list
    (the US list for every region other than "TW" and "HK"), sorted by
    change percent downward, at most [limit] of them for a [limit]
    that is not negative and never more than the list has. *)
Theorem trending_stocks_sorted (region : string) (limit : Z) :
  ordered_feed feed ->
  let out := get_trending_stocks feed region limit in
  StronglySorted falling out
  /\ (List.length out <= List.length (popular region))%nat
  /\ (0 <= limit -> Z.of_nat (List.length out) <= limit)
  /\ (forall q, In q out ->
        exists symbol, In symbol (popular region) /\ feed symbol = Some q).
Proof.
  intros Hfeed out. subst out. unfold get_trending_stocks.
  set (symbols := if String.eqb region "TW" then slice_to limit TW_POPULAR
                  else if String.eqb region "HK"
                       then slice_to limit HK_POPULAR
                       else slice_to limit US_POPULAR).
  assert (Hsym : symbols = slice_to limit (popular region)).
  { unfold symbols, popular.
    destruct (String.eqb region "TW"); [reflexivity|].
    destruct (String.eqb region "HK"); reflexivity. }
  rewrite Hsym. clear symbols Hsym.
  destruct (slice_to_prefix limit (popular region)) as (k & Hk).
  split; [|split; [|split]].
  - apply (sort_sorted q_change_percent true).
    apply fetch_all_ordered. exact Hfeed.
  - rewrite sort_length.
    pose proof (fetch_all_length (slice_to limit (popular region))) as H1.
    rewrite Hk in *. pose proof (firstn_le_length k (popular region)).
    rewrite length_firstn in H1. lia.
  - intros Hlimit. rewrite sort_length.
    pose proof (fetch_all_length (slice_to limit (popular region))).
    pose proof (slice_to_length limit (popular region) Hlimit). lia.
  - intros q Hq.
    apply (Permutation_in _ (sort_perm q_change_percent true _)) in Hq.
    destruct (fetch_all_in _ _ Hq) as (symbol & Hs & Hf).
    exists symbol. split; [|exact Hf].
    rewrite Hk in Hs. exact (in_firstn _ _ _ Hs).
Qed.

End Feed.

(** The sample feed has numbers only. *)
Lemma sample_feed_ordered : ordered_feed sample_feed.
Proof.
  intros symbol q. unfold sample_feed.
  destruct (String.eqb symbol "TSLA"); [discriminate|].
  intros H. injection H as <-. cbn [q_change_percent].
  destruct (String.length symbol) as [|[|[|[|[|k]]]]]; reflexivity.
Qed.

(** X15 at the sample feed, which answers for 23 of the 24 symbols. *)
Lemma gainers_and_losers_overlap_witness :
  ordered_feed sample_feed
  /\ List.length (fetch_all sample_feed US_POPULAR) = 23%nat
  /\ List.length (gainers (get_gainers_losers sample_feed)) = 10%nat
  /\ StronglySorted falling (gainers (get_gainers_losers sample_feed)).
Proof.
  assert (Hn : List.length (fetch_all sample_feed US_POPULAR) = 23%nat)
    by (vm_compute; reflexivity).
  destruct (gainers_and_losers_overlap sample_feed sample_feed_ordered)
    as (_ & Hs & _ & Hlen & _).
  split; [exact sample_feed_ordered|]. split; [exact Hn|].
  split; [rewrite Hlen, Hn; reflexivity|exact Hs].
Defined.

(** X16 at the sample feed, region "HK", limit 5. *)
Lemma trending_stocks_sorted_witness :
  ordered_feed sample_feed
  /\ StronglySorted falling (get_trending_stocks sample_feed "HK" 5)
  /\ Z.of_nat (List.length (get_trending_stocks sample_feed "HK" 5)) <= 5.
Proof.
  destruct (trending_stocks_sorted sample_feed "HK" 5 sample_feed_ordered)
    as (Hs & _ & Hlen & _).
  split; [exact sample_feed_ordered|]. split; [exact Hs|].
  apply Hlen. lia.
Defined.

(** ** Search *)

Lemma mem_spec (s : string) (l : list string) :
  mem s l = true <-> In s l.
Proof.
  unfold mem. rewrite existsb_exists. split.
  - intros (x & Hx & E). apply String.eqb_eq in E. now subst.
  - intros H. exists s. split; [exact H|apply String.eqb_refl].
Qed.

Lemma distinct_spec (l : list string) : distinct l = true -> NoDup l.
Proof.
  induction l as [|x rest IH]; intros H; [constructor|].
  cbn [distinct] in H. apply andb_true_iff in H. destruct H as [Hx Hr].
  constructor; [|exact (IH Hr)].
  intros Hin. apply mem_spec in Hin. rewrite Hin in Hx. discriminate.
Qed.

Lemma starts_with_refl (q : list N) : starts_with q q = true.
Proof.
  induction q as [|c q IH]; [reflexivity|].
  cbn [starts_with]. now rewrite N.eqb_refl.
Qed.

Lemma starts_with_occurs (q s : list N) :
  starts_with q s = true -> occurs_in q s = true.
Proof. intros H. destruct s; cbn [occurs_in]; now rewrite H. Qed.

Lemma codes_eqb_eq (a b : list N) : codes_eqb a b = true -> a = b.
Proof.
  unfold codes_eqb. destruct (list_eq_dec N.eq_dec a b); [auto|discriminate].
Qed.

Lemma nodup_firstn {A : Type} (n : nat) (l : list A) :
  NoDup l -> NoDup (firstn n l).
Proof.
  intros H. rewrite <- (firstn_skipn n l) in H.
  exact (NoDup_app_remove_r _ _ H).
Qed.

Lemma candidates_length (query : string) (limit : Z) :
  0 <= limit ->
  Z.of_nat (List.length (candidate_symbols query limit)) <= limit.
Proof. intros H. unfold candidate_symbols. now apply slice_to_length. Qed.

(** Each popular symbol is the only exact match of its own text. *)
Lemma exact_match_unique (s : string) :
  In s all_symbols ->
  filter (fun s' => codes_eqb (codes s') (codes s)) all_symbols = [s].
Proof.
  assert (H : forallb
                (fun s =>
                   if list_eq_dec string_dec
                        (filter (fun s' => codes_eqb (codes s') (codes s))
                                all_symbols) [s]
                   then true else false) all_symbols = true)
    by (vm_compute; reflexivity).
  rewrite forallb_forall in H. intros Hs. specialize (H s Hs).
  destruct (list_eq_dec string_dec _ _) as [E|_]; [exact E|discriminate H].
Qed.

(** X17: the candidates of [search_stocks] are distinct symbols of the
    three popular lists; the normalised query (upper case, stripped)
    occurs in each of them, each passes [validate_symbol], and for a
    [limit] that is not negative there are at most [limit] of them. *)
Theorem search_candidates_are_distinct_matches (query : string) (limit : Z) :
  let candidates := candidate_symbols query limit in
  NoDup candidates
  /\ (forall s, In s candidates ->
        In s all_symbols
        /\ occurs_in (str_strip (upper (codes query))) (codes s) = true
        /\ validate_symbol s = true)
  /\ (0 <= limit -> Z.of_nat (List.length candidates) <= limit).
Proof.
  intros candidates. subst candidates. unfold candidate_symbols.
  fold all_symbols. cbv zeta.
  set (q := str_strip (upper (codes query))).
  set (exact_matches := filter (fun s => codes_eqb (codes s) q) all_symbols).
  set (prefix_matches :=
         filter (fun s => starts_with q (codes s)
                          && negb (mem s exact_matches)) all_symbols).
  set (contains_matches :=
         filter (fun s => occurs_in q (codes s)
                          && negb (mem s (exact_matches ++ prefix_matches)))
                all_symbols).
  assert (Hall : NoDup all_symbols)
    by (apply distinct_spec; vm_compute; reflexivity).
  assert (Hvalid : forall s, In s all_symbols -> validate_symbol s = true).
  { assert (H : forallb validate_symbol all_symbols = true)
      by (vm_compute; reflexivity).
    rewrite forallb_forall in H. exact H. }
  assert (Hjoin : NoDup (exact_matches ++ prefix_matches ++ contains_matches)).
  { apply NoDup_app; [apply NoDup_filter; exact Hall| |].
    - apply NoDup_app; [apply NoDup_filter; exact Hall
                       |apply NoDup_filter; exact Hall|].
      intros a Ha Hc. unfold contains_matches in Hc.
      apply filter_In in Hc. destruct Hc as [_ Hc].
      apply andb_true_iff in Hc. destruct Hc as [_ Hc].
      apply negb_true_iff in Hc.
      assert (Hm : mem a (exact_matches ++ prefix_matches) = true)
        by (apply mem_spec, in_or_app; now right).
      congruence.
    - intros a Ha Hpc. apply in_app_or in Hpc. destruct Hpc as [Hp|Hc].
      + unfold prefix_matches in Hp. apply filter_In in Hp.
        destruct Hp as [_ Hp]. apply andb_true_iff in Hp.
        destruct Hp as [_ Hp]. apply negb_true_iff in Hp.
        apply mem_spec in Ha. congruence.
      + unfold contains_matches in Hc. apply filter_In in Hc.
        destruct Hc as [_ Hc]. apply andb_true_iff in Hc.
        destruct Hc as [_ Hc]. apply negb_true_iff in Hc.
        assert (Hm : mem a (exact_matches ++ prefix_matches) = true)
          by (apply mem_spec, in_or_app; now left).
        congruence. }
  destruct (slice_to_prefix
              limit (exact_matches ++ prefix_matches ++ contains_matches))
    as (k & Hk).
  split; [rewrite Hk; apply nodup_firstn; exact Hjoin|].
  split; [|apply slice_to_length].
  intros s Hs. rewrite Hk in Hs. apply in_firstn in Hs.
  assert (H : In s all_symbols /\ occurs_in q (codes s) = true).
  { apply in_app_or in Hs. destruct Hs as [Hs|Hs];
      [|apply in_app_or in Hs; destruct Hs as [Hs|Hs]];
      apply filter_In in Hs; destruct Hs as [Hin Hs];
      (split; [exact Hin|]).
    - apply codes_eqb_eq in Hs. rewrite Hs.
      apply starts_with_occurs, starts_with_refl.
    - apply andb_true_iff in Hs. apply starts_with_occurs. exact (proj1 Hs).
    - apply andb_true_iff in Hs. exact (proj1 Hs). }
  destruct H as [Hin Hocc]. split; [exact Hin|].
  split; [exact Hocc|exact (Hvalid s Hin)].
Qed.

(** X18: when the normalised query is one of the popular symbols and
    [limit] is at least 1, that symbol is the first candidate. *)
Theorem exact_match_is_first (query : string) (limit : Z) (s : string) :
  In s all_symbols ->
  codes s = str_strip (upper (codes query)) ->
  1 <= limit ->
  exists rest, candidate_symbols query limit = s :: rest.
Proof.
  intros Hs Hq Hlimit. unfold candidate_symbols. fold all_symbols.
  cbv zeta. rewrite <- Hq, (exact_match_unique s Hs).
  unfold slice_to.
  replace (0 <=? limit) with true by (symmetry; apply Z.leb_le; lia).
  destruct (Z.to_nat limit) as [|k] eqn:Ek; [lia|].
  cbn [app firstn]. eexists. reflexivity.
Qed.

(** X18 at the query " 2330.tw " with limit 3. *)
Lemma exact_match_is_first_witness :
  In "2330.TW"%string all_symbols
  /\ exists rest, candidate_symbols " 2330.tw " 3 = "2330.TW"%string :: rest.
Proof.
  assert (Hin : In "2330.TW"%string all_symbols).
  { apply mem_spec. vm_compute. reflexivity. }
  split; [exact Hin|].
  apply (exact_match_is_first " 2330.tw " 3 "2330.TW" Hin);
    [vm_compute; reflexivity|lia].
Defined.

Section SearchFeed.
Variable feed : string -> option quote.

(** Within the limit the loop fetches every candidate. *)
Lemma collect_within_limit (limit : Z) (candidates : list string)
      (results : list quote) :
  Z.of_nat (List.length results + List.length candidates) <= limit ->
  collect feed limit candidates results
  = results ++ fetch_all feed candidates.
Proof.
  revert results. induction candidates as [|s rest IH]; intros results H.
  - cbn. now rewrite app_nil_r.
  - cbn [collect]. unfold fetch_all. cbn [flat_map]. fold (fetch_all feed rest).
    cbn [List.length] in H.
    destruct (feed s) as [q|].
    + rewrite length_app. cbn [List.length].
      destruct (Z.leb_spec limit (Z.of_nat (List.length results + 1)))
        as [Hstop|Hgo].
      * assert (Hrest : rest = [])
          by (destruct rest; [reflexivity|cbn [List.length] in H; lia]).
        subst rest. cbn. reflexivity.
      * rewrite IH by (rewrite length_app; cbn [List.length]; lia).
        rewrite <- app_assoc. reflexivity.
    + cbn [app]. apply IH. lia.
Qed.

(** With a limit of at most one the loop stops at the first quote. *)
Lemma collect_stops_at_first (limit : Z) (candidates : list string) :
  limit <= 1 ->
  collect feed limit candidates []
  = firstn 1 (fetch_all feed candidates).
Proof.
  intros H. induction candidates as [|s rest IH]; [reflexivity|].
  cbn [collect]. unfold fetch_all. cbn [flat_map]. fold (fetch_all feed rest).
  destruct (feed s) as [q|]; [|exact IH].
  cbn [app List.length].
  replace (limit <=? Z.of_nat 1) with true
    by (symmetry; apply Z.leb_le; lia).
  reflexivity.
Qed.

(** X19: for a [limit] that is not negative the [break] of
    [search_stocks] never cuts anything: the result is every quote the
    feed has for the candidates, in candidate order, at most [limit]
    of them.  For a negative [limit] the candidates are all matches
    but the last [-limit], and the loop stops at the first quote: the
    result has at most one entry. *)
Theorem search_stocks_result (query : string) (limit : Z) :
  (0 <= limit ->
   search_stocks feed query limit
   = fetch_all feed (candidate_symbols query limit)
   /\ Z.of_nat (List.length (search_stocks feed query limit)) <= limit)
  /\ (limit < 0 ->
      search_stocks feed query limit
      = firstn 1 (fetch_all feed (candidate_symbols query limit))
      /\ (List.length (search_stocks feed query limit) <= 1)%nat)
  /\ (forall q, In q (search_stocks feed query limit) ->
        exists s, In s (candidate_symbols query limit)
                  /\ feed s = Some q).
Proof.
  unfold search_stocks.
  assert (Hpos : 0 <= limit ->
                 collect feed limit (candidate_symbols query limit) []
                 = fetch_all feed (candidate_symbols query limit)).
  { intros Hlimit. rewrite collect_within_limit; [reflexivity|].
    cbn [List.length Nat.add].
    exact (candidates_length query limit Hlimit). }
  assert (Hneg : limit < 0 ->
                 collect feed limit (candidate_symbols query limit) []
                 = firstn 1 (fetch_all feed (candidate_symbols query limit)))
    by (intros Hlimit; apply collect_stops_at_first; lia).
  split; [|split].
  - intros Hlimit. split; [exact (Hpos Hlimit)|].
    rewrite (Hpos Hlimit).
    pose proof (fetch_all_length feed (candidate_symbols query limit)).
    pose proof (candidates_length query limit Hlimit).
    lia.
  - intros Hlimit. split; [exact (Hneg Hlimit)|].
    rewrite (Hneg Hlimit). apply firstn_le_length.
  - intros q Hq. apply fetch_all_in.
    destruct (Z.leb_spec 0 limit) as [Hlimit|Hlimit].
    + rewrite (Hpos Hlimit) in Hq. exact Hq.
    + rewrite (Hneg Hlimit) in Hq. exact (in_firstn _ _ _ Hq).
Qed.

End SearchFeed.

End QuoteExtras.

(** ** Symbol validation *)

Module SymbolExtras.
Import Text Regex StockQuotes RegexVocabulary.

(** *** Matching by derivatives is matching *)

Lemma inv_eps (s : list N) : matches Eps s -> s = [].
Proof. intros H. inversion H. reflexivity. Qed.

Lemma inv_void (s : list N) : matches Void s -> False.
Proof. intros H. inversion H. Qed.

Lemma inv_class (p : N -> bool) (s : list N) :
  matches (Class p) s -> exists c, s = [c] /\ p c = true.
Proof. intros H. inversion H; subst. now exists c. Qed.

Lemma inv_seq (r1 r2 : regex) (s : list N) :
  matches (Seq r1 r2) s ->
  exists s1 s2, s = s1 ++ s2 /\ matches r1 s1 /\ matches r2 s2.
Proof. intros H. inversion H; subst. now exists s1, s2. Qed.

Lemma inv_alt (r1 r2 : regex) (s : list N) :
  matches (Alt r1 r2) s -> matches r1 s \/ matches r2 s.
Proof. intros H. inversion H; subst; [now left|now right]. Qed.

Lemma nullable_spec (r : regex) : nullable r = true <-> matches r [].
Proof.
  induction r as [| |p|r1 IH1 r2 IH2|r1 IH1 r2 IH2|r IH]; cbn [nullable].
  - split; [discriminate|intros H; destruct (inv_void _ H)].
  - split; [intros _; constructor|reflexivity].
  - split; [discriminate|].
    intros H. apply inv_class in H. destruct H as (c & H & _). discriminate.
  - rewrite andb_true_iff, IH1, IH2. split.
    + intros [H1 H2]. exact (MSeq _ _ [] [] H1 H2).
    + intros H. apply inv_seq in H. destruct H as (s1 & s2 & E & H1 & H2).
      symmetry in E. apply app_eq_nil in E. destruct E as [-> ->].
      now split.
  - rewrite orb_true_iff, IH1, IH2. split.
    + intros [H|H]; [now apply MAltL|now apply MAltR].
    + apply inv_alt.
  - split; [intros _; constructor|reflexivity].
Qed.

(** A non-empty match of a star starts with a non-empty match of its
    body. *)
Lemma star_cons_inv (r : regex) (c : N) (s : list N) :
  matches (Star r) (c :: s) ->
  exists s1 s2, s = s1 ++ s2 /\ matches r (c :: s1) /\ matches (Star r) s2.
Proof.
  intros H. remember (Star r) as r' eqn:Er. remember (c :: s) as t eqn:Et.
  revert c s Et.
  induction H as [|p c0 Hp|r1 r2 s1 s2 H1 _ H2 _|r1 r2 s0 H0 _|r1 r2 s0 H0 _
                  |r0|r0 s1 s2 H1 _ H2 IH2];
    intros c s Et; try discriminate Er; try discriminate Et.
  injection Er as ->.
  destruct s1 as [|c1 s1].
  - simpl in Et. exact (IH2 eq_refl c s Et).
  - simpl in Et. injection Et as -> <-. now exists s1, s2.
Qed.

Lemma deriv_spec (r : regex) (c : N) (s : list N) :
  matches (deriv c r) s <-> matches r (c :: s).
Proof.
  revert s.
  induction r as [| |p|r1 IH1 r2 IH2|r1 IH1 r2 IH2|r IH]; intros s;
    cbn [deriv].
  - split; intros H; inversion H.
  - split; intros H; inversion H.
  - destruct (p c) eqn:Ep; split; intros H.
    + apply inv_eps in H. subst. now constructor.
    + apply inv_class in H. destruct H as (c' & E & _).
      injection E as <- ->. constructor.
    + destruct (inv_void _ H).
    + apply inv_class in H. destruct H as (c' & E & Hp').
      injection E as <- ->. congruence.
  - assert (Hfront : forall t,
               matches (Seq (deriv c r1) r2) t ->
               matches (Seq r1 r2) (c :: t)).
    { intros t H. apply inv_seq in H.
      destruct H as (s1 & s2 & -> & H1 & H2).
      apply IH1 in H1. exact (MSeq _ _ (c :: s1) s2 H1 H2). }
    assert (Hback : matches (Seq r1 r2) (c :: s) ->
                    matches (Seq (deriv c r1) r2) s
                    \/ (nullable r1 = true /\ matches (deriv c r2) s)).
    { intros H. apply inv_seq in H.
      destruct H as (s1 & s2 & E & H1 & H2).
      destruct s1 as [|c1 s1].
      - simpl in E. subst s2. right.
        split; [now apply nullable_spec|now apply IH2].
      - simpl in E. injection E as <- ->. left.
        apply IH1 in H1. now constructor. }
    destruct (nullable r1) eqn:En; split; intros H.
    + apply inv_alt in H. destruct H as [H|H]; [exact (Hfront s H)|].
      apply IH2 in H. apply nullable_spec in En.
      exact (MSeq _ _ [] (c :: s) En H).
    + destruct (Hback H) as [H'|[_ H']]; [now apply MAltL|now apply MAltR].
    + exact (Hfront s H).
    + destruct (Hback H) as [H'|[H' _]]; [exact H'|discriminate H'].
  - split; intros H.
    + apply inv_alt in H.
      destruct H as [H|H]; [apply MAltL, IH1|apply MAltR, IH2]; exact H.
    + apply inv_alt in H.
      destruct H as [H|H]; [apply MAltL, IH1|apply MAltR, IH2]; exact H.
  - split; intros H.
    + apply inv_seq in H. destruct H as (s1 & s2 & -> & H1 & H2).
      apply IH in H1. exact (MStarApp _ (c :: s1) s2 H1 H2).
    + apply star_cons_inv in H. destruct H as (s1 & s2 & -> & H1 & H2).
      apply IH in H1. now constructor.
Qed.

Lemma fullmatch_spec (r : regex) (s : list N) :
  fullmatch r s = true <-> matches r s.
Proof.
  revert r. induction s as [|c s IH]; intros r; cbn [fullmatch].
  - apply nullable_spec.
  - rewrite IH. apply deriv_spec.
Qed.

(** *** The pattern of [validate_symbol] *)

Lemma star_class (p : N -> bool) (s : list N) :
  matches (Star (Class p)) s <-> Forall (fun c => p c = true) s.
Proof.
  split.
  - intros H. remember (Star (Class p)) as r eqn:Er.
    induction H as [|p0 c0 Hp|r1 r2 s1 s2 H1 _ H2 _|r1 r2 s0 H0 _
                    |r1 r2 s0 H0 _|r0|r0 s1 s2 H1 _ H2 IH2];
      try discriminate Er; [constructor|].
    injection Er as ->. apply inv_class in H1.
    destruct H1 as (c & -> & Hc). constructor; [exact Hc|].
    exact (IH2 eq_refl).
  - induction 1 as [|c s Hc _ IH]; [constructor|].
    exact (MStarApp _ [c] s (MClass p c Hc) IH).
Qed.

Lemma plus_class (p : N -> bool) (s : list N) :
  matches (Plus (Class p)) s
  <-> s <> [] /\ Forall (fun c => p c = true) s.
Proof.
  unfold Plus. split.
  - intros H. apply inv_seq in H. destruct H as (s1 & s2 & -> & H1 & H2).
    apply inv_class in H1. destruct H1 as (c & -> & Hc).
    apply star_class in H2. split; [discriminate|]. now constructor.
  - intros [Hne H]. destruct H as [|c s Hc Hs]; [congruence|].
    apply star_class in Hs. exact (MSeq _ _ [c] s (MClass p c Hc) Hs).
Qed.

Lemma opt_spec (r : regex) (s : list N) :
  matches (Opt r) s <-> s = [] \/ matches r s.
Proof.
  unfold Opt. split.
  - intros H. apply inv_alt in H.
    destruct H as [H|H]; [left; exact (inv_eps _ H)|now right].
  - intros [->|H]; [apply MAltL; constructor|now apply MAltR].
Qed.

(** The exchange suffix: two to four capitals. *)
Lemma capitals_spec (s : list N) :
  matches (Seq (Class capital)
               (Seq (Class capital)
                    (Opt (Seq (Class capital) (Opt (Class capital)))))) s
  <-> (2 <= List.length s <= 4)%nat
      /\ Forall (fun c => capital c = true) s.
Proof.
  split.
  - intros H.
    apply inv_seq in H. destruct H as (a & s1 & -> & Ha & H).
    apply inv_class in Ha. destruct Ha as (ca & -> & Hca).
    apply inv_seq in H. destruct H as (b & s2 & -> & Hb & H).
    apply inv_class in Hb. destruct Hb as (cb & -> & Hcb).
    apply opt_spec in H. destruct H as [->|H].
    + split; [simpl; lia|repeat constructor; assumption].
    + apply inv_seq in H. destruct H as (c & s3 & -> & Hc & H).
      apply inv_class in Hc. destruct Hc as (cc & -> & Hcc).
      apply opt_spec in H. destruct H as [->|H].
      * split; [simpl; lia|repeat constructor; assumption].
      * apply inv_class in H. destruct H as (cd & -> & Hcd).
        split; [simpl; lia|repeat constructor; assumption].
  - intros [Hlen H].
    destruct s as [|ca [|cb [|cc [|cd [|ce s]]]]]; simpl in Hlen; try lia.
    + inversion H as [|? ? Ha H1]; subst.
      inversion H1 as [|? ? Hb H2]; subst.
      apply (MSeq _ _ [ca] [cb] (MClass _ _ Ha)).
      apply (MSeq _ _ [cb] [] (MClass _ _ Hb)).
      apply opt_spec. now left.
    + inversion H as [|? ? Ha H1]; subst.
      inversion H1 as [|? ? Hb H2]; subst.
      inversion H2 as [|? ? Hc H3]; subst.
      apply (MSeq _ _ [ca] [cb; cc] (MClass _ _ Ha)).
      apply (MSeq _ _ [cb] [cc] (MClass _ _ Hb)).
      apply opt_spec. right.
      apply (MSeq _ _ [cc] [] (MClass _ _ Hc)).
      apply opt_spec. now left.
    + inversion H as [|? ? Ha H1]; subst.
      inversion H1 as [|? ? Hb H2]; subst.
      inversion H2 as [|? ? Hc H3]; subst.
      inversion H3 as [|? ? Hd H4]; subst.
      apply (MSeq _ _ [ca] [cb; cc; cd] (MClass _ _ Ha)).
      apply (MSeq _ _ [cb] [cc; cd] (MClass _ _ Hb)).
      apply opt_spec. right.
      apply (MSeq _ _ [cc] [cd] (MClass _ _ Hc)).
      apply opt_spec. right. exact (MClass _ _ Hd).
Qed.

Lemma symbol_pattern_spec (t : list N) :
  matches symbol_pattern t <-> symbol_shape t.
Proof.
  unfold symbol_pattern, symbol_shape. split.
  - intros H. apply inv_seq in H.
    destruct H as (body & suffix & -> & Hb & Hs).
    apply plus_class in Hb. destruct Hb as [Hne Hb].
    exists body, suffix. split; [reflexivity|]. split; [exact Hne|].
    split; [exact Hb|].
    apply opt_spec in Hs. destruct Hs as [->|Hs]; [now left|right].
    apply inv_seq in Hs. destruct Hs as (d & letters & -> & Hd & Hl).
    apply inv_class in Hd. destruct Hd as (c & -> & Hc).
    unfold dot in Hc. apply N.eqb_eq in Hc. subst c.
    exists letters. split; [reflexivity|]. now apply capitals_spec.
  - intros (body & suffix & -> & Hne & Hb & Hs).
    apply MSeq; [apply plus_class; now split|].
    apply opt_spec. destruct Hs as [->|(letters & -> & Hlen & Hl)];
      [now left|right].
    apply (MSeq _ _ [46%N] letters); [now constructor|].
    apply capitals_spec. now split.
Qed.

(** *** Stripping and upper-casing *)

Lemma str_lstrip_head (cs : list N) :
  match str_lstrip cs with
  | [] => True
  | c :: _ => is_str_space c = false
  end.
Proof.
  induction cs as [|c cs IH]; [exact I|].
  cbn [str_lstrip]. destruct (is_str_space c) eqn:E; [exact IH|exact E].
Qed.

(** The upper case of a character that is not white space does not end
    in a newline. *)
Lemma upper_code_last (c : N) :
  is_str_space c = false ->
  exists d front, rev (upper_code c) = d :: front /\ d <> 10%N.
Proof.
  intros Hc. unfold upper_code.
  destruct ((97 <=? c) && (c <=? 122))%N eqn:E1.
  { apply andb_true_iff in E1. destruct E1 as [E1 E1'].
    apply N.leb_le in E1, E1'. eexists. eexists.
    split; [reflexivity|]. lia. }
  destruct (c =? 181)%N; [eexists; eexists; split; [reflexivity|lia]|].
  destruct (c =? 223)%N; [eexists; eexists; split; [reflexivity|lia]|].
  destruct ((224 <=? c) && (c <=? 254) && negb (c =? 247))%N eqn:E4.
  { apply andb_true_iff in E4. destruct E4 as [E4 _].
    apply andb_true_iff in E4. destruct E4 as [E4 E4'].
    apply N.leb_le in E4, E4'. eexists. eexists.
    split; [reflexivity|]. lia. }
  destruct (c =? 255)%N; [eexists; eexists; split; [reflexivity|lia]|].
  eexists. eexists. split; [reflexivity|].
  intros ->. discriminate Hc.
Qed.

(** A list starts with a newline, or a match on that is its default. *)
Lemma newline_head_cases (l : list N) :
  (exists front, l = 10%N :: front)
  \/ (forall (A : Type) (a : list N -> A) (b : A),
        match l with
        | 10%N :: front => a front
        | _ => b
        end = b).
Proof.
  destruct l as [|d front]; [right; reflexivity|].
  destruct (N.eq_dec d 10) as [->|Hne]; [left; now exists front|right].
  intros A a b.
  destruct d as [|p]; [reflexivity|].
  do 4 (try (destruct p as [p|p|]; try reflexivity)).
  congruence.
Qed.

(** Stripped and upper-cased text does not end in a newline, so the
    [$] of the pattern matches at the very end only. *)
Lemma stripped_upper_end (cs : list N) (front : list N) :
  rev (upper (str_strip cs)) <> 10%N :: front.
Proof.
  unfold str_strip, upper.
  pose proof (str_lstrip_head (rev (str_lstrip cs))) as Hhead.
  destruct (str_lstrip (rev (str_lstrip cs))) as [|c rest];
    [discriminate|].
  cbn [rev]. rewrite flat_map_app, rev_app_distr. cbn [flat_map].
  rewrite app_nil_r.
  destruct (upper_code_last c Hhead) as (d & front' & -> & Hd).
  cbn [app]. intros E. injection E as E _. contradiction.
Qed.

Lemma match_anchored_stripped (r : regex) (cs : list N) :
  match_anchored r (upper (str_strip cs))
  = fullmatch r (upper (str_strip cs)).
Proof.
  unfold match_anchored.
  destruct (newline_head_cases (rev (upper (str_strip cs))))
    as [(front & E)|H].
  - destruct (stripped_upper_end cs front E).
  - rewrite H. apply orb_false_r.
Qed.

(** X20: [validate_symbol] accepts exactly the text that, stripped of
    surrounding white space and put in upper case, has at most 15
    characters and is one or more capitals and digits, optionally
    followed by a dot and two to four capitals. *)
Theorem validate_symbol_accepts_exactly (symbol : string) :
  validate_symbol symbol = true
  <-> (List.length (upper (str_strip (codes symbol))) <= 15)%nat
      /\ symbol_shape (upper (str_strip (codes symbol))).
Proof.
  unfold validate_symbol.
  destruct (String.eqb_spec symbol "") as [->|_].
  - split; [discriminate|]. intros [_ (body & suffix & E & Hne & _)].
    cbn in E. destruct body; [congruence|discriminate E].
  - cbv zeta. rewrite match_anchored_stripped.
    set (t := upper (str_strip (codes symbol))).
    rewrite <- symbol_pattern_spec, <- fullmatch_spec.
    destruct (List.length t <? 1)%nat eqn:E1.
    + apply Nat.ltb_lt in E1. cbn [orb].
      split; [discriminate|]. intros [_ H].
      destruct t; [discriminate H|simpl in E1; lia].
    + cbn [orb]. destruct (15 <? List.length t)%nat eqn:E15.
      * apply Nat.ltb_lt in E15. split; [discriminate|]. intros [H _]. lia.
      * apply Nat.ltb_ge in E15.
        destruct (fullmatch symbol_pattern t); cbn [negb].
        -- split; [intros _; now split|reflexivity].
        -- split; [discriminate|]. intros [_ H]. discriminate H.
Qed.

(** *** White space around a symbol *)

Lemma codes_app (a b : string) :
  codes (a ++ b) = codes a ++ codes b.
Proof.
  unfold codes. induction a as [|c a IH]; [reflexivity|].
  cbn [append list_ascii_of_string map app]. now rewrite IH.
Qed.

Lemma str_lstrip_blank_app (w l : list N) :
  Forall (fun c => is_str_space c = true) w ->
  str_lstrip (w ++ l) = str_lstrip l.
Proof.
  induction 1 as [|c w Hc _ IH]; [reflexivity|].
  cbn [app str_lstrip]. now rewrite Hc.
Qed.

Lemma str_lstrip_app (cs w : list N) :
  str_lstrip (cs ++ w)
  = match str_lstrip cs with
    | [] => str_lstrip w
    | _ => str_lstrip cs ++ w
    end.
Proof.
  induction cs as [|c cs IH]; [cbn; now destruct (str_lstrip w)|].
  cbn [app str_lstrip]. destruct (is_str_space c); [exact IH|reflexivity].
Qed.

Lemma str_strip_padded (w cs w' : list N) :
  Forall (fun c => is_str_space c = true) w ->
  Forall (fun c => is_str_space c = true) w' ->
  str_strip (w ++ cs ++ w') = str_strip cs.
Proof.
  intros Hw Hw'. unfold str_strip.
  rewrite (str_lstrip_blank_app w _ Hw), str_lstrip_app.
  assert (Hblank : str_lstrip w' = []).
  { rewrite <- (app_nil_r w'). now rewrite str_lstrip_blank_app. }
  destruct (str_lstrip cs) as [|c rest] eqn:E.
  - now rewrite Hblank.
  - rewrite rev_app_distr.
    rewrite str_lstrip_blank_app by (apply Forall_rev; exact Hw').
    reflexivity.
Qed.

(** The result depends on the stripped text only. *)
Lemma validate_symbol_stripped (a b : string) :
  str_strip (codes a) = str_strip (codes b) ->
  validate_symbol a = validate_symbol b.
Proof.
  intros H. unfold validate_symbol.
  destruct (String.eqb_spec a "") as [->|_];
    destruct (String.eqb_spec b "") as [->|_]; [reflexivity| | |].
  - rewrite <- H. reflexivity.
  - rewrite H. reflexivity.
  - cbv zeta. now rewrite H.
Qed.

(** X21: white space in front of and behind a symbol (blanks, tabs,
    line ends) does not change what [validate_symbol] returns. *)
Theorem validate_symbol_ignores_padding (pad symbol pad' : string) :
  blank pad -> blank pad' ->
  validate_symbol (pad ++ symbol ++ pad') = validate_symbol symbol.
Proof.
  intros Hpad Hpad'. apply validate_symbol_stripped.
  rewrite !codes_app. apply str_strip_padded; assumption.
Qed.

(** X21 at "aapl" between a blank and a line end. *)
Lemma validate_symbol_ignores_padding_witness :
  let line_end := String (ascii_of_nat 10) EmptyString in
  blank " " /\ blank line_end
  /\ validate_symbol (" " ++ "aapl" ++ line_end) = true.
Proof.
  assert (H1 : blank " ") by (repeat constructor).
  assert (H2 : blank (String (ascii_of_nat 10) EmptyString))
    by (repeat constructor).
  split; [exact H1|]. split; [exact H2|].
  rewrite (validate_symbol_ignores_padding " " "aapl" _ H1 H2).
  vm_compute. reflexivity.
Defined.

End SymbolExtras.

(** ** Index quotes *)

Module IndexExtras.
Import F64 Builtins LimitScan TaiwanFeeds IndexVocabulary.

(** A number minus itself is +0.0; an infinity or NaN minus itself is
    NaN. *)
Lemma sub_self (x : float) :
  sub x x = if is_finite x then S754_zero false else S754_nan.
Proof.
  destruct x as [[|]|[|]| |s m e]; try reflexivity.
  unfold sub, SFsub. rewrite Z.sub_diag. reflexivity.
Qed.

(** The dict of [_get_taiex_index] is of type "main". *)
Lemma taiex_of_info_type (index_info : taiex_info) (q : index_quote) :
  taiex_of_info index_info = Some q ->
  idx_type q = "main"%string /\ idx_symbol q = "^TWII"%string.
Proof.
  unfold taiex_of_info.
  destruct (py_float (get_or (z_field index_info) (JInt 0)))
    as [current|]; [|discriminate].
  destruct (py_float (get_or (y_field index_info) (JFloat current)))
    as [previous|]; [|discriminate].
  destruct (py_int (get_or (v_field index_info) (JInt 0)))
    as [volume|]; [|discriminate].
  intros H. injection H as <-. split; reflexivity.
Qed.

(** The dict of [_get_otc_index] is of type "otc" and has volume 0. *)
Lemma otc_of_row_type (index_data : list json) (q : index_quote) :
  otc_of_row index_data = Some q ->
  idx_type q = "otc"%string /\ idx_symbol q = "^TPEX"%string
  /\ idx_volume q = 0.
Proof.
  unfold otc_of_row.
  destruct (nth_error index_data 1) as [c1|]; [|discriminate].
  destruct (nth_error index_data 2) as [c2|]; [|discriminate].
  destruct (nth_error index_data 3) as [c3|]; [|discriminate].
  destruct (option_map py_float (py_replace "," c1)) as [[x1|]|];
    try discriminate.
  destruct (option_map py_float (py_replace "," c2)) as [[x2|]|];
    try discriminate.
  destruct (option_map py_float (py_replace "%" c3)) as [[x3|]|];
    try discriminate.
  intros H. injection H as <-. repeat split.
Qed.

Lemma get_taiex_index_type
      (reply : exc (Z * exc (option (list taiex_info)))) (q : index_quote) :
  _get_taiex_index reply = Some q -> idx_type q = "main"%string.
Proof.
  unfold _get_taiex_index.
  destruct reply as [[status_code [[[|info rest]|]|e]]|e]; try discriminate.
  destruct (status_code =? 200); [|discriminate].
  intros H. exact (proj1 (taiex_of_info_type _ _ H)).
Qed.

Lemma get_otc_index_type
      (reply : exc (Z * exc (option (list (list json))))) (q : index_quote) :
  _get_otc_index reply = Some q -> idx_type q = "otc"%string.
Proof.
  unfold _get_otc_index.
  destruct reply as [[status_code [[[|row rest]|]|e]]|e]; try discriminate.
  destruct (status_code =? 200); [|discriminate].
  intros H. exact (proj1 (otc_of_row_type _ _ H)).
Qed.

(** X22: in the summary of [get_taiwan_market_summary], ['main'] is
    exactly what [_get_taiex_index] returned and ['otc'] exactly what
    [_get_otc_index] returned, [None] included, whatever the other
    fetch and the limit-stock request did; ['all'] is the list of the
    dicts that are there, TAIEX first, of at most two entries. *)
Theorem summary_indices_by_source
        (taiex_reply : exc (Z * exc (option (list taiex_info))))
        (otc_reply : exc (Z * exc (option (list (list json)))))
        (reply : exc (Z * exc (option (list (list string))))) :
  let taiex_data := _get_taiex_index taiex_reply in
  let otc_data := _get_otc_index otc_reply in
  let m := get_taiwan_market_summary taiex_data otc_data reply in
  main m = taiex_data
  /\ otc m = otc_data
  /\ all m = present taiex_data ++ present otc_data
  /\ (List.length (all m) <= 2)%nat.
Proof.
  intros taiex_data otc_data m. subst m.
  unfold get_taiwan_market_summary, get_taiwan_indices, first_of_type.
  cbn [main otc all].
  pose proof (get_taiex_index_type taiex_reply) as Ht.
  pose proof (get_otc_index_type otc_reply) as Ho.
  fold taiex_data in Ht. fold otc_data in Ho.
  destruct taiex_data as [t|]; destruct otc_data as [o|];
    cbn [app find present List.length];
    try rewrite (Ht t eq_refl); try rewrite (Ho o eq_refl);
    cbn [String.eqb Ascii.eqb Bool.eqb andb find];
    repeat split; lia.
Qed.

(** X23: a TAIEX message without the key ['y'] takes the last price as
    the previous close: for a finite last price the dict reports the
    change +0.0 and the change percent 0.0 (the int 0 when the price
    is not positive); for an infinite or NaN last price the change is
    NaN. *)
Theorem taiex_without_previous_close
        (index_info : taiex_info) (q : index_quote) :
  y_field index_info = None ->
  taiex_of_info index_info = Some q ->
  exists current_value,
    py_float (get_or (z_field index_info) (JInt 0)) = Some current_value
    /\ idx_current_price q = PyFloat (round2 current_value)
    /\ (is_finite current_value = true ->
        idx_change q = PyFloat (S754_zero false)
        /\ idx_change_percent q
           = (if ltb zero current_value then PyFloat (S754_zero false)
              else PyInt 0))
    /\ (is_finite current_value = false ->
        idx_change q = PyFloat S754_nan).
Proof.
  intros Hy. unfold taiex_of_info. rewrite Hy.
  destruct (py_float (get_or (z_field index_info) (JInt 0)))
    as [current|]; [|discriminate].
  cbn [get_or py_float]. rewrite sub_self.
  destruct (py_int (get_or (v_field index_info) (JInt 0)))
    as [volume|]; [|discriminate].
  intros H. injection H as <-. cbn [idx_current_price idx_change
                                     idx_change_percent].
  exists current. split; [reflexivity|]. split; [reflexivity|].
  split; intros Hfin; rewrite Hfin.
  - split; [reflexivity|].
    destruct (ltb zero current) eqn:Epos; [|reflexivity].
    destruct current as [[|]|[|]| |[|] m e]; try discriminate Hfin;
      try discriminate Epos.
    reflexivity.
  - reflexivity.
Qed.

(** X23 at a message that has a last price only. *)
Lemma taiex_without_previous_close_witness :
  exists q,
    taiex_of_info price_only = Some q
    /\ idx_change q = PyFloat (S754_zero false)
    /\ idx_change_percent q = PyFloat (S754_zero false).
Proof.
  destruct (taiex_of_info price_only) as [q|] eqn:E;
    [|vm_compute in E; discriminate E].
  exists q. split; [reflexivity|].
  destruct (taiex_without_previous_close price_only q eq_refl E)
    as (current & Hc & _ & Hfin & _).
  vm_compute in Hc. injection Hc as <-.
  destruct (Hfin eq_refl) as [H1 H2]. split; [exact H1|exact H2].
Defined.

End IndexExtras.
